(** * Book tracking API: the book controller and its validation schemas

    A shallow embedding of
      - backend/src/utils/validation   (filterSchema, bookSchema),
      - backend/src/models/Book.ts     (the document schema),
      - backend/src/controllers/bookController.ts (the request handlers),
    followed by the properties of the handlers.

    Conventions of the embedding.
      - The collection is the list of its documents in insertion order.
      - A JavaScript number is a rational [Q], and the rounding of its
        arithmetic is not modelled, with one exception: an identifier is an
        integer [Z], and the numbers that [parseInt] returns and the sum
        [bookId + 1] are rounded to a double ([JS.toDouble]).
      - A string is a sequence of code units below 256.
      - A value of the query string is a string, or the array or object that
        the query parser makes of a repeated or bracketed key; a numeric
        parameter is given by the result of its coercion.
      - The database is taken to read the counts of [skip] and [limit] as
        whole numbers, the fraction dropped.
      - The driver-generated [_id] and [__v] of a document are left out.
      - What the platform decides and the repository does not (parsing of
        dates, compiling a regular expression, ordering documents by a named
        field, which may be refused) is a variable of the section
        [Controller]. *)

From Stdlib Require Import ZArith QArith Qround List String Ascii Bool Lia Permutation.
From Stdlib Require Import Lqa Sorted.
Import ListNotations.
Local Open Scope string_scope.
Local Open Scope list_scope.
Local Open Scope Z_scope.

(** ** JavaScript values *)

(** A parsed JSON body.  An object is the list of its bindings and a key is
    read from the first binding that has it. *)
#[local] Set Warnings "-register-all".
Inductive json : Type :=
| JNull
| JBool (b : bool)
| JNum (n : Q)
| JStr (s : string)
| JArr (xs : list json)
| JObj (kvs : list (string * json)).

Fixpoint get (k : string) (kvs : list (string * json)) : option json :=
  match kvs with
  | [] => None
  | (k', v) :: rest => if String.eqb k k' then Some v else get k rest
  end.

(** [new Date(s)]: a time stamp in milliseconds, or the invalid date. *)
Inductive JsDate : Type :=
| Date (ms : Z)
| InvalidDate.

(** The result of the coercion [Number(raw)] of a query parameter: NaN or
    a finite number (an infinite one is left out). *)
Inductive coerced (A : Type) : Type :=
| NaN
| Num (a : A).
Arguments NaN {A}.
Arguments Num {A} a.

(** A value of [req.query]: a string, or the array or object that the query
    parser makes of a key that is repeated or written with brackets. *)
Inductive param : Type :=
| Text (s : string)
| Nested.

(** ** Numbers, parseInt and the printing of a number *)

Module JS.

(** The double nearest to an integer, a tie going to the even significand:
    an integer of magnitude up to 2^53 is a double, a greater one keeps its
    53 leading bits.  (Magnitudes beyond the greatest double, about 1.8e308,
    are left out.) *)
Definition toDouble (z : Z) : Z :=
  let a := Z.abs z in
  if a <=? 2 ^ 53 then z
  else
    let ulp := 2 ^ (Z.log2 a - 52) in
    let q := a / ulp in
    let r := a mod ulp in
    Z.sgn z * ((if 2 * r <? ulp then q
                else if ulp <? 2 * r then q + 1
                else if Z.even q then q else q + 1) * ulp).

(** [x + y] on two numbers that are integers. *)
Definition plus (x y : Z) : Z := toDouble (x + y).

(** White space and line terminators that [parseInt] skips: TAB, LF, VT, FF,
    CR, SP and NBSP. *)
Definition isWhiteSpace (c : ascii) : bool :=
  let n := N_of_ascii c in
  ((9 <=? n) && (n <=? 13) || (n =? 32) || (n =? 160))%N.

Fixpoint trimStart (s : string) : string :=
  match s with
  | String c rest => if isWhiteSpace c then trimStart rest else s
  | EmptyString => s
  end.

(** The value of a character as a digit: 0-9, then a-z and A-Z for 10-35. *)
Definition digitValue (c : ascii) : option Z :=
  let n := Z.of_N (N_of_ascii c) in
  if (48 <=? n) && (n <=? 57) then Some (n - 48)
  else if (97 <=? n) && (n <=? 122) then Some (n - 87)
  else if (65 <=? n) && (n <=? 90) then Some (n - 55)
  else None.

(** The digits of the longest prefix of [s] written in radix [R]. *)
Fixpoint radixPrefix (R : Z) (s : string) : list Z :=
  match s with
  | String c rest =>
      match digitValue c with
      | Some d => if d <? R then d :: radixPrefix R rest else []
      | None => []
      end
  | EmptyString => []
  end.

Definition mathInt (R : Z) (ds : list Z) : Z :=
  fold_left (fun acc d => acc * R + d) ds 0.

(** A leading sign is taken off. *)
Definition stripSign (s : string) : Z * string :=
  match s with
  | String c rest =>
      if (c =? "-")%char then (-1, rest)
      else if (c =? "+")%char then (1, rest)
      else (1, s)
  | EmptyString => (1, s)
  end.

(** A leading [0x] or [0X] is taken off and makes the radix 16. *)
Definition stripPrefix (s : string) : Z * string :=
  match s with
  | String c1 (String c2 rest) =>
      if (c1 =? "0")%char && ((c2 =? "x")%char || (c2 =? "X")%char)
      then (16, rest) else (10, s)
  | _ => (10, s)
  end.

(** [parseInt(s)] with no radix argument; [None] is NaN. *)
Definition parseInt (s : string) : option Z :=
  let '(sign, s2) := stripSign (trimStart s) in
  let '(R, s3) := stripPrefix s2 in
  match radixPrefix R s3 with
  | [] => None
  | ds => Some (toDouble (sign * mathInt R ds))
  end.

(** The decimal digits of a natural number, most significant first. *)
Fixpoint digitsOf (fuel : nat) (n : Z) : string :=
  match fuel with
  | O => EmptyString
  | S fuel' =>
      let last := String (ascii_of_N (Z.to_N (48 + n mod 10))) EmptyString in
      if n <? 10 then last else (digitsOf fuel' (n / 10) ++ last)%string
  end.

(** A number has no more decimal digits than bits. *)
Definition digits (n : Z) : string := digitsOf (S (Z.to_nat (Z.log2 n))) n.

(** The numbers [s * 10^e] beside [a] whose [s] has [k] digits and whose
    double is [a]; [N] is the number of digits of [a]. *)
Definition candidates (a N k : Z) : list (Z * Z) :=
  filter (fun c => (10 ^ (k - 1) <=? fst c) && (fst c <? 10 ^ k)
                   && (toDouble (fst c * 10 ^ snd c) =? a))
    (flat_map (fun e => [(a / 10 ^ e, e); (a / 10 ^ e + 1, e)])
       [N - k; N - k + 1]).

(** Of two candidates the one nearer to [a], the even one when they are as
    near. *)
Definition nearer (a : Z) (c d : Z * Z) : Z * Z :=
  let distance := fun c : Z * Z => Z.abs (fst c * 10 ^ snd c - a) in
  if distance c <? distance d then c
  else if distance d <? distance c then d
  else if Z.even (fst c) then c else d.

(** The candidate with the fewest digits, and the number of its digits. *)
Fixpoint shortest (a N : Z) (ks : list Z) : option (Z * Z * Z) :=
  match ks with
  | [] => None
  | k :: rest =>
      match candidates a N k with
      | [] => shortest a N rest
      | c :: cs => Some (fold_left (nearer a) cs c, k)
      end
  end.

Fixpoint zeros (n : nat) : string :=
  match n with
  | O => EmptyString
  | S n' => String "0" (zeros n')
  end.

(** The digits of a double above 2^53: the fewest digits [s] that are read
    back as the same double, filled with zeros when the number has at most
    21 digits, and else in exponent notation, a point after the first digit
    and the power of ten. *)
Definition shortestDigits (a : Z) : string :=
  let N := Z.of_nat (String.length (digits a)) in
  match shortest a N (map Z.of_nat (seq 1 17)) with
  | Some (s, e, k) =>
      if (k + e <=? 21)%Z then (digits s ++ zeros (Z.to_nat e))%string
      else
        match digits s with
        | String d rest =>
            (String d (if (k =? 1)%Z then rest else String "." rest)
             ++ "e+" ++ digits (k + e - 1)%Z)%string
        | EmptyString => EmptyString
        end
  | None => digits a
  end.

(** [String(n)] for an integer [n], as a template literal prints it: an
    integer up to 2^53 digit by digit. *)
Definition toString (n : Z) : string :=
  let a := Z.abs n in
  let text := if a <=? 2 ^ 53 then digits a else shortestDigits a in
  if n <? 0 then String "-" text else text.

End JS.

(** ** The document schema (models/Book.ts) *)

(** A stored document.  The two array paths without a default are present in
    every document (an array path is created empty); [createdAt] and
    [updatedAt] are the fields of the schema option [timestamps]. *)
Record Book : Type := mkBook {
  bookId : Z;
  title : string;
  author : string;
  authorByLastName : option string;
  additionalAuthors : list string;
  isbn : option string;
  isbn13 : option Q;
  rating : Q;
  averageRating : option Q;
  publisher : option string;
  binding : option string;
  pages : Q;
  beqValue : Q;
  editionPublished : option Q;
  published : option Q;
  dateRead : option Z;
  dateAdded : Z;
  bookshelves : list string;
  bookshelvesWithPositions : list string;
  exclusiveShelf : string;
  review : option string;
  spoiler : option string;
  privateNotes : option string;
  readCount : Q;
  ownedCopies : Q;
  createdAt : Z;
  updatedAt : Z
}.

(** The enumeration of the path [exclusiveShelf]. *)
Definition shelves : list string := ["read"; "currently-reading"; "to-read"].

Definition isShelf (s : string) : bool := existsb (String.eqb s) shelves.

Definition orders : list string := ["asc"; "desc"].

(** ** Validation combinators (the part of zod the schemas use)

    A schema reads a value that may be absent ([None] is [undefined]) and
    returns the parsed output, or [None] when it raises an issue. *)
Module z.

Definition schema (I A : Type) : Type := option I -> option A.

Definition string_ : schema json string :=
  fun v => match v with Some (JStr s) => Some s | _ => None end.

Definition number : schema json Q :=
  fun v => match v with Some (JNum n) => Some n | _ => None end.

(** [z.string()] on a query parameter. *)
Definition text : schema param string :=
  fun v => match v with Some (Text s) => Some s | _ => None end.

(** [z.coerce.number()] on a query parameter: NaN is refused, and so is an
    absent value, because [Number(undefined)] is NaN. *)
Definition coerceNumber {A} : schema (coerced A) A :=
  fun v => match v with Some (Num a) => Some a | _ => None end.

Definition refine {I A} (ok : A -> bool) (s : schema I A) : schema I A :=
  fun v => match s v with
           | Some a => if ok a then Some a else None
           | None => None
           end.

(** [.min(n)] on a string bounds its length. *)
Definition minLength {I} (n : nat) : schema I string -> schema I string :=
  refine (fun s => (n <=? String.length s)%nat).

Definition min {I} (n : Q) : schema I Q -> schema I Q :=
  refine (fun x => Qle_bool n x).

Definition max {I} (n : Q) : schema I Q -> schema I Q :=
  refine (fun x => Qle_bool x n).

Definition positive {I} : schema I Q -> schema I Q :=
  refine (fun x => negb (Qle_bool x 0)).

Fixpoint all {A} (s : schema json A) (xs : list json) : option (list A) :=
  match xs with
  | [] => Some []
  | x :: rest =>
      match s (Some x), all s rest with
      | Some a, Some l => Some (a :: l)
      | _, _ => None
      end
  end.

Definition array {A} (s : schema json A) : schema json (list A) :=
  fun v => match v with Some (JArr xs) => all s xs | _ => None end.

Definition member (options : list string) (s : string) : bool :=
  existsb (String.eqb s) options.

Definition enum (options : list string) : schema json string :=
  refine (member options) string_.

Definition enumText (options : list string) : schema param string :=
  refine (member options) text.

Definition optional {I A} (s : schema I A) : schema I (option A) :=
  fun v => match v with
           | None => Some None
           | Some _ => option_map Some (s v)
           end.

(** [.default(d)]: an absent value is replaced by [d], which the inner
    schema then parses. *)
Definition default {I A} (d : I) (s : schema I A) : schema I A :=
  fun v => match v with
           | None => s (Some d)
           | Some _ => s v
           end.

Definition transform {I A B} (f : A -> B) (s : schema I A) : schema I B :=
  fun v => option_map f (s v).

End z.

Notation "x <- e ;; k" := (match e with Some x => k | None => None end)
  (at level 61, e at next level, right associativity, only parsing).

(** ** Requests and validated data *)

(** [req.query] of the list endpoint.  A numeric parameter is given by the
    result of its coercion; a field is [None] when the parameter is absent. *)
Record Query : Type := mkQuery {
  q_page : option (coerced Q);
  q_limit : option (coerced Q);
  q_sort : option param;
  q_order : option param;
  q_shelf : option param;
  q_search : option param;
  q_minRating : option (coerced Q);
  q_maxRating : option (coerced Q);
  q_startDate : option param;
  q_endDate : option param
}.

Definition noQuery : Query :=
  mkQuery None None None None None None None None None None.

(** The output of [filterSchema]. *)
Record BookFilters : Type := mkBookFilters {
  page : option Q;
  limit : option Q;
  sort : option string;
  order : option string;
  shelf : option string;
  search : option string;
  minRating : option Q;
  maxRating : option Q;
  startDate : option JsDate;
  endDate : option JsDate
}.

(** The output of [bookSchema]: [None] is a key that the output does not
    carry. *)
Module Data.
Record t : Type := mk {
  title : string;
  author : string;
  authorByLastName : option string;
  additionalAuthors : option (list string);
  isbn : option string;
  isbn13 : option Q;
  rating : Q;
  averageRating : option Q;
  publisher : option string;
  binding : option string;
  pages : Q;
  beqValue : Q;
  editionPublished : option Q;
  published : option Q;
  dateRead : option JsDate;
  bookshelves : list string;
  bookshelvesWithPositions : option (list string);
  exclusiveShelf : string;
  review : option string;
  spoiler : option string;
  privateNotes : option string;
  readCount : Q;
  ownedCopies : Q
}.
End Data.

(** ** Responses *)

Record PaginatedResponse : Type := mkPaginated {
  data : list Book;
  totalPages : Z;
  currentPage : Q;
  totalItems : Z
}.

Record BookStats : Type := mkStats {
  totalBooks : Z;
  readBooks : Z;
  readingBooks : Z;
  toReadBooks : Z;
  totalPagesRead : Q;
  statsAverageRating : Q;
  topAuthors : list (string * Z)
}.

(** The JSON a handler sends.  [Errors] is [{message, errors}] of a failed
    validation; the list of issues is not modelled. *)
Inductive payload : Type :=
| Message (message : string)
| Errors (message : string)
| Document (book : Book)
| Paginated (page : PaginatedResponse)
| Statistics (stats : BookStats)
| Strings (values : list string).

Record response : Type := mkResponse {
  status : Z;
  body : payload
}.

Definition json_ (p : payload) : response := mkResponse 200 p.

(** ** The queries of the model layer *)

Definition countDocuments (cond : Book -> bool) (db : list Book) : Z :=
  Z.of_nat (List.length (filter cond db)).

Definition findOne (cond : Book -> bool) (db : list Book) : option Book :=
  find cond db.

Definition hasId (id : Z) (b : Book) : bool := bookId b =? id.

(** [Book.findOne().sort({ bookId: -1 })]: a document with the greatest
    identifier, if there is a document at all. *)
Fixpoint maxIdBook (db : list Book) : option Book :=
  match db with
  | [] => None
  | b :: rest =>
      match maxIdBook rest with
      | Some m => if bookId b <? bookId m then Some m else Some b
      | None => Some b
      end
  end.

(** [save()] of a new document: the unique index on [bookId] refuses a
    second document with the same identifier. *)
Definition save (doc : Book) (db : list Book) : option (list Book) :=
  if existsb (hasId (bookId doc)) db then None else Some (db ++ [doc]).

(** [findOneAndUpdate(cond, update, { new: true })]: the first document that
    meets [cond] is replaced by its update, which is returned. *)
Fixpoint findOneAndUpdate (cond : Book -> bool) (update : Book -> Book)
    (db : list Book) : option (list Book * Book) :=
  match db with
  | [] => None
  | b :: rest =>
      if cond b then Some (update b :: rest, update b)
      else match findOneAndUpdate cond update rest with
           | Some (rest', doc) => Some (b :: rest', doc)
           | None => None
           end
  end.

Fixpoint findOneAndDelete (cond : Book -> bool) (db : list Book)
    : option (list Book * Book) :=
  match db with
  | [] => None
  | b :: rest =>
      if cond b then Some (rest, b)
      else match findOneAndDelete cond rest with
           | Some (rest', doc) => Some (b :: rest', doc)
           | None => None
           end
  end.

(** The casting of a date: an invalid date raises a cast error. *)
Definition castDate (d : option JsDate) : option (option Z) :=
  match d with
  | None => Some None
  | Some (Date ms) => Some (Some ms)
  | Some InvalidDate => None
  end.

(** The validators of the document schema: [required], [min], [max] and
    [enum] on the paths that a request can set. *)
Definition validators (v : Data.t) : bool :=
  negb (Data.title v =? "")%string
  && negb (Data.author v =? "")%string
  && Qle_bool 0 (Data.rating v) && Qle_bool (Data.rating v) 5
  && Qle_bool 0 (Data.pages v)
  && isShelf (Data.exclusiveShelf v).

Definition orElse {A} (new : option A) (old : A) : A :=
  match new with Some a => a | None => old end.

Definition orKeep {A} (new old : option A) : option A :=
  match new with Some a => Some a | None => old end.

(** [new Book({ ...validatedData, bookId, dateAdded })], saved at [now]. *)
Definition newDocument (v : Data.t) (dateRead' : option Z) (id now : Z) : Book :=
  {| bookId := id;
     title := Data.title v;
     author := Data.author v;
     authorByLastName := Data.authorByLastName v;
     additionalAuthors := orElse (Data.additionalAuthors v) [];
     isbn := Data.isbn v;
     isbn13 := Data.isbn13 v;
     rating := Data.rating v;
     averageRating := Data.averageRating v;
     publisher := Data.publisher v;
     binding := Data.binding v;
     pages := Data.pages v;
     beqValue := Data.beqValue v;
     editionPublished := Data.editionPublished v;
     published := Data.published v;
     dateRead := dateRead';
     dateAdded := now;
     bookshelves := Data.bookshelves v;
     bookshelvesWithPositions := orElse (Data.bookshelvesWithPositions v) [];
     exclusiveShelf := Data.exclusiveShelf v;
     review := Data.review v;
     spoiler := Data.spoiler v;
     privateNotes := Data.privateNotes v;
     readCount := Data.readCount v;
     ownedCopies := Data.ownedCopies v;
     createdAt := now;
     updatedAt := now |}.

(** The update [{ $set: validatedData }] applied at [now]: every key of the
    validated data is written, a key it does not carry (or carries as
    [undefined]) is left alone, and [updatedAt] is refreshed. *)
Definition applyUpdate (v : Data.t) (dateRead' : option Z) (now : Z) (b : Book) : Book :=
  {| bookId := bookId b;
     title := Data.title v;
     author := Data.author v;
     authorByLastName := orKeep (Data.authorByLastName v) (authorByLastName b);
     additionalAuthors := orElse (Data.additionalAuthors v) (additionalAuthors b);
     isbn := orKeep (Data.isbn v) (isbn b);
     isbn13 := orKeep (Data.isbn13 v) (isbn13 b);
     rating := Data.rating v;
     averageRating := orKeep (Data.averageRating v) (averageRating b);
     publisher := orKeep (Data.publisher v) (publisher b);
     binding := orKeep (Data.binding v) (binding b);
     pages := Data.pages v;
     beqValue := Data.beqValue v;
     editionPublished := orKeep (Data.editionPublished v) (editionPublished b);
     published := orKeep (Data.published v) (published b);
     dateRead := orKeep dateRead' (dateRead b);
     dateAdded := dateAdded b;
     bookshelves := Data.bookshelves v;
     bookshelvesWithPositions :=
       orElse (Data.bookshelvesWithPositions v) (bookshelvesWithPositions b);
     exclusiveShelf := Data.exclusiveShelf v;
     review := orKeep (Data.review v) (review b);
     spoiler := orKeep (Data.spoiler v) (spoiler b);
     privateNotes := orKeep (Data.privateNotes v) (privateNotes b);
     readCount := Data.readCount v;
     ownedCopies := Data.ownedCopies v;
     createdAt := createdAt b;
     updatedAt := now |}.

(** ** The filter of the list endpoint *)

Record Filter : Type := mkFilter {
  f_exclusiveShelf : option string;
  f_rating : option (option Q * option Q);
  f_dateRead : option (option JsDate * option JsDate);
  f_or : option (string -> bool)
}.

Definition truthy (s : option string) : bool :=
  match s with Some s => negb (s =? "")%string | None => false end.

Definition defined {A} (x : option A) : bool :=
  match x with Some _ => true | None => false end.

Definition gte (x : Q) (bound : option Q) : bool :=
  match bound with Some lo => Qle_bool lo x | None => true end.

Definition lte (x : Q) (bound : option Q) : bool :=
  match bound with Some hi => Qle_bool x hi | None => true end.

Definition dateGte (x : Z) (bound : option JsDate) : bool :=
  match bound with Some (Date lo) => lo <=? x | Some InvalidDate => false | None => true end.

Definition dateLte (x : Z) (bound : option JsDate) : bool :=
  match bound with Some (Date hi) => x <=? hi | Some InvalidDate => false | None => true end.

Definition test (re : string -> bool) (field : option string) : bool :=
  match field with Some s => re s | None => false end.

Definition matches (f : Filter) (b : Book) : bool :=
  match f_exclusiveShelf f with
  | Some s => (exclusiveShelf b =? s)%string
  | None => true
  end
  && match f_rating f with
     | Some (lo, hi) => gte (rating b) lo && lte (rating b) hi
     | None => true
     end
  && match f_dateRead f with
     | Some (lo, hi) =>
         match dateRead b with
         | Some d => dateGte d lo && dateLte d hi
         | None => false
         end
     | None => true
     end
  && match f_or f with
     | Some re =>
         re (title b) || re (author b) || test re (publisher b) || test re (review b)
     | None => true
     end.

(** The casting of the filter: a bound of the date range that is an invalid
    date raises a cast error. *)
Definition castable (f : Filter) : bool :=
  match f_dateRead f with
  | Some (lo, hi) => defined (castDate lo) && defined (castDate hi)
  | None => true
  end.

(** [Math.ceil(total / limit)]. *)
Definition ceilDiv (total : Z) (limit : Q) : Z :=
  Qceiling (inject_Z total / limit).

(** ** The cursor of a query

    The database reads the count of [skip] and of [limit] as a whole number,
    the fraction dropped. *)
Module Cursor.

Definition wholePart (x : Q) : Z := Z.quot (Qnum x) (Z.pos (Qden x)).

(** [.skip(n)]: a negative count is refused. *)
Definition skip (n : Q) (docs : list Book) : option (list Book) :=
  if wholePart n <? 0 then None else Some (skipn (Z.to_nat (wholePart n)) docs).

(** [.limit(n)] for a positive [n]: the count 0 is no limit. *)
Definition limit (n : Q) (docs : list Book) : list Book :=
  if wholePart n =? 0 then docs else firstn (Z.to_nat (wholePart n)) docs.

End Cursor.

(** ** Statistics *)

Definition onShelf (s : string) (b : Book) : bool := (exclusiveShelf b =? s)%string.

Definition rated (b : Book) : bool := negb (Qle_bool (rating b) 0).

Definition sumOf (f : Book -> Q) (docs : list Book) : Q :=
  fold_right (fun b acc => (f b + acc)%Q) 0%Q docs.

(** [$group] by author with [$sum: 1], groups in order of first occurrence. *)
Fixpoint countAuthor (a : string) (groups : list (string * Z)) : list (string * Z) :=
  match groups with
  | [] => [(a, 1)]
  | (a', n) :: rest =>
      if (a =? a')%string then (a', n + 1) :: rest else (a', n) :: countAuthor a rest
  end.

Definition groupByAuthor (db : list Book) : list (string * Z) :=
  fold_left (fun groups b => countAuthor (author b) groups) db [].

(** [$sort: { count: -1 }]; groups of equal count keep their order, which the
    database leaves open. *)
Fixpoint insertByCount (g : string * Z) (sorted : list (string * Z)) : list (string * Z) :=
  match sorted with
  | [] => [g]
  | h :: rest => if snd h <=? snd g then g :: sorted else h :: insertByCount g rest
  end.

Definition sortByCount (groups : list (string * Z)) : list (string * Z) :=
  fold_right insertByCount [] groups.

Definition bookStats (db : list Book) : BookStats :=
  let totalPages := filter (onShelf "read") db in
  let averageRating := filter rated db in
  {| totalBooks := countDocuments (fun _ => true) db;
     readBooks := countDocuments (onShelf "read") db;
     readingBooks := countDocuments (onShelf "currently-reading") db;
     toReadBooks := countDocuments (onShelf "to-read") db;
     totalPagesRead :=
       match totalPages with [] => 0%Q | _ => sumOf pages totalPages end;
     statsAverageRating :=
       match averageRating with
       | [] => 0%Q
       | _ => (sumOf rating averageRating
               / inject_Z (Z.of_nat (List.length averageRating)))%Q
       end;
     topAuthors := firstn 5 (sortByCount (groupByAuthor db)) |}.

(** ** Text search *)

Definition lower (c : ascii) : ascii :=
  let n := N_of_ascii c in
  if ((65 <=? n) && (n <=? 90))%N then ascii_of_N (n + 32) else c.

Fixpoint lowercase (s : string) : string :=
  match s with
  | String c rest => String (lower c) (lowercase rest)
  | EmptyString => EmptyString
  end.

Fixpoint includes (part s : string) : bool :=
  String.prefix part s
  || match s with
     | String _ rest => includes part rest
     | EmptyString => false
     end.

(** [part] occurs in [s] as a substring, letter case ignored. *)
Definition includes_i (part s : string) : bool :=
  includes (lowercase part) (lowercase s).

(** A pattern of letters, digits and spaces: it has no character with a
    meaning of its own in a regular expression, and stands for itself. *)
Definition plainChar (c : ascii) : bool :=
  let n := N_of_ascii c in
  ((48 <=? n) && (n <=? 57) || (65 <=? n) && (n <=? 90)
   || (97 <=? n) && (n <=? 122) || (n =? 32))%N.

Fixpoint plain (pattern : string) : bool :=
  match pattern with
  | String c rest => plainChar c && plain rest
  | EmptyString => true
  end.

(** ** Instances of the platform, for running the handlers

    Dates written as a time stamp in decimal digits, an engine for plain
    patterns, and the order of insertion as the order of every sort; a sort
    by the empty field name is refused. *)
Definition stampDate (s : string) : JsDate :=
  match JS.parseInt s with
  | Some ms => Date ms
  | None => InvalidDate
  end.

Definition plainRegExp (pattern : string) : option (string -> bool) :=
  if plain pattern then Some (includes_i pattern) else None.

Definition insertionOrder (field : string) (direction : Z) (docs : list Book)
    : option (list Book) :=
  if (field =? "")%string then None else Some docs.

(** ** Sample requests and records *)

Definition duneFields : list (string * json) :=
  [("title", JStr "Dune"); ("author", JStr "Frank Herbert");
   ("pages", JNum 412); ("publisher", JStr "Ace Books")].

(** A body without an identifier, and the same body with one. *)
Definition dune : json := JObj duneFields.

Definition duneWithId : json := JObj (("bookId", JNum 42) :: duneFields).

(** The record that the first body makes in the empty collection at time
    1000. *)
Definition duneDoc : Book :=
  {| bookId := 1; title := "Dune"; author := "Frank Herbert";
     authorByLastName := None; additionalAuthors := []; isbn := None;
     isbn13 := None; rating := 0; averageRating := None;
     publisher := Some "Ace Books"; binding := None; pages := 412;
     beqValue := 0; editionPublished := None; published := None;
     dateRead := None; dateAdded := 1000; bookshelves := [];
     bookshelvesWithPositions := []; exclusiveShelf := "to-read";
     review := None; spoiler := None; privateNotes := None;
     readCount := 0; ownedCopies := 0; createdAt := 1000; updatedAt := 1000 |}.

(** A record that has been read and rated, and a payload for it that gives
    the three required keys only. *)
Definition emma : Book :=
  {| bookId := 7; title := "Emma"; author := "Jane Austen";
     authorByLastName := Some "Austen, Jane"; additionalAuthors := [];
     isbn := Some "0141439580"; isbn13 := None; rating := 5;
     averageRating := None; publisher := Some "Penguin"; binding := None;
     pages := 474; beqValue := 0; editionPublished := None; published := None;
     dateRead := Some 500; dateAdded := 100; bookshelves := ["classics"];
     bookshelvesWithPositions := []; exclusiveShelf := "read";
     review := None; spoiler := None; privateNotes := None;
     readCount := 1; ownedCopies := 1; createdAt := 100; updatedAt := 500 |}.

Definition emmaPayload : list (string * json) :=
  [("title", JStr "Emma"); ("author", JStr "Jane Austen"); ("pages", JNum 474)].

(** ** Notions used in the statements *)

(** A string of decimal digits, and the digits that [JS.digitsOf] prints. *)
Fixpoint decimal (s : string) : bool :=
  match s with
  | String c rest =>
      (let n := N_of_ascii c in (48 <=? n) && (n <=? 57))%N && decimal rest
  | EmptyString => true
  end.

Definition digitChar (d : Z) : ascii := ascii_of_N (Z.to_N (48 + d)).

Fixpoint digitList (fuel : nat) (n : Z) : list Z :=
  match fuel with
  | O => []
  | S fuel' => if n <? 10 then [n mod 10] else digitList fuel' (n / 10) ++ [n mod 10]
  end.

(** [m] is the greatest identifier of the collection. *)
Definition maximumId (db : list Book) (m : Z) : Prop :=
  (exists b, In b db /\ bookId b = m) /\ forall b, In b db -> bookId b <= m.

(** No document of the collection has the identifier [id]. *)
Definition absent (id : Z) (db : list Book) : Prop :=
  forall b, In b db -> bookId b <> id.

(** The search string occurs in the title or in the author. *)
Definition inTitleOrAuthor (s : string) (b : Book) : bool :=
  includes_i s (title b) || includes_i s (author b).

(** The search string occurs in one of the four fields that are searched. *)
Definition inSearchedFields (s : string) (b : Book) : bool :=
  includes_i s (title b) || includes_i s (author b)
  || test (includes_i s) (publisher b) || test (includes_i s) (review b).

(** A query with the search parameter alone. *)
Definition searchFor (s : string) : Query :=
  mkQuery None None None None None (Some (Text s)) None None None None.

(** The primary shelf of the record is one of the enumeration. *)
Definition shelved (b : Book) : Prop := In (exclusiveShelf b) shelves.

(** The page and the page size that a query asks for, the defaults when it
    leaves them out. *)
Definition requestedPage (q : Query) : Q :=
  match q_page q with Some (Num n) => n | _ => 1%Q end.

Definition effectiveLimit (q : Query) : Q :=
  match q_limit q with Some (Num n) => n | _ => 10%Q end.

(** The sort key that a query asks for, the default when it leaves it out. *)
Definition sortKey (q : Query) : string :=
  match q_sort q with Some (Text s) => s | _ => "dateAdded" end.

(** The greatest identifier of the collection, if it has one, is a safe
    integer: of magnitude below 2^53, where adding 1 is exact. *)
Definition safeMaximum (db : list Book) : Prop :=
  forall m, maximumId db m -> Z.abs m < 2 ^ 53.

(** ** More notions used in the statements *)

(** The identifiers of the collection are pairwise distinct. *)
Definition uniqueIds (db : list Book) : Prop := NoDup (map bookId db).

(** The identifiers of the collection are distinct and between 1 and 2^53,
    where the sum with 1 stops growing. *)
Definition identified (db : list Book) : Prop :=
  uniqueIds db /\ forall b, In b db -> 1 <= bookId b <= 2 ^ 53.

(** The record meets the constraints of the two schemas. *)
Definition wellFormed (b : Book) : Prop :=
  title b <> "" /\ author b <> ""
  /\ (0 <= rating b)%Q /\ (rating b <= 5)%Q /\ (1 <= pages b)%Q.

(** The number that a numeric query parameter gives. *)
Definition numberOf {A} (v : option (coerced A)) : option A :=
  match v with Some (Num x) => Some x | _ => None end.

(** The string that a textual query parameter gives. *)
Definition textOf (v : option param) : option string :=
  match v with Some (Text s) => Some s | _ => None end.

(** The number of stored records of an author. *)
Definition booksBy (a : string) (db : list Book) : Z :=
  countDocuments (fun b => (author b =? a)%string) db.

(** The count that a list of groups gives for an author, 0 when it has no
    group of the author. *)
Definition countOf (a : string) (groups : list (string * Z)) : Z :=
  match find (fun g => (fst g =? a)%string) groups with
  | Some g => snd g
  | None => 0
  end.

(** A group comes before another when its count is not smaller. *)
Definition notFewer (g h : string * Z) : Prop := snd h <= snd g.

(** ** The presentation layer *)

Module UI.

(** *** components/Pagination.tsx *)

(** An entry of the page bar: a page number or one of the two markers
    ['ellipsis-start'] and ['ellipsis-end']. *)
Inductive pageItem : Type :=
| PageNumber (n : Z)
| EllipsisStart
| EllipsisEnd.

(** [for (let i = a; i <= b; i++) push(i)]. *)
Definition upTo (a b : Z) : list Z :=
  map (fun i => a + Z.of_nat i) (seq 0 (Z.to_nat (b - a + 1))).

Definition getPageNumbers (innerWidth currentPage totalPages : Z) : list pageItem :=
  let maxVisiblePages := 5 in
  let isMobile := innerWidth <? 640 in
  let visiblePages := if isMobile then 3 else maxVisiblePages in
  if totalPages <=? visiblePages then map PageNumber (upTo 1 totalPages)
  else
    let startPage := Z.max (currentPage - visiblePages / 2) 1 in
    let endPage := Z.min (startPage + visiblePages - 1) totalPages in
    let startPage :=
      if endPage - startPage + 1 <? visiblePages
      then Z.max (endPage - visiblePages + 1) 1 else startPage in
    (if 1 <? startPage
     then PageNumber 1 :: (if 2 <? startPage then [EllipsisStart] else [])
     else [])
    ++ map PageNumber (upTo startPage endPage)
    ++ (if endPage <? totalPages
        then (if endPage <? totalPages - 1 then [EllipsisEnd] else [])
             ++ [PageNumber totalPages]
        else []).

(** The page bar, [None] when the component renders nothing. *)
Definition Pagination (innerWidth currentPage totalPages : Z) : option (list pageItem) :=
  if totalPages <=? 1 then None
  else Some (getPageNumbers innerWidth currentPage totalPages).

(** The page that a click asks the parent for, if it asks. *)
Definition handlePageChange (currentPage totalPages page : Z) : option Z :=
  if negb (page =? currentPage) && (1 <=? page) && (page <=? totalPages)
  then Some page else None.

(** The numbers among the entries. *)
Fixpoint numbers (items : list pageItem) : list Z :=
  match items with
  | PageNumber n :: rest => n :: numbers rest
  | _ :: rest => numbers rest
  | [] => []
  end.

(** *** The statistics page *)

(** [Math.round(x)]: the integer nearest to [x], halves rounded up. *)
Definition round (x : Q) : Z := Qfloor (x + (1 # 2))%Q.

(** [calculateReadPercentage], [None] being statistics not yet loaded. *)
Definition calculateReadPercentage (stats : option BookStats) : Z :=
  match stats with
  | None => 0
  | Some stats =>
      if totalBooks stats =? 0 then 0
      else round (inject_Z (readBooks stats) / inject_Z (totalBooks stats) * 100)%Q
  end.

(** The widths, in percent, of the bars of the top authors: each count
    against the count of the first author; no bar when there is no author. *)
Definition authorWidths (stats : BookStats) : list Q :=
  match topAuthors stats with
  | [] => []
  | first :: _ =>
      map (fun a => (inject_Z (snd a) / inject_Z (snd first) * 100)%Q)
        (topAuthors stats)
  end.

(** The number of pages that the bar shows around the current one. *)
Definition visiblePages (innerWidth : Z) : Z := if innerWidth <? 640 then 3 else 5.

(** *** The star rating of a card: five stars, star [i] filled when
    [i <= rating]. *)
Definition renderRating (rating : Q) : list bool :=
  map (fun i => Qle_bool (inject_Z i) rating) [1; 2; 3; 4; 5].

(** *** components/BookForm.tsx: the field of the shelf tags *)

Fixpoint split (sep : ascii) (s : string) : list string :=
  match s with
  | EmptyString => [EmptyString]
  | String c rest =>
      if (c =? sep)%char then EmptyString :: split sep rest
      else match split sep rest with
           | piece :: pieces => String c piece :: pieces
           | [] => [String c EmptyString]
           end
  end.

Fixpoint trimEnd (s : string) : string :=
  match s with
  | EmptyString => EmptyString
  | String c rest =>
      match trimEnd rest with
      | EmptyString => if JS.isWhiteSpace c then EmptyString else String c EmptyString
      | kept => String c kept
      end
  end.

Definition trim (s : string) : string := trimEnd (JS.trimStart s).

Definition nonEmpty (s : string) : bool :=
  match s with EmptyString => false | _ => true end.

(** [value.split(',').map(shelf => shelf.trim()).filter(Boolean)]. *)
Definition handleBookshelvesChange (value : string) : list string :=
  filter nonEmpty (map trim (split "," value)).

(** [tags.join(sep)]. *)
Fixpoint join (sep : string) (tags : list string) : string :=
  match tags with
  | [] => EmptyString
  | [tag] => tag
  | tag :: rest => (tag ++ sep ++ join sep rest)%string
  end.

(** The text shown in the field: [value?.join(', ') || '']. *)
Definition shownTags (value : option (list string)) : string :=
  match value with
  | Some tags => join ", " tags
  | None => EmptyString
  end.

(** A string without the character [c]. *)
Fixpoint without (c : ascii) (s : string) : bool :=
  match s with
  | EmptyString => true
  | String d rest => negb (d =? c)%char && without c rest
  end.

(** *** The detail and edit pages: the record that a route names *)

(** [const bookId = id ? parseInt(id) : 0], with [None] for NaN. *)
Definition routeBookId (id : option string) : option Z :=
  match id with
  | Some s => if nonEmpty s then JS.parseInt s else Some 0
  | None => Some 0
  end.

(** The path of the request that the page sends, [enabled: !!bookId]: no
    request when the identifier is 0 or NaN. *)
Definition detailRequest (id : option string) : option string :=
  match routeBookId id with
  | Some n => if n =? 0 then None else Some (JS.toString n)
  | None => None
  end.

End UI.

(** ** More sample requests *)

(** The second page of two records each, and the books read and rated 5. *)
Definition secondPage : Query :=
  mkQuery (Some (Num 2%Q)) (Some (Num 2%Q)) None None None None None None None None.

Definition readAndRated : Query :=
  mkQuery None None None None (Some (Text "read")) None (Some (Num 5%Q)) None None None.

(** A sort by the empty field name, and a search for a pattern that does
    not compile. *)
Definition sortByNothing : Query :=
  mkQuery None None (Some (Text "")) None None None None None None None.

Definition searchForParenthesis : Query :=
  mkQuery None None None None None (Some (Text "(")) None None None None.

(** A start date that is not a date. *)
Definition readSinceYesterday : Query :=
  mkQuery None None None None None None None None (Some (Text "yesterday")) None.

(** A record whose identifier is 2^53. *)
Definition atlas : Book :=
  {| bookId := 2 ^ 53; title := "Atlas"; author := "Gerardus Mercator";
     authorByLastName := None; additionalAuthors := []; isbn := None;
     isbn13 := None; rating := 0; averageRating := None;
     publisher := None; binding := None; pages := 100;
     beqValue := 0; editionPublished := None; published := None;
     dateRead := None; dateAdded := 10; bookshelves := [];
     bookshelvesWithPositions := []; exclusiveShelf := "to-read";
     review := None; spoiler := None; privateNotes := None;
     readCount := 0; ownedCopies := 0; createdAt := 10; updatedAt := 10 |}.

(** A body that the schema accepts and whose read date is not a date. *)
Definition duneReadSoon : json := JObj (("dateRead", JStr "soon") :: duneFields).

(** A payload that gives a review and a read date beside the required keys. *)
Definition emmaReview : list (string * json) :=
  [("title", JStr "Emma"); ("author", JStr "Jane Austen"); ("pages", JNum 474);
   ("review", JStr "Witty"); ("dateRead", JStr "900")].

(** ** The schemas and the handlers *)

Section Controller.

(** [new Date(s)]. *)
Variable newDate : string -> JsDate.

(** [new RegExp(pattern, 'i')]: the test of the compiled expression, or
    [None] when the pattern is a syntax error. *)
Variable RegExp_i : string -> option (string -> bool).

(** [.sort({ [field]: direction })] of a query, [direction] being 1 or -1:
    the documents in the order of the field, or [None] when the database
    refuses the field name. *)
Variable sortBy : string -> Z -> list Book -> option (list Book).

(** [val => val ? new Date(val) : undefined]. *)
Definition toDate (val : option string) : option JsDate :=
  match val with
  | Some s => if (s =? "")%string then None else Some (newDate s)
  | None => None
  end.

Definition filterSchema (q : Query) : option BookFilters :=
  page <- z.default (Num 1%Q) (z.optional (z.positive z.coerceNumber)) (q_page q);;
  limit <- z.default (Num 10%Q) (z.optional (z.positive z.coerceNumber)) (q_limit q);;
  sort <- z.default (Text "dateAdded") (z.optional z.text) (q_sort q);;
  order <- z.default (Text "desc") (z.optional (z.enumText orders)) (q_order q);;
  shelf <- z.optional z.text (q_shelf q);;
  search <- z.optional z.text (q_search q);;
  minRating <- z.optional (z.max 5 (z.min 0 z.coerceNumber)) (q_minRating q);;
  maxRating <- z.optional (z.max 5 (z.min 0 z.coerceNumber)) (q_maxRating q);;
  startDate <- z.transform toDate (z.optional z.text) (q_startDate q);;
  endDate <- z.transform toDate (z.optional z.text) (q_endDate q);;
  Some {| page := page; limit := limit; sort := sort; order := order;
          shelf := shelf; search := search;
          minRating := minRating; maxRating := maxRating;
          startDate := startDate; endDate := endDate |}.

(** [bookSchema.parse]: only an object is parsed, and keys outside the shape
    are dropped. *)
Definition bookSchema (reqBody : json) : option Data.t :=
  match reqBody with
  | JObj o =>
      title <- z.minLength 1 z.string_ (get "title" o);;
      author <- z.minLength 1 z.string_ (get "author" o);;
      authorByLastName <- z.optional z.string_ (get "authorByLastName" o);;
      additionalAuthors <- z.optional (z.array z.string_) (get "additionalAuthors" o);;
      isbn <- z.optional z.string_ (get "isbn" o);;
      isbn13 <- z.optional z.number (get "isbn13" o);;
      rating <- z.default (JNum 0) (z.max 5 (z.min 0 z.number)) (get "rating" o);;
      averageRating <- z.optional z.number (get "averageRating" o);;
      publisher <- z.optional z.string_ (get "publisher" o);;
      binding <- z.optional z.string_ (get "binding" o);;
      pages <- z.min 1 z.number (get "pages" o);;
      beqValue <- z.default (JNum 0) z.number (get "beqValue" o);;
      editionPublished <- z.optional z.number (get "editionPublished" o);;
      published <- z.optional z.number (get "published" o);;
      dateRead <- z.transform toDate (z.optional z.string_) (get "dateRead" o);;
      bookshelves <- z.default (JArr []) (z.array z.string_) (get "bookshelves" o);;
      bookshelvesWithPositions <-
        z.optional (z.array z.string_) (get "bookshelvesWithPositions" o);;
      exclusiveShelf <- z.default (JStr "to-read") (z.enum shelves) (get "exclusiveShelf" o);;
      review <- z.optional z.string_ (get "review" o);;
      spoiler <- z.optional z.string_ (get "spoiler" o);;
      privateNotes <- z.optional z.string_ (get "privateNotes" o);;
      readCount <- z.default (JNum 0) z.number (get "readCount" o);;
      ownedCopies <- z.default (JNum 0) z.number (get "ownedCopies" o);;
      Some (Data.mk title author authorByLastName additionalAuthors isbn isbn13
              rating averageRating publisher binding pages beqValue
              editionPublished published dateRead bookshelves
              bookshelvesWithPositions exclusiveShelf review spoiler
              privateNotes readCount ownedCopies)
  | _ => None
  end.

Definition serverError : response := mkResponse 500 (Message "Server error").
Definition invalidId : response := mkResponse 400 (Message "Invalid book ID").
Definition notFound : response := mkResponse 404 (Message "Book not found").
Definition invalidData : response := mkResponse 400 (Errors "Invalid book data").
Definition invalidQuery : response := mkResponse 400 (Errors "Invalid query parameters").

(** The filter object that [getBooks] builds from the validated parameters. *)
Definition buildFilter (p : BookFilters) (re : option (string -> bool)) : Filter :=
  {| f_exclusiveShelf := if truthy (shelf p) then shelf p else None;
     f_rating :=
       if defined (minRating p) || defined (maxRating p)
       then Some (minRating p, maxRating p) else None;
     f_dateRead :=
       if defined (startDate p) || defined (endDate p)
       then Some (startDate p, endDate p) else None;
     f_or := re |}.

(** [new RegExp(search, 'i')] when a search string is given: [None] when the
    constructor throws, [Some None] when there is nothing to search for. *)
Definition searchRegex (p : BookFilters) : option (option (string -> bool)) :=
  match search p with
  | Some s => if truthy (Some s) then option_map Some (RegExp_i s) else Some None
  | None => Some None
  end.

Definition getBooks (db : list Book) (q : Query) : response :=
  match filterSchema q with
  | None => invalidQuery
  | Some validatedParams =>
      let page := orElse (page validatedParams) 1%Q in
      let limit := orElse (limit validatedParams) 10%Q in
      let sort := orElse (sort validatedParams) "dateAdded" in
      let order := orElse (order validatedParams) "desc" in
      match searchRegex validatedParams with
      | None => serverError
      | Some re =>
          let filter_ := buildFilter validatedParams re in
          if castable filter_ then
            let skip := ((page - 1) * limit)%Q in
            let total := countDocuments (matches filter_) db in
            match
              sorted <- sortBy sort (if (order =? "asc")%string then 1 else -1)
                          (filter (matches filter_) db);;
              skipped <- Cursor.skip skip sorted;;
              Some (Cursor.limit limit skipped)
            with
            | None => serverError
            | Some books =>
                json_ (Paginated
                         {| data := books;
                            totalPages := ceilDiv total limit;
                            currentPage := page;
                            totalItems := total |})
            end
          else serverError
      end
  end.

Definition getBookById (db : list Book) (id : string) : response :=
  match JS.parseInt id with
  | None => invalidId
  | Some bookId =>
      match findOne (hasId bookId) db with
      | None => notFound
      | Some book => json_ (Document book)
      end
  end.

Definition createBook (db : list Book) (reqBody : json) (now : Z)
    : list Book * response :=
  match bookSchema reqBody with
  | None => (db, invalidData)
  | Some validatedData =>
      let newBookId :=
        match maxIdBook db with
        | Some maxIdBook => JS.plus (bookId maxIdBook) 1
        | None => 1
        end in
      match castDate (Data.dateRead validatedData) with
      | None => (db, serverError)
      | Some dateRead' =>
          if validators validatedData then
            let newBook := newDocument validatedData dateRead' newBookId now in
            match save newBook db with
            | Some db' => (db', mkResponse 201 (Document newBook))
            | None => (db, serverError)
            end
          else (db, serverError)
      end
  end.

Definition updateBook (db : list Book) (id : string) (reqBody : json) (now : Z)
    : list Book * response :=
  match JS.parseInt id with
  | None => (db, invalidId)
  | Some bookId =>
      match bookSchema reqBody with
      | None => (db, invalidData)
      | Some validatedData =>
          match castDate (Data.dateRead validatedData) with
          | None => (db, serverError)
          | Some dateRead' =>
              if validators validatedData then
                match findOneAndUpdate (hasId bookId)
                        (applyUpdate validatedData dateRead' now) db with
                | Some (db', book) => (db', json_ (Document book))
                | None => (db, notFound)
                end
              else (db, serverError)
          end
      end
  end.

Definition deleteBook (db : list Book) (id : string) : list Book * response :=
  match JS.parseInt id with
  | None => (db, invalidId)
  | Some bookId =>
      match findOneAndDelete (hasId bookId) db with
      | Some (db', _) => (db', json_ (Message "Book removed"))
      | None => (db, notFound)
      end
  end.

(** [Book.distinct('bookshelves')]: the tags of all records, each once. *)
Definition getBookshelves (db : list Book) : response :=
  json_ (Strings (nodup string_dec (flat_map bookshelves db))).

Definition getBookStats (db : list Book) : response :=
  json_ (Statistics (bookStats db)).

(** The public operations, as the router dispatches them. *)
Inductive request : Type :=
| GET_books (q : Query)
| GET_stats
| GET_bookshelves
| GET_book (id : string)
| POST_book (reqBody : json) (now : Z)
| PUT_book (id : string) (reqBody : json) (now : Z)
| DELETE_book (id : string).

Definition handle (db : list Book) (r : request) : list Book * response :=
  match r with
  | GET_books q => (db, getBooks db q)
  | GET_stats => (db, getBookStats db)
  | GET_bookshelves => (db, getBookshelves db)
  | GET_book id => (db, getBookById db id)
  | POST_book reqBody now => createBook db reqBody now
  | PUT_book id reqBody now => updateBook db id reqBody now
  | DELETE_book id => deleteBook db id
  end.

(** The states of the collection that requests reach from the empty one. *)
Inductive reachable : list Book -> Prop :=
| reachable_empty : reachable []
| reachable_step db r : reachable db -> reachable (fst (handle db r)).



(** ** Notions used in the statements about the list endpoint *)

(** What a query asks of a record, parameter by parameter; a parameter that
    is absent or empty asks nothing. *)
Definition onShelfAsked (q : Query) (b : Book) : Prop :=
  forall s, q_shelf q = Some (Text s) -> s <> "" -> exclusiveShelf b = s.

Definition ratedWithin (q : Query) (b : Book) : Prop :=
  (forall lo, q_minRating q = Some (Num lo) -> (lo <= rating b)%Q)
  /\ (forall hi, q_maxRating q = Some (Num hi) -> (rating b <= hi)%Q).

Definition readWithin (q : Query) (b : Book) : Prop :=
  (forall s, q_startDate q = Some (Text s) -> s <> "" ->
     exists lo d, newDate s = Date lo /\ dateRead b = Some d /\ lo <= d)
  /\ (forall s, q_endDate q = Some (Text s) -> s <> "" ->
        exists hi d, newDate s = Date hi /\ dateRead b = Some d /\ d <= hi).

Definition found (q : Query) (b : Book) : Prop :=
  forall s re, q_search q = Some (Text s) -> s <> "" -> RegExp_i s = Some re ->
  re (title b) || re (author b) || test re (publisher b) || test re (review b) = true.

(** The records of a list response. *)
Definition dataOf (r : response) : list Book :=
  match body r with
  | Paginated p => data p
  | _ => []
  end.

(** A query that [filterSchema] accepts, said of the query itself. *)
Definition positiveOrAbsent (v : option (coerced Q)) : bool :=
  match v with
  | Some (Num x) => negb (Qle_bool x 0)
  | Some NaN => false
  | None => true
  end.

Definition ratingOrAbsent (v : option (coerced Q)) : bool :=
  match v with
  | Some (Num x) => Qle_bool 0 x && Qle_bool x 5
  | Some NaN => false
  | None => true
  end.

Definition textOrAbsent (v : option param) : bool :=
  match v with
  | Some Nested => false
  | _ => true
  end.

Definition orderOrAbsent (v : option param) : bool :=
  match v with
  | Some (Text s) => (s =? "asc")%string || (s =? "desc")%string
  | Some Nested => false
  | None => true
  end.

Definition acceptable (q : Query) : bool :=
  positiveOrAbsent (q_page q) && positiveOrAbsent (q_limit q)
  && textOrAbsent (q_sort q) && orderOrAbsent (q_order q)
  && textOrAbsent (q_shelf q) && textOrAbsent (q_search q)
  && ratingOrAbsent (q_minRating q) && ratingOrAbsent (q_maxRating q)
  && textOrAbsent (q_startDate q) && textOrAbsent (q_endDate q).

(** A search string or a date bound that makes the handler throw. *)
Definition badPattern (q : Query) : Prop :=
  exists s, q_search q = Some (Text s) /\ s <> "" /\ RegExp_i s = None.

Definition badDate (q : Query) : Prop :=
  exists s, (q_startDate q = Some (Text s) \/ q_endDate q = Some (Text s))
            /\ s <> "" /\ newDate s = InvalidDate.

(** The validated parameters of an acceptable query. *)
Definition paramsOf (q : Query) : BookFilters :=
  {| page := Some (orElse (numberOf (q_page q)) 1%Q);
     limit := Some (orElse (numberOf (q_limit q)) 10%Q);
     sort := Some (orElse (textOf (q_sort q)) "dateAdded");
     order := Some (orElse (textOf (q_order q)) "desc");
     shelf := textOf (q_shelf q);
     search := textOf (q_search q);
     minRating := numberOf (q_minRating q);
     maxRating := numberOf (q_maxRating q);
     startDate := toDate (textOf (q_startDate q));
     endDate := toDate (textOf (q_endDate q)) |}.

(** The matching records in the order of the sort, before the page is cut. *)
Definition listing (db : list Book) (q : Query) (re : option (string -> bool))
    : option (list Book) :=
  sortBy (orElse (textOf (q_sort q)) "dateAdded")
    (if (orElse (textOf (q_order q)) "desc" =? "asc")%string then 1 else -1)
    (filter (matches (buildFilter (paramsOf q) re)) db).

(** ** Properties of parseInt and of the printing of integers *)

Example parseInt_12abc : JS.parseInt "12abc" = Some 12.
Proof. reflexivity. Qed.

Example parseInt_abc : JS.parseInt "abc" = None.
Proof. reflexivity. Qed.

Example parseInt_hex : JS.parseInt "  -0x1F" = Some (-31).
Proof. reflexivity. Qed.

Example toString_2024 : JS.toString 2024 = "2024".
Proof. vm_compute. reflexivity. Qed.

(** From 2^53 on a sum is rounded to the nearest double, the even one of two
    that are as near. *)
Example plus_rounds_down : JS.plus (2 ^ 53) 1 = 2 ^ 53.
Proof. vm_compute. reflexivity. Qed.

Example plus_rounds_up : JS.plus (2 ^ 53 + 2) 1 = 2 ^ 53 + 4.
Proof. vm_compute. reflexivity. Qed.

Example parseInt_rounds : JS.parseInt "9007199254740993" = Some (2 ^ 53).
Proof. vm_compute. reflexivity. Qed.

(** A double above 2^53 is printed with the fewest digits that give it
    back, in exponent notation from 10^21 on, which [parseInt] reads up to
    the point or the letter. *)
Example toString_2_64 : JS.toString (2 ^ 64) = "18446744073709552000".
Proof. vm_compute. reflexivity. Qed.

Example toString_10_21 : JS.toString (10 ^ 21) = "1e+21".
Proof. vm_compute. reflexivity. Qed.

Example toString_2_70 : JS.toString (2 ^ 70) = "1.1805916207174113e+21".
Proof. vm_compute. reflexivity. Qed.

Example parseInt_exponent : JS.parseInt (JS.toString (10 ^ 21)) = Some 1.
Proof. vm_compute. reflexivity. Qed.

Lemma toDouble_exact (n : Z) : Z.abs n <= 2 ^ 53 -> JS.toDouble n = n.
Proof.
  intros H. unfold JS.toDouble.
  destruct (Z.leb_spec (Z.abs n) (2 ^ 53)); [reflexivity | lia].
Qed.

Lemma plus_exact (n : Z) : Z.abs n < 2 ^ 53 -> JS.plus n 1 = n + 1.
Proof. intros H. apply toDouble_exact. lia. Qed.

Lemma small_cases (d : Z) :
  0 <= d < 10 ->
  d = 0 \/ d = 1 \/ d = 2 \/ d = 3 \/ d = 4 \/ d = 5 \/ d = 6 \/ d = 7 \/ d = 8 \/ d = 9.
Proof. lia. Qed.

Lemma digitValue_digitChar (d : Z) :
  0 <= d < 10 -> JS.digitValue (digitChar d) = Some d.
Proof.
  intros H.
  destruct (small_cases d H) as [-> | [-> | [-> | [-> | [-> | [-> | [-> | [-> | [-> | ->]]]]]]]]];
    reflexivity.
Qed.

Lemma decimal_digitChar (d : Z) :
  0 <= d < 10 -> decimal (String (digitChar d) EmptyString) = true.
Proof.
  intros H.
  destruct (small_cases d H) as [-> | [-> | [-> | [-> | [-> | [-> | [-> | [-> | [-> | ->]]]]]]]]];
    reflexivity.
Qed.

Lemma decimal_app (s t : string) :
  decimal (s ++ t)%string = decimal s && decimal t.
Proof.
  induction s as [| c s IH]; simpl; [reflexivity |].
  rewrite IH. now rewrite andb_assoc.
Qed.

Lemma string_app_assoc (s t u : string) :
  ((s ++ t) ++ u = s ++ (t ++ u))%string.
Proof. induction s as [| c s IH]; simpl; [reflexivity | now rewrite IH]. Qed.

Lemma string_app_nil (s : string) : (s ++ "")%string = s.
Proof. induction s as [| c s IH]; simpl; [reflexivity | now rewrite IH]. Qed.

Lemma digitsOf_decimal (fuel : nat) :
  forall n, 0 <= n -> decimal (JS.digitsOf fuel n) = true.
Proof.
  induction fuel as [| fuel IH]; intros n Hn; [reflexivity |].
  assert (Hd : 0 <= n mod 10 < 10) by (apply Z.mod_pos_bound; lia).
  pose proof (decimal_digitChar _ Hd) as Hc. unfold digitChar in Hc.
  cbn [JS.digitsOf]. destruct (n <? 10) eqn:E; [exact Hc |].
  rewrite decimal_app, IH, Hc; [reflexivity |].
  apply Z.div_pos; lia.
Qed.

Lemma digitsOf_nonempty (fuel : nat) (n : Z) :
  exists c rest, JS.digitsOf (S fuel) n = String c rest.
Proof.
  cbn [JS.digitsOf]. destruct (n <? 10); [eauto |].
  destruct (JS.digitsOf fuel (n / 10)); simpl; eauto.
Qed.

Lemma radixPrefix_digitsOf (fuel : nat) :
  forall n rest, 0 <= n ->
  JS.radixPrefix 10 (JS.digitsOf fuel n ++ rest)
  = digitList fuel n ++ JS.radixPrefix 10 rest.
Proof.
  induction fuel as [| fuel IH]; intros n rest Hn; [reflexivity |].
  assert (Hd : 0 <= n mod 10 < 10) by (apply Z.mod_pos_bound; lia).
  assert (Hlast : forall r,
    JS.radixPrefix 10 (String (ascii_of_N (Z.to_N (48 + n mod 10))) r)
    = (n mod 10) :: JS.radixPrefix 10 r).
  { intros r. cbn [JS.radixPrefix].
    pose proof (digitValue_digitChar _ Hd) as Hv. unfold digitChar in Hv.
    rewrite Hv. destruct (n mod 10 <? 10) eqn:E; [reflexivity | lia]. }
  cbn [JS.digitsOf digitList]. destruct (n <? 10) eqn:E.
  - cbn [append]. now rewrite Hlast.
  - rewrite string_app_assoc. cbn [append].
    rewrite IH by (apply Z.div_pos; lia).
    rewrite Hlast, <- app_assoc. reflexivity.
Qed.

Lemma mathInt_app (R : Z) (ds : list Z) (d : Z) :
  JS.mathInt R (ds ++ [d]) = JS.mathInt R ds * R + d.
Proof. unfold JS.mathInt. now rewrite fold_left_app. Qed.

Lemma mathInt_digitList (fuel : nat) :
  forall n, 0 <= n -> n < 2 ^ Z.of_nat fuel ->
  JS.mathInt 10 (digitList fuel n) = n.
Proof.
  induction fuel as [| fuel IH]; intros n Hn Hf.
  - change (2 ^ Z.of_nat 0) with 1 in Hf.
    assert (n = 0) by lia. subst n. reflexivity.
  - cbn [digitList]. destruct (n <? 10) eqn:E.
    + unfold JS.mathInt. simpl. rewrite Z.mod_small; lia.
    + rewrite mathInt_app, IH.
      * pose proof (Z.div_mod n 10). lia.
      * apply Z.div_pos; lia.
      * rewrite Nat2Z.inj_succ, Z.pow_succ_r in Hf by lia.
        apply Z.div_lt_upper_bound; lia.
Qed.

Lemma below_bits (n : Z) : 0 <= n -> n < 2 ^ Z.of_nat (S (Z.to_nat (Z.log2 n))).
Proof.
  intros Hn. rewrite Nat2Z.inj_succ, Z2Nat.id by apply Z.log2_nonneg.
  destruct (Z.eq_dec n 0) as [-> | Hne]; [reflexivity |].
  apply Z.log2_spec. lia.
Qed.

Lemma digitList_nonempty (fuel : nat) (n : Z) : digitList (S fuel) n <> [].
Proof.
  cbn [digitList]. destruct (n <? 10); [discriminate |].
  destruct (digitList fuel (n / 10)); discriminate.
Qed.

(** A string of decimal digits is read in radix 10 from its first
    character on: there is no white space, sign or [0x] to take off. *)
Lemma decimal_first (c : ascii) (rest : string) :
  decimal (String c rest) = true ->
  JS.isWhiteSpace c = false /\ (c =? "-")%char = false /\ (c =? "+")%char = false
  /\ (c =? "x")%char = false /\ (c =? "X")%char = false.
Proof.
  cbn [decimal]. intros H. apply andb_prop in H as [H _].
  apply andb_prop in H as [H1 H2].
  apply N.leb_le in H1. apply N.leb_le in H2.
  assert (Hne : forall k : ascii, (N_of_ascii k < 48 \/ 57 < N_of_ascii k)%N ->
                                  (c =? k)%char = false).
  { intros k Hk. destruct (c =? k)%char eqn:E; [| reflexivity].
    apply Ascii.eqb_eq in E. subst k. lia. }
  repeat split; try (apply Hne; vm_compute; (left; reflexivity) || (right; reflexivity)).
  unfold JS.isWhiteSpace.
  repeat match goal with
         | |- context [(?a <=? ?b)%N] => destruct (N.leb_spec a b)
         | |- context [(?a =? ?b)%N] => destruct (N.eqb_spec a b)
         end; simpl; try reflexivity; lia.
Qed.

Lemma trimStart_decimal (s : string) : decimal s = true -> JS.trimStart s = s.
Proof.
  destruct s as [| c rest]; [reflexivity |]. intros H.
  apply decimal_first in H as [H _]. simpl. now rewrite H.
Qed.

Lemma stripSign_decimal (s : string) : decimal s = true -> JS.stripSign s = (1, s).
Proof.
  destruct s as [| c rest]; [reflexivity |]. intros H.
  apply decimal_first in H as (_ & H1 & H2 & _). simpl. now rewrite H1, H2.
Qed.

Lemma stripPrefix_decimal (s : string) : decimal s = true -> JS.stripPrefix s = (10, s).
Proof.
  destruct s as [| c1 [| c2 rest]]; try reflexivity. intros H.
  assert (H2 : decimal (String c2 rest) = true).
  { cbn [decimal] in H. apply andb_prop in H as [_ H]. exact H. }
  apply decimal_first in H2 as (_ & _ & _ & Hx & HX).
  cbn [JS.stripPrefix]. rewrite Hx, HX, andb_false_r. reflexivity.
Qed.

(** What [parseInt] reads in a string of decimal digits, with or without a
    minus sign before it. *)
Lemma parseInt_decimal (s : string) :
  decimal s = true ->
  JS.parseInt s
  = match JS.radixPrefix 10 s with
    | [] => None
    | ds => Some (JS.toDouble (1 * JS.mathInt 10 ds))
    end.
Proof.
  intros Hd. unfold JS.parseInt.
  now rewrite (trimStart_decimal _ Hd), (stripSign_decimal _ Hd), (stripPrefix_decimal _ Hd).
Qed.

Lemma parseInt_minus_decimal (s : string) :
  decimal s = true ->
  JS.parseInt (String "-" s)
  = match JS.radixPrefix 10 s with
    | [] => None
    | ds => Some (JS.toDouble (-1 * JS.mathInt 10 ds))
    end.
Proof.
  intros Hd. unfold JS.parseInt.
  cbn [JS.trimStart]. change (JS.isWhiteSpace "-") with false. cbv iota.
  cbn [JS.stripSign]. change ("-" =? "-")%char with true. cbv iota.
  now rewrite (stripPrefix_decimal _ Hd).
Qed.

Lemma radixPrefix_digits (n : Z) :
  0 <= n ->
  JS.radixPrefix 10 (JS.digits n) = digitList (S (Z.to_nat (Z.log2 n))) n
  /\ JS.mathInt 10 (digitList (S (Z.to_nat (Z.log2 n))) n) = n.
Proof.
  intros Hn. unfold JS.digits. split.
  - rewrite <- (string_app_nil (JS.digitsOf _ n)), radixPrefix_digitsOf by exact Hn.
    cbn [JS.radixPrefix]. now rewrite app_nil_r.
  - apply mathInt_digitList; [exact Hn | now apply below_bits].
Qed.

(** Printing an integer up to 2^53 and reading it back gives the integer. *)
Lemma parseInt_toString (n : Z) :
  Z.abs n <= 2 ^ 53 -> JS.parseInt (JS.toString n) = Some n.
Proof.
  intros Hs. unfold JS.toString.
  destruct (Z.leb_spec (Z.abs n) (2 ^ 53)) as [_ | Hgt]; [| lia].
  assert (Hn : 0 <= Z.abs n) by lia.
  pose proof (digitsOf_decimal (S (Z.to_nat (Z.log2 (Z.abs n)))) (Z.abs n) Hn) as Hd.
  fold (JS.digits (Z.abs n)) in Hd.
  destruct (radixPrefix_digits (Z.abs n) Hn) as [Hr Hm].
  destruct (digitList (S (Z.to_nat (Z.log2 (Z.abs n)))) (Z.abs n)) as [| d l] eqn:E;
    [now apply digitList_nonempty in E |].
  destruct (n <? 0) eqn:Hneg.
  - rewrite (parseInt_minus_decimal _ Hd), Hr, Hm.
    rewrite toDouble_exact by lia. f_equal. lia.
  - rewrite (parseInt_decimal _ Hd), Hr, Hm.
    rewrite toDouble_exact by lia. f_equal. lia.
Qed.

(** ** Properties of the queries *)

Lemma maxIdBook_None (db : list Book) : maxIdBook db = None -> db = [].
Proof.
  destruct db as [| b rest]; [reflexivity |]. simpl.
  destruct (maxIdBook rest) as [m |]; [| discriminate].
  destruct (bookId b <? bookId m); discriminate.
Qed.

Lemma maxIdBook_Some (db : list Book) :
  forall m, maxIdBook db = Some m ->
  In m db /\ forall b, In b db -> bookId b <= bookId m.
Proof.
  induction db as [| b rest IH]; intros m H; [discriminate |].
  simpl in H. destruct (maxIdBook rest) as [m' |] eqn:E.
  - destruct (IH m' eq_refl) as [Hin Hup].
    destruct (bookId b <? bookId m') eqn:L; injection H as <-.
    + split; [now right |]. intros x [<- | Hx]; [lia | now apply Hup].
    + split; [now left |]. intros x [<- | Hx]; [lia |].
      specialize (Hup x Hx). lia.
  - injection H as <-. apply maxIdBook_None in E. subst rest.
    split; [now left |]. intros x [<- | []]. lia.
Qed.

Lemma maxIdBook_maximumId (db : list Book) (m : Book) :
  maxIdBook db = Some m -> maximumId db (bookId m).
Proof.
  intros H. apply maxIdBook_Some in H as [Hin Hup].
  split; [exists m; auto | exact Hup].
Qed.

Lemma maximumId_unique (db : list Book) (m m' : Z) :
  maximumId db m -> maximumId db m' -> m = m'.
Proof.
  intros [(b & Hb & <-) Hup] [(b' & Hb' & <-) Hup'].
  specialize (Hup _ Hb'). specialize (Hup' _ Hb). lia.
Qed.

Lemma absent_existsb (id : Z) (db : list Book) :
  absent id db -> existsb (hasId id) db = false.
Proof.
  intros H. induction db as [| b rest IH]; [reflexivity |]. simpl.
  rewrite IH by (intros x Hx; apply H; now right).
  assert (bookId b <> id) by (apply H; now left).
  unfold hasId. destruct (Z.eqb_spec (bookId b) id); [contradiction | reflexivity].
Qed.

Lemma absent_find (id : Z) (db : list Book) :
  absent id db -> findOne (hasId id) db = None.
Proof.
  intros H. unfold findOne. induction db as [| b rest IH]; [reflexivity |]. simpl.
  assert (bookId b <> id) by (apply H; now left).
  unfold hasId at 1. destruct (Z.eqb_spec (bookId b) id); [contradiction |].
  apply IH. intros x Hx. apply H. now right.
Qed.

Lemma absent_findOneAndUpdate (id : Z) (f : Book -> Book) (db : list Book) :
  absent id db -> findOneAndUpdate (hasId id) f db = None.
Proof.
  intros H. induction db as [| b rest IH]; [reflexivity |]. simpl.
  assert (bookId b <> id) by (apply H; now left).
  unfold hasId at 1. destruct (Z.eqb_spec (bookId b) id); [contradiction |].
  rewrite IH; [reflexivity |]. intros x Hx. apply H. now right.
Qed.

Lemma absent_findOneAndDelete (id : Z) (db : list Book) :
  absent id db -> findOneAndDelete (hasId id) db = None.
Proof.
  intros H. induction db as [| b rest IH]; [reflexivity |]. simpl.
  assert (bookId b <> id) by (apply H; now left).
  unfold hasId at 1. destruct (Z.eqb_spec (bookId b) id); [contradiction |].
  rewrite IH; [reflexivity |]. intros x Hx. apply H. now right.
Qed.

Lemma find_appended (doc : Book) (db : list Book) :
  absent (bookId doc) db -> findOne (hasId (bookId doc)) (db ++ [doc]) = Some doc.
Proof.
  intros H. unfold findOne. induction db as [| b rest IH]; simpl.
  - unfold hasId. now rewrite Z.eqb_refl.
  - assert (bookId b <> bookId doc) by (apply H; now left).
    unfold hasId at 1. destruct (Z.eqb_spec (bookId b) (bookId doc)); [contradiction |].
    apply IH. intros x Hx. apply H. now right.
Qed.

(** The identifier that [createBook] computes, when the greatest identifier
    is a safe integer, is above every identifier of the collection. *)
Lemma newBookId_safe (db : list Book) :
  safeMaximum db ->
  match maxIdBook db with Some m => JS.plus (bookId m) 1 | None => 1 end
  = match maxIdBook db with Some m => bookId m + 1 | None => 1 end.
Proof.
  intros Hs. destruct (maxIdBook db) as [m |] eqn:E; [| reflexivity].
  apply plus_exact, Hs. now apply maxIdBook_maximumId.
Qed.

Lemma newBookId_absent (db : list Book) :
  absent (match maxIdBook db with Some m => bookId m + 1 | None => 1 end) db.
Proof.
  intros b Hb. destruct (maxIdBook db) as [m |] eqn:E.
  - apply maxIdBook_Some in E as [_ Hup]. specialize (Hup b Hb). lia.
  - apply maxIdBook_None in E. subst db. destruct Hb.
Qed.

(** What a found-and-updated document and the new collection are. *)
Lemma findOneAndUpdate_Some (cond : Book -> bool) (f : Book -> Book) (db : list Book) :
  forall db' doc, findOneAndUpdate cond f db = Some (db', doc) ->
  exists before old after,
    db = before ++ old :: after /\ db' = before ++ f old :: after
    /\ doc = f old /\ findOne cond db = Some old.
Proof.
  induction db as [| b rest IH]; intros db' doc H; [discriminate |].
  simpl in H. unfold findOne. simpl. destruct (cond b) eqn:C.
  - injection H as <- <-. exists [], b, rest. auto.
  - destruct (findOneAndUpdate cond f rest) as [[rest' d] |]; [| discriminate].
    injection H as <- <-.
    destruct (IH rest' d eq_refl) as (before & old & after & -> & -> & -> & Hf).
    exists (b :: before), old, after. auto.
Qed.

Lemma findOneAndUpdate_found (cond : Book -> bool) (f : Book -> Book) (db : list Book) :
  forall old, findOne cond db = Some old ->
  exists db', findOneAndUpdate cond f db = Some (db', f old).
Proof.
  unfold findOne. induction db as [| b rest IH]; intros old H; [discriminate |].
  simpl in *. destruct (cond b).
  - injection H as <-. eauto.
  - destruct (IH old H) as [rest' ->]. eauto.
Qed.

Lemma findOneAndDelete_In (cond : Book -> bool) (db : list Book) :
  forall db' doc, findOneAndDelete cond db = Some (db', doc) ->
  forall b, In b db' -> In b db.
Proof.
  induction db as [| x rest IH]; intros db' doc H b Hb; [discriminate |].
  simpl in H. destruct (cond x).
  - injection H as <- <-. now right.
  - destruct (findOneAndDelete cond rest) as [[rest' d] |]; [| discriminate].
    injection H as <- <-. destruct Hb as [<- | Hb]; [now left | right; eauto].
Qed.

Lemma In_firstn {A} (n : nat) :
  forall (l : list A) (x : A), In x (firstn n l) -> In x l.
Proof.
  induction n as [| n IH]; intros [| y l] x H; try destruct H as [].
  - now left.
  - right. now apply IH.
Qed.

(** ** Properties of the validation combinators *)

Lemma refine_Some {I A} (ok : A -> bool) (s : z.schema I A) (v : option I) (a : A) :
  z.refine ok s v = Some a -> s v = Some a /\ ok a = true.
Proof.
  unfold z.refine. destruct (s v) as [x |]; [| discriminate].
  destruct (ok x) eqn:E; [| discriminate]. intros [= <-]. auto.
Qed.

Lemma default_absent {I A} (d : I) (s : z.schema I A) :
  z.default d s None = s (Some d).
Proof. reflexivity. Qed.

Lemma default_optional_Some {I A} (d : I) (s : z.schema I A) (v : option I) (o : option A) :
  z.default d (z.optional s) v = Some o -> exists a, o = Some a.
Proof.
  unfold z.default, z.optional. destruct v as [x |].
  - destruct (s (Some x)); [| discriminate]. intros [= <-]. eauto.
  - destruct (s (Some d)); [| discriminate]. intros [= <-]. eauto.
Qed.

Lemma optional_absent {I A} (s : z.schema I A) (o : option A) :
  z.optional s None = Some o -> o = None.
Proof. now intros [= <-]. Qed.

(** ** Properties of bookSchema *)

(** Every step of a successful parse has succeeded. *)
Ltac parsed H :=
  repeat match type of H with
         | match ?e with Some _ => _ | None => None end = Some _ =>
             let E := fresh "E" in destruct e eqn:E; [| discriminate H]
         end.

(** The validated data of a body, field by field. *)
Lemma bookSchema_fields (reqBody : json) (v : Data.t) :
  bookSchema reqBody = Some v ->
  exists o, reqBody = JObj o
  /\ z.minLength 1 z.string_ (get "title" o) = Some (Data.title v)
  /\ z.minLength 1 z.string_ (get "author" o) = Some (Data.author v)
  /\ z.optional z.string_ (get "authorByLastName" o) = Some (Data.authorByLastName v)
  /\ z.optional (z.array z.string_) (get "additionalAuthors" o)
     = Some (Data.additionalAuthors v)
  /\ z.optional z.string_ (get "isbn" o) = Some (Data.isbn v)
  /\ z.optional z.number (get "isbn13" o) = Some (Data.isbn13 v)
  /\ z.default (JNum 0) (z.max 5 (z.min 0 z.number)) (get "rating" o)
     = Some (Data.rating v)
  /\ z.optional z.number (get "averageRating" o) = Some (Data.averageRating v)
  /\ z.optional z.string_ (get "publisher" o) = Some (Data.publisher v)
  /\ z.optional z.string_ (get "binding" o) = Some (Data.binding v)
  /\ z.min 1 z.number (get "pages" o) = Some (Data.pages v)
  /\ z.default (JNum 0) z.number (get "beqValue" o) = Some (Data.beqValue v)
  /\ z.optional z.number (get "editionPublished" o) = Some (Data.editionPublished v)
  /\ z.optional z.number (get "published" o) = Some (Data.published v)
  /\ z.transform toDate (z.optional z.string_) (get "dateRead" o)
     = Some (Data.dateRead v)
  /\ z.default (JArr []) (z.array z.string_) (get "bookshelves" o)
     = Some (Data.bookshelves v)
  /\ z.optional (z.array z.string_) (get "bookshelvesWithPositions" o)
     = Some (Data.bookshelvesWithPositions v)
  /\ z.default (JStr "to-read") (z.enum shelves) (get "exclusiveShelf" o)
     = Some (Data.exclusiveShelf v)
  /\ z.optional z.string_ (get "review" o) = Some (Data.review v)
  /\ z.optional z.string_ (get "spoiler" o) = Some (Data.spoiler v)
  /\ z.optional z.string_ (get "privateNotes" o) = Some (Data.privateNotes v)
  /\ z.default (JNum 0) z.number (get "readCount" o) = Some (Data.readCount v)
  /\ z.default (JNum 0) z.number (get "ownedCopies" o) = Some (Data.ownedCopies v).
Proof.
  intros H. destruct reqBody as [| | | | | o]; try discriminate.
  exists o. split; [reflexivity |].
  unfold bookSchema in H. parsed H. injection H as <-.
  cbn [Data.title Data.author Data.authorByLastName Data.additionalAuthors
       Data.isbn Data.isbn13 Data.rating Data.averageRating Data.publisher
       Data.binding Data.pages Data.beqValue Data.editionPublished
       Data.published Data.dateRead Data.bookshelves
       Data.bookshelvesWithPositions Data.exclusiveShelf Data.review
       Data.spoiler Data.privateNotes Data.readCount Data.ownedCopies].
  repeat split; reflexivity.
Qed.

Lemma default_Some {I A} (d : I) (s : z.schema I A) (v : option I) (a : A) :
  z.default d s v = Some a -> exists x, s (Some x) = Some a.
Proof. unfold z.default. destruct v as [x |]; eauto. Qed.

(** Validated data meets the validators of the document schema. *)
Lemma bookSchema_validators (reqBody : json) (v : Data.t) :
  bookSchema reqBody = Some v -> validators v = true.
Proof.
  intros H. apply bookSchema_fields in H as (o & _ & Ht & Ha & _ & _ & _ & _ & Hr
    & _ & _ & _ & Hp & _ & _ & _ & _ & _ & _ & Hs & _).
  unfold validators.
  apply refine_Some in Ht as [_ Ht]. apply refine_Some in Ha as [_ Ha].
  apply default_Some in Hr as [x Hr].
  apply refine_Some in Hr as [Hr Hr5]. apply refine_Some in Hr as [_ Hr0].
  apply refine_Some in Hp as [_ Hp].
  apply default_Some in Hs as [y Hs]. apply refine_Some in Hs as [_ Hs].
  rewrite Hr0, Hr5. unfold isShelf. unfold z.member in Hs. rewrite Hs.
  assert (Hp0 : Qle_bool 0 (Data.pages v) = true).
  { apply Qle_bool_iff. apply Qle_bool_iff in Hp.
    apply Qle_trans with (y := 1%Q); [discriminate | exact Hp]. }
  rewrite Hp0.
  destruct (Data.title v); [discriminate |].
  destruct (Data.author v); [discriminate |]. reflexivity.
Qed.

(** The primary shelf of validated data is one of the three of the
    enumeration. *)
Lemma bookSchema_shelf (reqBody : json) (v : Data.t) :
  bookSchema reqBody = Some v -> In (Data.exclusiveShelf v) shelves.
Proof.
  intros H. apply bookSchema_validators in H. unfold validators in H.
  apply andb_prop in H as [_ H]. unfold isShelf in H.
  apply existsb_exists in H as (s & Hin & Hs).
  apply String.eqb_eq in Hs. now subst s.
Qed.

(** ** Creating a record *)

(** A body that passes [bookSchema] and whose read date, if it has one, is a
    date is saved as a new document under the computed identifier, when the
    greatest identifier is a safe integer. *)
Lemma createBook_created (db : list Book) (reqBody : json) (now : Z) (v : Data.t) :
  bookSchema reqBody = Some v ->
  Data.dateRead v <> Some InvalidDate ->
  safeMaximum db ->
  exists dateRead',
    castDate (Data.dateRead v) = Some dateRead'
    /\ createBook db reqBody now
       = (let doc := newDocument v dateRead'
                       (match maxIdBook db with Some m => bookId m + 1 | None => 1 end)
                       now in
          (db ++ [doc], mkResponse 201 (Document doc))).
Proof.
  intros Hv Hd Hs. unfold createBook.
  rewrite Hv, (bookSchema_validators _ _ Hv). cbv zeta.
  rewrite (newBookId_safe db Hs).
  destruct (Data.dateRead v) as [[ms |] |]; [| contradiction |];
    (eexists; split; [reflexivity |]); cbn [castDate];
    unfold save; cbn [bookId newDocument];
    rewrite (absent_existsb _ _ (newBookId_absent db)); reflexivity.
Qed.

(** Whatever is created carries the computed identifier and is appended. *)
Lemma createBook_inv (db db' : list Book) (reqBody : json) (now : Z) (doc : Book) :
  createBook db reqBody now = (db', mkResponse 201 (Document doc)) ->
  db' = db ++ [doc]
  /\ bookId doc = match maxIdBook db with Some m => JS.plus (bookId m) 1 | None => 1 end
  /\ absent (bookId doc) db
  /\ exists v, bookSchema reqBody = Some v
               /\ exclusiveShelf doc = Data.exclusiveShelf v.
Proof.
  unfold createBook. destruct (bookSchema reqBody) as [v |]; [| discriminate].
  destruct (castDate (Data.dateRead v)) as [dr |]; [| discriminate].
  destruct (validators v); [| discriminate].
  unfold save. destruct (existsb _ db) eqn:E; [discriminate |].
  intros [= <- <-]. cbn [bookId newDocument] in *. repeat split.
  - intros b Hb Hid.
    assert (Ht : existsb (hasId (match maxIdBook db with
                                 | Some m => JS.plus (bookId m) 1
                                 | None => 1
                                 end)) db = true).
    { apply existsb_exists. exists b. split; [exact Hb |].
      unfold hasId. now apply Z.eqb_eq. }
    congruence.
  - exists v. auto.
Qed.

Lemma newBookId_spec (db : list Book) :
  let newBookId := match maxIdBook db with Some m => bookId m + 1 | None => 1 end in
  (db = [] -> newBookId = 1)
  /\ (db <> [] -> exists m, maximumId db m /\ newBookId = m + 1).
Proof.
  cbv zeta. split.
  - intros ->. reflexivity.
  - intros Hne. destruct (maxIdBook db) as [m |] eqn:E.
    + exists (bookId m). split; [now apply maxIdBook_maximumId | reflexivity].
    + apply maxIdBook_None in E. contradiction.
Qed.

(** The computed identifier is a safe integer or 2^53, which is printed
    digit by digit. *)
Lemma newBookId_bound (db : list Book) :
  safeMaximum db ->
  Z.abs (match maxIdBook db with Some m => bookId m + 1 | None => 1 end) <= 2 ^ 53.
Proof.
  intros Hs. destruct (maxIdBook db) as [m |] eqn:E.
  - apply maxIdBook_maximumId in E. apply Hs in E. lia.
  - cbn. lia.
Qed.

(** C1, as amended.  For every create request whose body passes validation
    (the schema accepts it and its read date, if it gives one, is a date),
    when the greatest identifier of the collection is a safe integer, of
    magnitude below 2^53, the record is created, appended to the collection
    and returned with 201, and its identifier is the greatest identifier
    plus one; it is 1 when the collection is empty. *)
Theorem createBook_assigns_next_identifier
    (db : list Book) (reqBody : json) (now : Z) (v : Data.t) :
  bookSchema reqBody = Some v ->
  Data.dateRead v <> Some InvalidDate ->
  safeMaximum db ->
  exists doc,
    createBook db reqBody now = (db ++ [doc], mkResponse 201 (Document doc))
    /\ (db = [] -> bookId doc = 1)
    /\ (db <> [] -> exists m, maximumId db m /\ bookId doc = m + 1).
Proof.
  intros Hv Hd Hs.
  destruct (createBook_created db reqBody now v Hv Hd Hs) as (dr & _ & Hc).
  cbv zeta in Hc. eexists. split; [exact Hc |].
  cbn [bookId newDocument]. apply newBookId_spec.
Qed.

(** C7, as amended.  For every create request whose body passes validation
    (the schema accepts it and its read date, if it gives one, is a date),
    when the greatest identifier of the collection is a safe integer,
    fetching by the identifier of the created record, with no request in
    between, answers 200 with the very record that create returned. *)
Theorem create_then_getBookById
    (db : list Book) (reqBody : json) (now : Z) (v : Data.t) :
  bookSchema reqBody = Some v ->
  Data.dateRead v <> Some InvalidDate ->
  safeMaximum db ->
  exists db' doc,
    createBook db reqBody now = (db', mkResponse 201 (Document doc))
    /\ getBookById db' (JS.toString (bookId doc)) = json_ (Document doc).
Proof.
  intros Hv Hd Hs.
  destruct (createBook_created db reqBody now v Hv Hd Hs) as (dr & _ & Hc).
  cbv zeta in Hc. do 2 eexists. split; [exact Hc |].
  unfold getBookById.
  rewrite parseInt_toString by (cbn [bookId newDocument]; now apply newBookId_bound).
  rewrite find_appended; [reflexivity |].
  cbn [bookId newDocument]. apply newBookId_absent.
Qed.

(** Keys other than [bookId] are all that [bookSchema] reads. *)
Lemma bookSchema_ignores_bookId (o o' : list (string * json)) :
  (forall k, k <> "bookId" -> get k o = get k o') ->
  bookSchema (JObj o) = bookSchema (JObj o').
Proof.
  intros H. unfold bookSchema.
  rewrite !H by discriminate. reflexivity.
Qed.

Lemma createBook_without_bookId (db : list Book) (o o' : list (string * json)) (now : Z) :
  (forall k, k <> "bookId" -> get k o = get k o') ->
  createBook db (JObj o) now = createBook db (JObj o') now.
Proof.
  intros H. unfold createBook. now rewrite (bookSchema_ignores_bookId o o' H).
Qed.


(** ** Updating and deleting a record *)

(** The answer of [updateBook] to an identifier that parses and a body that
    passes validation. *)
Lemma updateBook_valid (db : list Book) (id : string) (n : Z) (reqBody : json)
    (now : Z) (v : Data.t) :
  JS.parseInt id = Some n ->
  bookSchema reqBody = Some v ->
  Data.dateRead v <> Some InvalidDate ->
  exists dateRead',
    castDate (Data.dateRead v) = Some dateRead'
    /\ updateBook db id reqBody now
       = match findOneAndUpdate (hasId n) (applyUpdate v dateRead' now) db with
         | Some (db', book) => (db', json_ (Document book))
         | None => (db, notFound)
         end.
Proof.
  intros Hn Hv Hd. unfold updateBook.
  rewrite Hn, Hv, (bookSchema_validators _ _ Hv).
  destruct (Data.dateRead v) as [[ms |] |]; [| contradiction |];
    (eexists; split; [reflexivity |]); reflexivity.
Qed.

(** A key that the body does not have is not in the validated data. *)
Lemma optional_kept {A} (s : z.schema json A) (o : list (string * json))
    (k : string) (x : option A) (old : option A) :
  z.optional s (get k o) = Some x -> get k o = None -> orKeep x old = old.
Proof. intros H E. rewrite E in H. apply optional_absent in H. now subst x. Qed.

Lemma optional_array_kept {A} (s : z.schema json (list A)) (o : list (string * json))
    (k : string) (x : option (list A)) (old : list A) :
  z.optional s (get k o) = Some x -> get k o = None -> orElse x old = old.
Proof. intros H E. rewrite E in H. apply optional_absent in H. now subst x. Qed.

Lemma default_reset {A} (d : json) (s : z.schema json A) (o : list (string * json))
    (k : string) (x a : A) :
  z.default d s (get k o) = Some x -> s (Some d) = Some a -> get k o = None -> x = a.
Proof. intros H Hd E. rewrite E in H. cbn in H. congruence. Qed.

(** A key that the body has is in the validated data with the value of the
    body. *)
Lemma optional_string_given (o : list (string * json)) (k s : string)
    (x old : option string) :
  z.optional z.string_ (get k o) = Some x -> get k o = Some (JStr s) ->
  orKeep x old = Some s.
Proof. intros H E. rewrite E in H. cbn in H. injection H as <-. reflexivity. Qed.

Lemma optional_number_given (o : list (string * json)) (k : string) (n : Q)
    (x old : option Q) :
  z.optional z.number (get k o) = Some x -> get k o = Some (JNum n) ->
  orKeep x old = Some n.
Proof. intros H E. rewrite E in H. cbn in H. injection H as <-. reflexivity. Qed.

Lemma all_strings (l : list string) : z.all z.string_ (map JStr l) = Some l.
Proof. induction l as [| s l IH]; [reflexivity |]. cbn. now rewrite IH. Qed.

Lemma optional_array_given (o : list (string * json)) (k : string) (l : list string)
    (x : option (list string)) (old : list string) :
  z.optional (z.array z.string_) (get k o) = Some x ->
  get k o = Some (JArr (map JStr l)) ->
  orElse x old = l.
Proof.
  intros H E. rewrite E in H. cbn [z.optional z.array option_map] in H.
  rewrite all_strings in H. cbn in H. injection H as <-. reflexivity.
Qed.

Lemma string_required (o : list (string * json)) (k : string) (s : string) :
  z.minLength 1 z.string_ (get k o) = Some s -> get k o = Some (JStr s) /\ s <> "".
Proof.
  intros H. apply refine_Some in H as [H Hlen]. unfold z.string_ in H.
  destruct (get k o) as [[| | | t | |] |]; try discriminate.
  injection H as <-. split; [reflexivity |]. now destruct t.
Qed.

Lemma default_number_given (o : list (string * json)) (k : string) (n x : Q) :
  z.default (JNum 0) z.number (get k o) = Some x -> get k o = Some (JNum n) -> x = n.
Proof. intros H E. rewrite E in H. cbn in H. congruence. Qed.

(** C3, as amended.  For every stored record and every valid update payload,
    the update endpoint writes the keys of the validated payload: the keys
    that the body gives, with the values of the body, and, for the keys
    [rating], [beqValue], [bookshelves], [exclusiveShelf], [readCount] and
    [ownedCopies] that the body omits, their defaults; it refreshes
    [updatedAt].  It preserves the identifier, [dateAdded] and [createdAt];
    every other stored field whose key the body omits (or, for the read date,
    gives as the empty string) keeps its prior value, and the other records
    are unchanged. *)
Theorem updateBook_writes_validated_payload
    (db : list Book) (id : string) (n : Z) (o : list (string * json)) (now : Z)
    (v : Data.t) (old : Book) :
  JS.parseInt id = Some n ->
  bookSchema (JObj o) = Some v ->
  Data.dateRead v <> Some InvalidDate ->
  findOne (hasId n) db = Some old ->
  exists before after doc,
    db = before ++ old :: after
    /\ updateBook db id (JObj o) now = (before ++ doc :: after, json_ (Document doc))
    /\ (bookId doc = bookId old /\ dateAdded doc = dateAdded old
        /\ createdAt doc = createdAt old /\ updatedAt doc = now)
    /\ ((get "authorByLastName" o = None -> authorByLastName doc = authorByLastName old)
        /\ (get "additionalAuthors" o = None -> additionalAuthors doc = additionalAuthors old)
        /\ (get "isbn" o = None -> isbn doc = isbn old)
        /\ (get "isbn13" o = None -> isbn13 doc = isbn13 old)
        /\ (get "averageRating" o = None -> averageRating doc = averageRating old)
        /\ (get "publisher" o = None -> publisher doc = publisher old)
        /\ (get "binding" o = None -> binding doc = binding old)
        /\ (get "editionPublished" o = None -> editionPublished doc = editionPublished old)
        /\ (get "published" o = None -> published doc = published old)
        /\ (get "dateRead" o = None -> dateRead doc = dateRead old)
        /\ (get "bookshelvesWithPositions" o = None ->
            bookshelvesWithPositions doc = bookshelvesWithPositions old)
        /\ (get "review" o = None -> review doc = review old)
        /\ (get "spoiler" o = None -> spoiler doc = spoiler old)
        /\ (get "privateNotes" o = None -> privateNotes doc = privateNotes old))
    /\ ((get "rating" o = None -> rating doc = 0%Q)
        /\ (get "beqValue" o = None -> beqValue doc = 0%Q)
        /\ (get "bookshelves" o = None -> bookshelves doc = [])
        /\ (get "exclusiveShelf" o = None -> exclusiveShelf doc = "to-read")
        /\ (get "readCount" o = None -> readCount doc = 0%Q)
        /\ (get "ownedCopies" o = None -> ownedCopies doc = 0%Q))
    /\ (title doc = Data.title v /\ author doc = Data.author v
        /\ rating doc = Data.rating v /\ pages doc = Data.pages v
        /\ beqValue doc = Data.beqValue v /\ bookshelves doc = Data.bookshelves v
        /\ exclusiveShelf doc = Data.exclusiveShelf v
        /\ readCount doc = Data.readCount v /\ ownedCopies doc = Data.ownedCopies v)
    /\ ((forall s, get "authorByLastName" o = Some (JStr s) -> authorByLastName doc = Some s)
        /\ (forall l, get "additionalAuthors" o = Some (JArr (map JStr l)) ->
            additionalAuthors doc = l)
        /\ (forall s, get "isbn" o = Some (JStr s) -> isbn doc = Some s)
        /\ (forall x, get "isbn13" o = Some (JNum x) -> isbn13 doc = Some x)
        /\ (forall x, get "averageRating" o = Some (JNum x) -> averageRating doc = Some x)
        /\ (forall s, get "publisher" o = Some (JStr s) -> publisher doc = Some s)
        /\ (forall s, get "binding" o = Some (JStr s) -> binding doc = Some s)
        /\ (forall x, get "editionPublished" o = Some (JNum x) ->
            editionPublished doc = Some x)
        /\ (forall x, get "published" o = Some (JNum x) -> published doc = Some x)
        /\ (forall s, get "dateRead" o = Some (JStr s) -> s <> "" ->
            exists ms, newDate s = Date ms /\ dateRead doc = Some ms)
        /\ (get "dateRead" o = Some (JStr "") -> dateRead doc = dateRead old)
        /\ (forall l, get "bookshelvesWithPositions" o = Some (JArr (map JStr l)) ->
            bookshelvesWithPositions doc = l)
        /\ (forall s, get "review" o = Some (JStr s) -> review doc = Some s)
        /\ (forall s, get "spoiler" o = Some (JStr s) -> spoiler doc = Some s)
        /\ (forall s, get "privateNotes" o = Some (JStr s) -> privateNotes doc = Some s))
    /\ (get "title" o = Some (JStr (title doc))
        /\ get "author" o = Some (JStr (author doc))
        /\ get "pages" o = Some (JNum (pages doc))
        /\ (forall x, get "rating" o = Some (JNum x) -> rating doc = x)
        /\ (forall x, get "beqValue" o = Some (JNum x) -> beqValue doc = x)
        /\ (forall l, get "bookshelves" o = Some (JArr (map JStr l)) -> bookshelves doc = l)
        /\ (forall s, get "exclusiveShelf" o = Some (JStr s) -> exclusiveShelf doc = s)
        /\ (forall x, get "readCount" o = Some (JNum x) -> readCount doc = x)
        /\ (forall x, get "ownedCopies" o = Some (JNum x) -> ownedCopies doc = x)).
Proof.
  intros Hn Hv Hd Hold.
  destruct (updateBook_valid db id n (JObj o) now v Hn Hv Hd) as (dr & Hdr & Hu).
  destruct (findOneAndUpdate_found (hasId n) (applyUpdate v dr now) db old Hold)
    as [db' Hf].
  rewrite Hf in Hu.
  destruct (findOneAndUpdate_Some _ _ _ _ _ Hf) as (before & old' & after & Hdb & Hdb' & _ & Hold').
  assert (old' = old) by congruence. subst old' db'.
  exists before, after, (applyUpdate v dr now old).
  split; [exact Hdb |]. split; [exact Hu |].
  apply bookSchema_fields in Hv
    as (o' & [= <-] & Ht & Ha & H1 & H2 & H3 & H4 & Hr & H5 & H6 & H7 & Hp & Hb
        & H8 & H9 & H10 & Hbs & H11 & Hs & H12 & H13 & H14 & Hrc & Hoc).
  cbn [applyUpdate bookId title author authorByLastName additionalAuthors isbn
       isbn13 rating averageRating publisher binding pages beqValue
       editionPublished published dateRead dateAdded bookshelves
       bookshelvesWithPositions exclusiveShelf review spoiler privateNotes
       readCount ownedCopies createdAt updatedAt].
  split; [auto |]. split; [| split; [| split; [repeat split | split]]].
  - repeat split; intros E;
      try (eapply optional_kept; eassumption);
      try (eapply optional_array_kept; eassumption).
    rewrite E in H10. cbn in H10. injection H10 as H10.
    rewrite <- H10 in Hdr. cbn in Hdr. injection Hdr as <-. reflexivity.
  - repeat split; intros E;
      (eapply default_reset; [eassumption | reflexivity | exact E]).
  - repeat split;
      try (intros x E; eapply optional_string_given; eassumption);
      try (intros x E; eapply optional_number_given; eassumption);
      try (intros x E; eapply optional_array_given; eassumption).
    + intros s E Hne. rewrite E in H10. cbn [z.transform z.optional z.string_ option_map] in H10.
      injection H10 as H10. unfold toDate in H10.
      destruct (String.eqb_spec s ""); [contradiction |].
      rewrite <- H10 in Hdr, Hd. destruct (newDate s) as [ms |]; [| contradiction].
      cbn in Hdr. injection Hdr as <-. exists ms. auto.
    + intros E. rewrite E in H10. cbn in H10. injection H10 as H10.
      rewrite <- H10 in Hdr. cbn in Hdr. injection Hdr as <-. reflexivity.
  - apply string_required in Ht as [Ht _]. apply string_required in Ha as [Ha _].
    apply refine_Some in Hp as [Hp _]. unfold z.number in Hp.
    destruct (get "pages" o) as [[| | x | | |] |]; try discriminate.
    injection Hp as ->.
    repeat split; try assumption.
    + intros x E. rewrite E in Hr. cbn [z.default] in Hr.
      apply refine_Some in Hr as [Hr _]. apply refine_Some in Hr as [Hr _].
      cbn in Hr. congruence.
    + intros x E. eapply default_number_given; eassumption.
    + intros l E. rewrite E in Hbs. cbn [z.default z.array] in Hbs.
      rewrite all_strings in Hbs. congruence.
    + intros s E. rewrite E in Hs. cbn [z.default] in Hs.
      apply refine_Some in Hs as [Hs _]. cbn in Hs. congruence.
    + intros x E. eapply default_number_given; eassumption.
    + intros x E. eapply default_number_given; eassumption.
Qed.

(** C5, as amended.  For every identifier that parses to a number not present
    in the collection, the get-by-id and delete endpoints answer 404; the
    update endpoint answers 404 when its body passes the schema and its read
    date, if it gives one, is a date, 500 when the read date is not a date,
    and 400 when the body fails the schema.  In every case the collection is
    the same afterwards. *)
Theorem missing_record_404 (db : list Book) (id : string) (n : Z) :
  JS.parseInt id = Some n ->
  absent n db ->
  getBookById db id = notFound
  /\ deleteBook db id = (db, notFound)
  /\ (forall reqBody now v,
        bookSchema reqBody = Some v ->
        Data.dateRead v <> Some InvalidDate ->
        updateBook db id reqBody now = (db, notFound))
  /\ (forall reqBody now v,
        bookSchema reqBody = Some v ->
        Data.dateRead v = Some InvalidDate ->
        updateBook db id reqBody now = (db, serverError))
  /\ (forall reqBody now,
        bookSchema reqBody = None ->
        updateBook db id reqBody now = (db, invalidData))
  /\ (forall reqBody now, fst (updateBook db id reqBody now) = db).
Proof.
  intros Hn Ha. repeat split.
  - unfold getBookById. now rewrite Hn, (absent_find _ _ Ha).
  - unfold deleteBook. now rewrite Hn, (absent_findOneAndDelete _ _ Ha).
  - intros reqBody now v Hv Hd.
    destruct (updateBook_valid db id n reqBody now v Hn Hv Hd) as (dr & _ & ->).
    now rewrite (absent_findOneAndUpdate _ _ _ Ha).
  - intros reqBody now v Hv Hd. unfold updateBook. now rewrite Hn, Hv, Hd.
  - intros reqBody now Hv. unfold updateBook. now rewrite Hn, Hv.
  - intros reqBody now. unfold updateBook. rewrite Hn.
    destruct (bookSchema reqBody) as [v |]; [| reflexivity].
    destruct (castDate (Data.dateRead v)) as [dr |]; [| reflexivity].
    destruct (validators v); [| reflexivity].
    now rewrite (absent_findOneAndUpdate _ _ _ Ha).
Qed.

(** C10, as amended.  For every string given as the path parameter, the
    get-by-id and delete endpoints answer 400 exactly when [parseInt] of the
    string is NaN, and the update endpoint answers 400 [Invalid book ID]
    exactly then (it has a second answer 400, for a body that fails
    validation).  The three endpoints read nothing of the string but its
    [parseInt]; in particular [12abc] is treated as 12. *)
Theorem invalid_identifier_400 (db : list Book) (id : string) :
  (status (getBookById db id) = 400 <-> JS.parseInt id = None)
  /\ (status (snd (deleteBook db id)) = 400 <-> JS.parseInt id = None)
  /\ (forall reqBody now,
        snd (updateBook db id reqBody now) = invalidId <-> JS.parseInt id = None)
  /\ (forall id',
        JS.parseInt id' = JS.parseInt id ->
        getBookById db id' = getBookById db id
        /\ deleteBook db id' = deleteBook db id
        /\ forall reqBody now,
             updateBook db id' reqBody now = updateBook db id reqBody now)
  /\ JS.parseInt "12abc" = JS.parseInt "12".
Proof.
  repeat split.
  - unfold getBookById. destruct (JS.parseInt id) as [n |]; [| reflexivity].
    destruct (findOne (hasId n) db); discriminate.
  - intros E. unfold getBookById. now rewrite E.
  - unfold deleteBook. destruct (JS.parseInt id) as [n |]; [| reflexivity].
    destruct (findOneAndDelete (hasId n) db) as [[db' b] |]; discriminate.
  - intros E. unfold deleteBook. now rewrite E.
  - unfold updateBook. destruct (JS.parseInt id) as [n |]; [| reflexivity].
    destruct (bookSchema reqBody) as [v |]; [| discriminate].
    destruct (castDate (Data.dateRead v)) as [dr |]; [| discriminate].
    destruct (validators v); [| discriminate].
    destruct (findOneAndUpdate (hasId n) _ db) as [[db' b] |]; discriminate.
  - intros E. unfold updateBook. now rewrite E.
  - unfold getBookById. now rewrite H.
  - unfold deleteBook. now rewrite H.
  - intros reqBody now. unfold updateBook. now rewrite H.
Qed.

(** ** The list endpoint *)

(** *** The cursor on whole numbers *)

Lemma wholePart_inject_Z (x : Q) (n : Z) :
  (x == inject_Z n)%Q -> Cursor.wholePart x = n.
Proof.
  unfold Qeq, Cursor.wholePart. cbn [Qnum Qden inject_Z]. intros H.
  rewrite Z.mul_1_r in H. rewrite H. apply Z.quot_mul. discriminate.
Qed.

Lemma skip_whole (x : Q) (k : Z) (docs : list Book) :
  (x == inject_Z k)%Q -> 0 <= k ->
  Cursor.skip x docs = Some (skipn (Z.to_nat k) docs).
Proof.
  intros Hx Hk. unfold Cursor.skip. rewrite (wholePart_inject_Z x k Hx).
  destruct (Z.ltb_spec k 0); [lia | reflexivity].
Qed.

Lemma limit_whole (x : Q) (k : Z) (docs : list Book) :
  (x == inject_Z k)%Q -> 0 < k ->
  Cursor.limit x docs = firstn (Z.to_nat k) docs.
Proof.
  intros Hx Hk. unfold Cursor.limit. rewrite (wholePart_inject_Z x k Hx).
  destruct (Z.eqb_spec k 0); [lia | reflexivity].
Qed.

Lemma In_skipn {A} (n : nat) :
  forall (l : list A) (x : A), In x (skipn n l) -> In x l.
Proof.
  induction n as [| n IH]; intros [| y l] x H; try exact H.
  right. now apply IH.
Qed.

Lemma skip_In (x : Q) (docs skipped : list Book) (b : Book) :
  Cursor.skip x docs = Some skipped -> In b skipped -> In b docs.
Proof.
  unfold Cursor.skip. destruct (Cursor.wholePart x <? 0); [discriminate |].
  intros [= <-]. apply In_skipn.
Qed.

Lemma limit_In (x : Q) (docs : list Book) (b : Book) :
  In b (Cursor.limit x docs) -> In b docs.
Proof.
  unfold Cursor.limit. destruct (Cursor.wholePart x =? 0); [auto | apply In_firstn].
Qed.

(** The offset of a whole page of whole size. *)
Lemma offset_whole (page limit : Q) (P L : Z) :
  (page == inject_Z P)%Q -> (limit == inject_Z L)%Q ->
  ((page - 1) * limit == inject_Z ((P - 1) * L))%Q.
Proof.
  intros -> ->. unfold Qeq, Qmult, Qminus, Qplus, Qopp, inject_Z.
  cbn [Qnum Qden]. lia.
Qed.

Lemma ceilDiv_whole (total : Z) (limit : Q) (L : Z) :
  (limit == inject_Z L)%Q -> 0 < L ->
  (ceilDiv total limit - 1) * L < total <= ceilDiv total limit * L.
Proof.
  intros Hl H. unfold ceilDiv.
  assert (E : Qceiling (inject_Z total / limit) = Qceiling (inject_Z total / inject_Z L))
    by (apply Qceiling_comp; now rewrite Hl).
  rewrite E. clear E Hl. destruct L as [| b | b]; try lia.
  unfold Qceiling, Qfloor, Qdiv, Qinv, Qmult, Qopp, inject_Z.
  cbn [Qnum Qden]. rewrite Z.mul_1_r, Pos.mul_1_l.
  pose proof (Z.div_mod (- total) (Z.pos b)) as Hdm.
  pose proof (Z.mod_pos_bound (- total) (Z.pos b) H) as Hb.
  nia.
Qed.

(** *** The validated parameters *)

Lemma positive_field (d : Q) (v : option (coerced Q)) :
  Qle_bool d 0 = false ->
  z.default (Num d) (z.optional (z.positive z.coerceNumber)) v
  = if positiveOrAbsent v then Some (Some (orElse (numberOf v) d)) else None.
Proof.
  intros Hd.
  unfold z.default, z.optional, z.positive, z.refine, z.coerceNumber,
    positiveOrAbsent, numberOf.
  destruct v as [[| n] |]; cbn; try reflexivity.
  - destruct (Qle_bool n 0); reflexivity.
  - now rewrite Hd.
Qed.

Lemma order_field (v : option param) :
  z.default (Text "desc") (z.optional (z.enumText orders)) v
  = if orderOrAbsent v then Some (Some (orElse (textOf v) "desc")) else None.
Proof.
  destruct v as [[o |] |]; try reflexivity.
  unfold z.default, z.optional, z.enumText, z.refine, z.text, z.member, orderOrAbsent.
  cbn [existsb orders orElse textOf]. rewrite orb_false_r.
  destruct ((o =? "asc")%string || (o =? "desc")%string); reflexivity.
Qed.

Lemma rating_field (v : option (coerced Q)) :
  z.optional (z.max 5 (z.min 0 z.coerceNumber)) v
  = if ratingOrAbsent v then Some (numberOf v) else None.
Proof.
  destruct v as [[| x] |]; try reflexivity.
  unfold z.optional, z.max, z.min, z.refine, z.coerceNumber, ratingOrAbsent, numberOf.
  destruct (Qle_bool 0 x); cbn; [| reflexivity].
  destruct (Qle_bool x 5); reflexivity.
Qed.

Lemma text_field (v : option param) :
  z.optional z.text v = if textOrAbsent v then Some (textOf v) else None.
Proof. now destruct v as [[s |] |]. Qed.

Lemma sort_field (v : option param) :
  z.default (Text "dateAdded") (z.optional z.text) v
  = if textOrAbsent v then Some (Some (orElse (textOf v) "dateAdded")) else None.
Proof. now destruct v as [[s |] |]. Qed.

Lemma date_field (v : option param) :
  z.transform toDate (z.optional z.text) v
  = if textOrAbsent v then Some (toDate (textOf v)) else None.
Proof. now destruct v as [[s |] |]. Qed.

(** The validated parameters of a query, in one formula. *)
Lemma filterSchema_eq (q : Query) :
  filterSchema q = if acceptable q then Some (paramsOf q) else None.
Proof.
  unfold filterSchema, acceptable, paramsOf.
  rewrite !positive_field by reflexivity.
  rewrite sort_field, order_field, !text_field, !rating_field, !date_field.
  destruct (positiveOrAbsent (q_page q)); [| reflexivity].
  destruct (positiveOrAbsent (q_limit q)); [| reflexivity].
  destruct (textOrAbsent (q_sort q)); [| reflexivity].
  destruct (orderOrAbsent (q_order q)); [| reflexivity].
  destruct (textOrAbsent (q_shelf q)); [| reflexivity].
  destruct (textOrAbsent (q_search q)); [| reflexivity].
  destruct (ratingOrAbsent (q_minRating q)); [| reflexivity].
  destruct (ratingOrAbsent (q_maxRating q)); [| reflexivity].
  destruct (textOrAbsent (q_startDate q)); [| reflexivity].
  destruct (textOrAbsent (q_endDate q)); reflexivity.
Qed.

Lemma filterSchema_acceptable (q : Query) (p : BookFilters) :
  filterSchema q = Some p -> acceptable q = true /\ p = paramsOf q.
Proof.
  rewrite filterSchema_eq. destruct (acceptable q); [| discriminate].
  intros [= <-]. auto.
Qed.

Lemma requestedPage_eq (q : Query) : orElse (numberOf (q_page q)) 1%Q = requestedPage q.
Proof. unfold requestedPage. now destruct (q_page q) as [[| n] |]. Qed.

Lemma effectiveLimit_eq (q : Query) : orElse (numberOf (q_limit q)) 10%Q = effectiveLimit q.
Proof. unfold effectiveLimit. now destruct (q_limit q) as [[| n] |]. Qed.

Lemma sortKey_eq (q : Query) : orElse (textOf (q_sort q)) "dateAdded" = sortKey q.
Proof. unfold sortKey. now destruct (q_sort q) as [[s |] |]. Qed.

Lemma acceptable_positive (q : Query) :
  acceptable q = true -> (0 < requestedPage q)%Q /\ (0 < effectiveLimit q)%Q.
Proof.
  unfold acceptable, requestedPage, effectiveLimit. rewrite !andb_true_iff.
  intros [[[[[[[[[Hp Hl] _] _] _] _] _] _] _] _].
  assert (Hpos : forall x, negb (Qle_bool x 0) = true -> (0 < x)%Q).
  { intros x Hx. apply Qnot_le_lt. intros Hle. apply Qle_bool_iff in Hle.
    rewrite Hle in Hx. discriminate. }
  destruct (q_page q) as [[| n] |], (q_limit q) as [[| m] |]; cbn in Hp, Hl;
    try discriminate; split; try (now apply Hpos); reflexivity.
Qed.

(** C8. For every list request that leaves out page, limit, sort or order,
    the parameter left out has its default after validation: page 1, limit
    10, sort [dateAdded], order [desc]. *)
Theorem filterSchema_defaults (q : Query) (p : BookFilters) :
  filterSchema q = Some p ->
  (q_page q = None -> page p = Some 1%Q)
  /\ (q_limit q = None -> limit p = Some 10%Q)
  /\ (q_sort q = None -> sort p = Some "dateAdded")
  /\ (q_order q = None -> order p = Some "desc").
Proof.
  intros H. unfold filterSchema in H. parsed H. injection H as <-.
  cbn [page limit sort order].
  repeat split; intros Eq.
  - rewrite Eq in E. cbn in E. congruence.
  - rewrite Eq in E0. cbn in E0. congruence.
  - rewrite Eq in E1. cbn in E1. congruence.
  - rewrite Eq in E2. cbn in E2. congruence.
Qed.

(** *** What the filter asks of a record *)

Lemma searchRegex_None (q : Query) :
  searchRegex (paramsOf q) = None <-> badPattern q.
Proof.
  unfold searchRegex, truthy, badPattern. cbn [search paramsOf].
  destruct (q_search q) as [[s |] |]; cbn [textOf].
  - destruct (String.eqb_spec s ""); cbn [negb].
    + split; [discriminate | intros (s' & [= <-] & Hne & _); contradiction].
    + destruct (RegExp_i s) eqn:E; cbn [option_map].
      * split; [discriminate | intros (s' & [= <-] & _ & H); congruence].
      * split; [intros _; eauto | reflexivity].
  - split; [discriminate | intros (s' & [=] & _)].
  - split; [discriminate | intros (s' & [=] & _)].
Qed.

Lemma toDate_invalid (v : option param) :
  toDate (textOf v) = Some InvalidDate
  <-> exists s, v = Some (Text s) /\ s <> "" /\ newDate s = InvalidDate.
Proof.
  unfold toDate. destruct v as [[s |] |]; cbn [textOf].
  - destruct (String.eqb_spec s "").
    + split; [discriminate | intros (s' & [= <-] & Hne & _); contradiction].
    + split; [intros [= H]; eauto | intros (s' & [= <-] & _ & ->); reflexivity].
  - split; [discriminate | intros (s' & [=] & _)].
  - split; [discriminate | intros (s' & [=] & _)].
Qed.

Lemma castable_false (p : BookFilters) (re : option (string -> bool)) :
  castable (buildFilter p re) = false
  <-> startDate p = Some InvalidDate \/ endDate p = Some InvalidDate.
Proof.
  unfold castable, buildFilter. cbn [f_dateRead].
  destruct (startDate p) as [[lo |] |], (endDate p) as [[hi |] |]; cbn;
    (split; [try discriminate; auto | intros [H | H]; try discriminate; reflexivity]).
Qed.

Lemma castable_badDate (q : Query) (re : option (string -> bool)) :
  castable (buildFilter (paramsOf q) re) = false <-> badDate q.
Proof.
  rewrite castable_false. cbn [startDate endDate paramsOf].
  rewrite !toDate_invalid. unfold badDate. split.
  - intros [(s & H & Hne & Hd) | (s & H & Hne & Hd)]; exists s; auto.
  - intros (s & [H | H] & Hne & Hd); [left | right]; eauto.
Qed.

Lemma shelf_condition (q : Query) (b : Book) :
  match (if truthy (textOf (q_shelf q)) then textOf (q_shelf q) else None) with
  | Some s => (exclusiveShelf b =? s)%string
  | None => true
  end = true
  <-> onShelfAsked q b.
Proof.
  unfold onShelfAsked, truthy. destruct (q_shelf q) as [[s |] |]; cbn [textOf].
  - destruct (String.eqb_spec s ""); cbn [negb].
    + split; [intros _ s' [= <-] Hne; contradiction | reflexivity].
    + rewrite String.eqb_eq. split; [intros H s' [= <-] _; exact H | eauto].
  - split; [intros _ s' [=] | reflexivity].
  - split; [intros _ s' [=] | reflexivity].
Qed.

Lemma rating_condition (q : Query) (b : Book) :
  ratingOrAbsent (q_minRating q) = true ->
  ratingOrAbsent (q_maxRating q) = true ->
  match (if defined (numberOf (q_minRating q)) || defined (numberOf (q_maxRating q))
         then Some (numberOf (q_minRating q), numberOf (q_maxRating q)) else None) with
  | Some (lo, hi) => gte (rating b) lo && lte (rating b) hi
  | None => true
  end = true
  <-> ratedWithin q b.
Proof.
  unfold ratedWithin.
  destruct (q_minRating q) as [[| lo] |], (q_maxRating q) as [[| hi] |];
    intros Hlo Hhi; try discriminate; cbn;
    rewrite ?andb_true_r, ?andb_true_iff, ?Qle_bool_iff.
  - split.
    + intros [H1 H2]. split; intros x Hx;
        [assert (x = lo) by congruence | assert (x = hi) by congruence];
        subst x; assumption.
    + intros [H1 H2]. split; [now apply H1 | now apply H2].
  - split.
    + intros H1. split; intros x Hx; [| discriminate].
      assert (x = lo) by congruence. subst x. assumption.
    + intros [H1 _]. now apply H1.
  - split.
    + intros H2. split; intros x Hx; [discriminate |].
      assert (x = hi) by congruence. subst x. assumption.
    + intros [_ H2]. now apply H2.
  - split; [intros _; split; intros x [=] | reflexivity].
Qed.

(** A bound that is a date, or no bound. *)
Lemma date_bound_cases (v : option param) :
  toDate (textOf v) <> Some InvalidDate ->
  (toDate (textOf v) = None /\ forall s, v = Some (Text s) -> s = "")
  \/ exists s t, v = Some (Text s) /\ s <> "" /\ newDate s = Date t
                 /\ toDate (textOf v) = Some (Date t).
Proof.
  unfold toDate. destruct v as [[s |] |]; cbn [textOf];
    [| intros _; left; split; [reflexivity | intros s [=]] ..].
  destruct (String.eqb_spec s "") as [-> | Hne].
  - intros _. left. split; [reflexivity | now intros s [= <-]].
  - intros H. destruct (newDate s) as [t |] eqn:E; [| contradiction].
    right. exists s, t. auto.
Qed.

Lemma date_condition (q : Query) (b : Book) :
  toDate (textOf (q_startDate q)) <> Some InvalidDate ->
  toDate (textOf (q_endDate q)) <> Some InvalidDate ->
  match (if defined (toDate (textOf (q_startDate q)))
            || defined (toDate (textOf (q_endDate q)))
         then Some (toDate (textOf (q_startDate q)), toDate (textOf (q_endDate q)))
         else None) with
  | Some (lo, hi) =>
      match dateRead b with
      | Some d => dateGte d lo && dateLte d hi
      | None => false
      end
  | None => true
  end = true
  <-> readWithin q b.
Proof.
  intros Hs He. unfold readWithin.
  destruct (date_bound_cases _ Hs) as [[-> Hsv] | (s & lo & Hsv & Hsne & Hsd & ->)];
    destruct (date_bound_cases _ He) as [[-> Hev] | (e & hi & Hev & Hene & Hed & ->)];
    cbn [defined orb].
  - split; [| reflexivity]. intros _. split.
    + intros s Hq Hne. now apply Hsv in Hq.
    + intros s Hq Hne. now apply Hev in Hq.
  - destruct (dateRead b) as [d |]; cbn [dateGte dateLte andb].
    + rewrite Z.leb_le. split.
      * intros H. split.
        -- intros s Hq Hne. now apply Hsv in Hq.
        -- intros s Hq Hne. assert (s = e) by congruence. subst s. eauto.
      * intros [_ H]. destruct (H e Hev Hene) as (hi' & d' & H1 & H2 & H3).
        assert (hi' = hi) by congruence. assert (d' = d) by congruence. lia.
    + split; [discriminate |].
      intros [_ H]. destruct (H e Hev Hene) as (hi' & d' & _ & H2 & _). discriminate.
  - destruct (dateRead b) as [d |]; cbn [dateGte dateLte andb].
    + rewrite andb_true_r, Z.leb_le. split.
      * intros H. split.
        -- intros s' Hq Hne. assert (s' = s) by congruence. subst s'. eauto.
        -- intros s' Hq Hne. now apply Hev in Hq.
      * intros [H _]. destruct (H s Hsv Hsne) as (lo' & d' & H1 & H2 & H3).
        assert (lo' = lo) by congruence. assert (d' = d) by congruence. lia.
    + split; [discriminate |].
      intros [H _]. destruct (H s Hsv Hsne) as (lo' & d' & _ & H2 & _). discriminate.
  - destruct (dateRead b) as [d |]; cbn [dateGte dateLte andb].
    + rewrite andb_true_iff, !Z.leb_le. split.
      * intros [H1 H2]. split.
        -- intros s' Hq Hne. assert (s' = s) by congruence. subst s'. eauto.
        -- intros s' Hq Hne. assert (s' = e) by congruence. subst s'. eauto.
      * intros [H1 H2].
        destruct (H1 s Hsv Hsne) as (lo' & d1 & A1 & A2 & A3).
        destruct (H2 e Hev Hene) as (hi' & d2 & B1 & B2 & B3).
        assert (lo' = lo) by congruence. assert (hi' = hi) by congruence.
        assert (d1 = d) by congruence. assert (d2 = d) by congruence. lia.
    + split; [discriminate |].
      intros [H _]. destruct (H s Hsv Hsne) as (lo' & d' & _ & H2 & _). discriminate.
Qed.

Lemma search_condition (q : Query) (re : option (string -> bool)) (b : Book) :
  searchRegex (paramsOf q) = Some re ->
  match re with
  | Some t => t (title b) || t (author b) || test t (publisher b) || test t (review b)
  | None => true
  end = true
  <-> found q b.
Proof.
  unfold searchRegex, found, truthy. cbn [search paramsOf].
  destruct (q_search q) as [[s |] |]; cbn [textOf].
  - destruct (String.eqb_spec s ""); cbn [negb].
    + intros [= <-]. split; [intros _ s' t [= <-] Hne; contradiction | reflexivity].
    + destruct (RegExp_i s) as [t |] eqn:E; [| discriminate].
      intros [= <-]. split.
      * intros H s' t' [= <-] _ Ht. assert (t' = t) by congruence. now subst t'.
      * intros H. now apply (H s t).
  - intros [= <-]. split; [intros _ s' t [=] | reflexivity].
  - intros [= <-]. split; [intros _ s' t [=] | reflexivity].
Qed.

(** The filter of a query that is served selects the records that meet what
    the query asks, parameter by parameter. *)
Lemma matches_spec (q : Query) (re : option (string -> bool)) (b : Book) :
  acceptable q = true ->
  searchRegex (paramsOf q) = Some re ->
  castable (buildFilter (paramsOf q) re) = true ->
  matches (buildFilter (paramsOf q) re) b = true
  <-> onShelfAsked q b /\ ratedWithin q b /\ readWithin q b /\ found q b.
Proof.
  intros Ha Hre Hc.
  assert (Hdates : toDate (textOf (q_startDate q)) <> Some InvalidDate
                   /\ toDate (textOf (q_endDate q)) <> Some InvalidDate).
  { split; intros E;
      (assert (Hf : castable (buildFilter (paramsOf q) re) = false)
         by (apply castable_false; cbn [startDate endDate paramsOf]; auto));
      congruence. }
  unfold acceptable in Ha. rewrite !andb_true_iff in Ha.
  destruct Ha as [[[[_ Hlo] Hhi] _] _]. destruct Hdates as [Hs He].
  pose proof (search_condition q re b Hre) as Hfound.
  unfold matches, buildFilter.
  cbn [f_exclusiveShelf f_rating f_dateRead f_or shelf minRating maxRating
       startDate endDate paramsOf].
  rewrite !andb_true_iff.
  rewrite shelf_condition, (rating_condition q b Hlo Hhi), (date_condition q b Hs He).
  rewrite Hfound. tauto.
Qed.

(** *** The answer *)

(** What a list response is made of. *)
Lemma getBooks_inv (db : list Book) (q : Query) (r : PaginatedResponse) :
  getBooks db q = json_ (Paginated r) ->
  acceptable q = true
  /\ exists re sorted skipped,
       searchRegex (paramsOf q) = Some re
       /\ castable (buildFilter (paramsOf q) re) = true
       /\ listing db q re = Some sorted
       /\ Cursor.skip ((requestedPage q - 1) * effectiveLimit q)%Q sorted = Some skipped
       /\ r = {| data := Cursor.limit (effectiveLimit q) skipped;
                 totalPages :=
                   ceilDiv (countDocuments (matches (buildFilter (paramsOf q) re)) db)
                     (effectiveLimit q);
                 currentPage := requestedPage q;
                 totalItems := countDocuments (matches (buildFilter (paramsOf q) re)) db |}.
Proof.
  unfold getBooks. rewrite filterSchema_eq.
  destruct (acceptable q); [| discriminate].
  destruct (searchRegex (paramsOf q)) as [re |]; [| discriminate].
  destruct (castable (buildFilter (paramsOf q) re)) eqn:Hc; [| discriminate].
  unfold listing. cbn [paramsOf page limit sort order orElse].
  rewrite requestedPage_eq, effectiveLimit_eq.
  destruct (sortBy _ _ _) as [sorted |] eqn:Hl; [| discriminate].
  destruct (Cursor.skip _ sorted) as [skipped |] eqn:Hs; [| discriminate].
  intros [= <-]. split; [reflexivity |]. exists re, sorted, skipped.
  split; [reflexivity |]. split; [exact Hc |]. split; [exact Hl |].
  split; [exact Hs | reflexivity].
Qed.

(** The answer to a query that is served, in one formula. *)
Lemma getBooks_served (db : list Book) (q : Query) (re : option (string -> bool))
    (sorted skipped : list Book) :
  acceptable q = true ->
  searchRegex (paramsOf q) = Some re ->
  castable (buildFilter (paramsOf q) re) = true ->
  listing db q re = Some sorted ->
  Cursor.skip ((requestedPage q - 1) * effectiveLimit q)%Q sorted = Some skipped ->
  getBooks db q
  = json_ (Paginated
             {| data := Cursor.limit (effectiveLimit q) skipped;
                totalPages :=
                  ceilDiv (countDocuments (matches (buildFilter (paramsOf q) re)) db)
                    (effectiveLimit q);
                currentPage := requestedPage q;
                totalItems := countDocuments (matches (buildFilter (paramsOf q) re)) db |}).
Proof.
  intros Ha Hre Hc Hl Hs. unfold getBooks. rewrite filterSchema_eq, Ha, Hre, Hc.
  unfold listing in Hl. cbn [paramsOf page limit sort order orElse].
  rewrite requestedPage_eq, effectiveLimit_eq, Hl, Hs. reflexivity.
Qed.

(** A whole number in a rational. *)
Lemma whole_positive (x : Q) (n : Z) : (x == inject_Z n)%Q -> (0 < x)%Q -> 0 < n.
Proof.
  intros Hx H. rewrite Hx in H. change 0%Q with (inject_Z 0) in H.
  now rewrite <- Zlt_Qlt in H.
Qed.

(** C2, as amended.  For every list request that passes validation, whose
    page and limit are whole numbers, whose search string, if not empty,
    compiles, whose date bounds, if not empty, are dates and whose sort key
    the database accepts, the response is an object with the fields data,
    totalPages, currentPage and totalItems: totalItems is the number of
    stored records that match the filter (on the shelf asked for, rated and
    read within the bounds, matched by the search), totalPages is the ceiling
    of totalItems divided by the effective limit, currentPage is the page
    asked for (or the default), and data has at most limit records. *)
Theorem getBooks_response
    (db : list Book) (q : Query) (p : BookFilters) (P L : Z) :
  filterSchema q = Some p ->
  (requestedPage q == inject_Z P)%Q ->
  (effectiveLimit q == inject_Z L)%Q ->
  ~ badPattern q ->
  ~ badDate q ->
  (forall direction docs, sortBy (sortKey q) direction docs <> None) ->
  exists r selected,
    getBooks db q = json_ (Paginated r)
    /\ (forall b, selected b = true
                  <-> onShelfAsked q b /\ ratedWithin q b /\ readWithin q b /\ found q b)
    /\ totalItems r = Z.of_nat (List.length (filter selected db))
    /\ (totalPages r - 1) * L < totalItems r <= totalPages r * L
    /\ currentPage r = requestedPage q
    /\ Z.of_nat (List.length (data r)) <= L.
Proof.
  intros Hp HP HL Hpat Hdate Hsort.
  apply filterSchema_acceptable in Hp as [Ha _].
  destruct (acceptable_positive q Ha) as [Hpage Hlimit].
  pose proof (whole_positive _ _ HP Hpage) as HP0.
  pose proof (whole_positive _ _ HL Hlimit) as HL0.
  destruct (searchRegex (paramsOf q)) as [re |] eqn:Hre;
    [| now apply searchRegex_None in Hre].
  destruct (castable (buildFilter (paramsOf q) re)) eqn:Hc;
    [| now apply castable_badDate in Hc].
  destruct (listing db q re) as [sorted |] eqn:Hl;
    [| unfold listing in Hl; rewrite sortKey_eq in Hl; now apply Hsort in Hl].
  pose proof (skip_whole _ _ sorted (offset_whole _ _ P L HP HL)) as Hskip.
  rewrite (getBooks_served db q re sorted _ Ha Hre Hc Hl (Hskip ltac:(nia))).
  exists {| data := Cursor.limit (effectiveLimit q) (skipn (Z.to_nat ((P - 1) * L)) sorted);
            totalPages :=
              ceilDiv (countDocuments (matches (buildFilter (paramsOf q) re)) db)
                (effectiveLimit q);
            currentPage := requestedPage q;
            totalItems := countDocuments (matches (buildFilter (paramsOf q) re)) db |}.
  exists (matches (buildFilter (paramsOf q) re)).
  split; [reflexivity |]. cbn [data totalPages currentPage totalItems].
  split; [intros b; now apply matches_spec |].
  split; [reflexivity |]. split; [now apply ceilDiv_whole |]. split; [reflexivity |].
  rewrite (limit_whole _ L _ HL HL0).
  pose proof (firstn_le_length (Z.to_nat L) (skipn (Z.to_nat ((P - 1) * L)) sorted)).
  lia.
Qed.

(** The validated parameters of a query with a search string alone. *)
Lemma filterSchema_searchFor (s : string) :
  filterSchema (searchFor s)
  = Some {| page := Some 1%Q; limit := Some 10%Q; sort := Some "dateAdded";
            order := Some "desc"; shelf := None; search := Some s;
            minRating := None; maxRating := None;
            startDate := None; endDate := None |}.
Proof. reflexivity. Qed.

(** C4, as amended.  For every non-empty search string made of letters,
    digits and spaces and every stored record, the record matches the list
    endpoint called with that search string exactly when the string occurs,
    letter case ignored, in the title, the author, the publisher or the
    review of the record: totalItems counts these records, data holds no
    other record, and data holds all of them when they fit on the first
    page.  (The engine is taken to read a plain pattern as the text it
    spells, and to sort by the date added, by permuting.) *)
Theorem getBooks_search
    (db : list Book) (s : string) :
  s <> "" ->
  plain s = true ->
  (forall pattern, plain pattern = true ->
     exists re, RegExp_i pattern = Some re /\ forall t, re t = includes_i pattern t) ->
  (forall direction docs,
     exists sorted, sortBy "dateAdded" direction docs = Some sorted
                    /\ Permutation sorted docs) ->
  exists r,
    getBooks db (searchFor s) = json_ (Paginated r)
    /\ totalItems r = Z.of_nat (List.length (filter (inSearchedFields s) db))
    /\ (forall b, In b (data r) -> In b db /\ inSearchedFields s b = true)
    /\ (totalItems r <= 10 ->
        forall b, In b db -> inSearchedFields s b = true -> In b (data r)).
Proof.
  intros Hs Hplain Hengine Hsort.
  destruct (Hengine s Hplain) as (re & Hre & Htest).
  assert (Hm : forall b,
    matches (buildFilter
               {| page := Some 1%Q; limit := Some 10%Q; sort := Some "dateAdded";
                  order := Some "desc"; shelf := None; search := Some s;
                  minRating := None; maxRating := None;
                  startDate := None; endDate := None |} (Some re)) b
    = inSearchedFields s b).
  { intros b. unfold matches, inSearchedFields, test. cbn. rewrite !Htest.
    destruct (publisher b), (review b); now rewrite ?Htest. }
  unfold getBooks. rewrite filterSchema_searchFor.
  unfold searchRegex. cbn [search truthy].
  destruct (String.eqb_spec s ""); [contradiction |]. cbn [negb].
  rewrite Hre. cbn [option_map].
  change (castable _) with true. cbv iota. cbn [page limit sort order orElse].
  rewrite (filter_ext _ _ Hm).
  destruct (Hsort (if ("desc" =? "asc")%string then 1 else -1)
              (filter (inSearchedFields s) db)) as (sorted & -> & Hperm).
  assert (Hskip : Cursor.skip ((1 - 1) * 10)%Q sorted = Some sorted) by reflexivity.
  assert (Hlimit : Cursor.limit 10%Q sorted = firstn 10 sorted) by reflexivity.
  cbv beta iota zeta. rewrite Hskip. cbv beta iota. rewrite Hlimit.
  eexists. split; [reflexivity |].
  cbn [data totalItems]. unfold countDocuments. rewrite (filter_ext _ _ Hm).
  split; [reflexivity |]. split.
  - intros b Hb. apply In_firstn in Hb.
    apply (Permutation_in _ Hperm) in Hb. now apply filter_In in Hb.
  - intros Hfit b Hb Hin.
    rewrite firstn_all2.
    + apply (Permutation_in _ (Permutation_sym Hperm)).
      apply filter_In. auto.
    + rewrite (Permutation_length Hperm). lia.
Qed.

(** ** The shelf invariant and the statistics *)

Lemma createBook_shelved (db : list Book) (reqBody : json) (now : Z) :
  Forall shelved db -> Forall shelved (fst (createBook db reqBody now)).
Proof.
  intros H. unfold createBook.
  destruct (bookSchema reqBody) as [v |] eqn:Hv; [| exact H].
  destruct (castDate (Data.dateRead v)) as [dr |]; [| exact H].
  destruct (validators v); [| exact H].
  unfold save. destruct (existsb _ db); [exact H |].
  cbn [fst]. apply Forall_app. split; [exact H |].
  constructor; [| constructor]. exact (bookSchema_shelf _ _ Hv).
Qed.

Lemma updateBook_shelved (db : list Book) (id : string) (reqBody : json) (now : Z) :
  Forall shelved db -> Forall shelved (fst (updateBook db id reqBody now)).
Proof.
  intros H. unfold updateBook.
  destruct (JS.parseInt id) as [n |]; [| exact H].
  destruct (bookSchema reqBody) as [v |] eqn:Hv; [| exact H].
  destruct (castDate (Data.dateRead v)) as [dr |]; [| exact H].
  destruct (validators v); [| exact H].
  destruct (findOneAndUpdate _ _ db) as [[db' doc] |] eqn:Hf; [| exact H].
  apply findOneAndUpdate_Some in Hf as (before & old & after & -> & -> & _ & _).
  cbn [fst]. apply Forall_app in H as [Hb Ha]. apply Forall_app. split; [exact Hb |].
  inversion Ha; subst. constructor; [| assumption].
  exact (bookSchema_shelf _ _ Hv).
Qed.

Lemma deleteBook_shelved (db : list Book) (id : string) :
  Forall shelved db -> Forall shelved (fst (deleteBook db id)).
Proof.
  intros H. unfold deleteBook.
  destruct (JS.parseInt id) as [n |]; [| exact H].
  destruct (findOneAndDelete _ db) as [[db' doc] |] eqn:Hf; [| exact H].
  cbn [fst]. rewrite Forall_forall in *. intros b Hb.
  apply H. eapply findOneAndDelete_In; eassumption.
Qed.

Lemma handle_shelved (db : list Book) (r : request) :
  Forall shelved db -> Forall shelved (fst (handle db r)).
Proof.
  intros H. destruct r; cbn [handle fst]; try exact H.
  - now apply createBook_shelved.
  - now apply updateBook_shelved.
  - now apply deleteBook_shelved.
Qed.

Lemma reachable_shelved (db : list Book) : reachable db -> Forall shelved db.
Proof.
  induction 1 as [| db r _ IH]; [constructor | now apply handle_shelved].
Qed.

Lemma countDocuments_cons (cond : Book -> bool) (b : Book) (rest : list Book) :
  countDocuments cond (b :: rest)
  = (if cond b then 1 else 0) + countDocuments cond rest.
Proof.
  unfold countDocuments. cbn [filter]. destruct (cond b); cbn [List.length]; lia.
Qed.

(** Over shelved records the three shelves partition the collection. *)
Lemma shelf_counts (db : list Book) :
  Forall shelved db ->
  countDocuments (onShelf "read") db
  + countDocuments (onShelf "currently-reading") db
  + countDocuments (onShelf "to-read") db
  = countDocuments (fun _ => true) db.
Proof.
  induction 1 as [| b rest Hb _ IH]; [reflexivity |].
  rewrite !countDocuments_cons. unfold onShelf at 1 3 5.
  destruct Hb as [<- | [<- | [<- | []]]]; cbn [String.eqb Ascii.eqb Bool.eqb]; lia.
Qed.

(** C6. In every state of the collection that the public operations reach,
    the primary shelf of each stored record is one of [read],
    [currently-reading] and [to-read], and so the three shelf counts of the
    statistics endpoint add up to its count of all books. *)
Theorem reachable_shelf_counts (db : list Book) :
  reachable db ->
  Forall shelved db
  /\ exists stats,
       getBookStats db = json_ (Statistics stats)
       /\ readBooks stats + readingBooks stats + toReadBooks stats = totalBooks stats.
Proof.
  intros H. apply reachable_shelved in H. split; [exact H |].
  eexists. split; [reflexivity |]. cbn [readBooks readingBooks toReadBooks totalBooks bookStats].
  now apply shelf_counts.
Qed.

(** ** More on the single-record operations *)

(** The document that is found is the first with the identifier. *)
Lemma findOne_split (cond : Book -> bool) (db : list Book) :
  forall doc, findOne cond db = Some doc ->
  exists before after,
    db = before ++ doc :: after /\ cond doc = true
    /\ forall x, In x before -> cond x = false.
Proof.
  unfold findOne. induction db as [| b rest IH]; intros doc H; [discriminate |].
  simpl in H. destruct (cond b) eqn:C.
  - injection H as <-. exists [], rest. repeat split; [assumption | intros x []].
  - destruct (IH doc H) as (before & after & -> & Hc & Hb).
    exists (b :: before), after. repeat split; [assumption |].
    intros x [<- | Hx]; auto.
Qed.

Lemma findOne_skip (cond : Book -> bool) (before rest : list Book) :
  (forall x, In x before -> cond x = false) ->
  findOne cond (before ++ rest) = findOne cond rest.
Proof.
  unfold findOne. induction before as [| b before IH]; intros H; [reflexivity |].
  simpl. rewrite (H b (or_introl eq_refl)). apply IH. intros x Hx. apply H. now right.
Qed.

Lemma findOneAndUpdate_at (cond : Book -> bool) (f : Book -> Book)
    (before after : list Book) (doc : Book) :
  (forall x, In x before -> cond x = false) -> cond doc = true ->
  findOneAndUpdate cond f (before ++ doc :: after)
  = Some (before ++ f doc :: after, f doc).
Proof.
  intros Hb Hc. induction before as [| b before IH]; simpl.
  - now rewrite Hc.
  - rewrite (Hb b (or_introl eq_refl)), IH; [reflexivity |].
    intros x Hx. apply Hb. now right.
Qed.

Lemma findOneAndDelete_at (cond : Book -> bool) (before after : list Book) (doc : Book) :
  (forall x, In x before -> cond x = false) -> cond doc = true ->
  findOneAndDelete cond (before ++ doc :: after) = Some (before ++ after, doc).
Proof.
  intros Hb Hc. induction before as [| b before IH]; simpl.
  - now rewrite Hc.
  - rewrite (Hb b (or_introl eq_refl)), IH; [reflexivity |].
    intros x Hx. apply Hb. now right.
Qed.

Lemma findOneAndDelete_Some (cond : Book -> bool) (db : list Book) :
  forall db' doc, findOneAndDelete cond db = Some (db', doc) ->
  exists before after,
    db = before ++ doc :: after /\ db' = before ++ after /\ cond doc = true
    /\ forall x, In x before -> cond x = false.
Proof.
  induction db as [| b rest IH]; intros db' doc H; [discriminate |].
  simpl in H. destruct (cond b) eqn:C.
  - injection H as <- <-. exists [], rest. repeat split; [assumption | intros x []].
  - destruct (findOneAndDelete cond rest) as [[rest' d] |]; [| discriminate].
    injection H as <- <-.
    destruct (IH rest' d eq_refl) as (before & after & -> & -> & Hc & Hb).
    exists (b :: before), after. repeat split; [assumption |].
    intros x [<- | Hx]; auto.
Qed.

Lemma hasId_true (n : Z) (b : Book) : hasId n b = true <-> bookId b = n.
Proof. unfold hasId. apply Z.eqb_eq. Qed.

Lemma hasId_false (n : Z) (b : Book) : hasId n b = false <-> bookId b <> n.
Proof. unfold hasId. apply Z.eqb_neq. Qed.

Lemma absent_app (n : Z) (xs ys : list Book) :
  absent n xs -> absent n ys -> absent n (xs ++ ys).
Proof.
  intros Hx Hy b Hb. apply in_app_or in Hb as [Hb | Hb]; [now apply Hx | now apply Hy].
Qed.

Lemma absent_not_In (n : Z) (db : list Book) :
  ~ In n (map bookId db) -> absent n db.
Proof. intros H b Hb E. apply H. rewrite <- E. now apply in_map. Qed.

(** The update keeps the identifier of the record it is applied to. *)
Lemma applyUpdate_bookId (v : Data.t) (dr : option Z) (now : Z) (b : Book) :
  bookId (applyUpdate v dr now b) = bookId b.
Proof. reflexivity. Qed.

Lemma findOneAndUpdate_ids (cond : Book -> bool) (f : Book -> Book) (db : list Book) :
  (forall b, bookId (f b) = bookId b) ->
  forall db' doc, findOneAndUpdate cond f db = Some (db', doc) ->
  map bookId db' = map bookId db.
Proof.
  intros Hf db' doc H.
  apply findOneAndUpdate_Some in H as (before & old & after & -> & -> & _ & _).
  rewrite !map_app. cbn [map]. now rewrite Hf.
Qed.

Lemma updateBook_ids (db : list Book) (id : string) (reqBody : json) (now : Z) :
  map bookId (fst (updateBook db id reqBody now)) = map bookId db.
Proof.
  unfold updateBook.
  destruct (JS.parseInt id) as [n |]; [| reflexivity].
  destruct (bookSchema reqBody) as [v |]; [| reflexivity].
  destruct (castDate (Data.dateRead v)) as [dr |]; [| reflexivity].
  destruct (validators v); [| reflexivity].
  destruct (findOneAndUpdate _ _ db) as [[db' doc] |] eqn:Hf; [| reflexivity].
  cbn [fst]. eapply findOneAndUpdate_ids; [| exact Hf].
  intros b. apply applyUpdate_bookId.
Qed.

(** X1. The update endpoint never adds, removes or reorders records and
    never changes an identifier: whatever the request, the identifiers of
    the collection are the same list afterwards. *)
Theorem updateBook_keeps_identifiers
    (db : list Book) (id : string) (reqBody : json) (now : Z) :
  map bookId (fst (updateBook db id reqBody now)) = map bookId db.
Proof. apply updateBook_ids. Qed.

(** The invariant of the identifiers, one request at a time. *)
Lemma createBook_ids (db : list Book) (reqBody : json) (now : Z) :
  identified db -> identified (fst (createBook db reqBody now)).
Proof.
  intros [Hu Hp].
  assert (Hcases : fst (createBook db reqBody now) = db
                   \/ exists doc, createBook db reqBody now
                                  = (db ++ [doc], mkResponse 201 (Document doc))).
  { unfold createBook.
    destruct (bookSchema reqBody) as [v |]; [| now left].
    destruct (castDate (Data.dateRead v)) as [dr |]; [| now left].
    destruct (validators v); [| now left].
    unfold save. destruct (existsb _ db); [now left |].
    right. eexists. reflexivity. }
  destruct Hcases as [-> | (doc & Hc)]; [now split |].
  rewrite Hc. cbn [fst].
  apply createBook_inv in Hc as (_ & Hid & Habs & _).
  split.
  - unfold uniqueIds. rewrite map_app. cbn [map].
    apply NoDup_app; [exact Hu | constructor; [intros [] | constructor] |].
    intros n Hn [<- | []].
    apply in_map_iff in Hn as (b & Hb & Hin). now apply (Habs b Hin).
  - intros b Hb. apply in_app_or in Hb as [Hb | [<- | []]]; [now apply Hp |].
    rewrite Hid. destruct (maxIdBook db) as [m |] eqn:E; [| cbn; lia].
    apply maxIdBook_Some in E as [Hm _]. pose proof (Hp m Hm) as Hbound.
    destruct (Z.eq_dec (bookId m) (2 ^ 53)) as [Etop | Hlow].
    + exfalso. apply (Habs m Hm). rewrite Hid, Etop. reflexivity.
    + rewrite plus_exact by lia. lia.
Qed.

Lemma deleteBook_ids (db : list Book) (id : string) :
  identified db -> identified (fst (deleteBook db id)).
Proof.
  intros [Hu Hp]. unfold deleteBook.
  destruct (JS.parseInt id) as [n |]; [| now split].
  destruct (findOneAndDelete _ db) as [[db' doc] |] eqn:Hf; [| now split].
  cbn [fst]. split.
  - apply findOneAndDelete_Some in Hf as (before & after & -> & -> & _ & _).
    unfold uniqueIds in *. rewrite map_app in *. cbn [map] in Hu.
    now apply NoDup_remove_1 in Hu.
  - intros b Hb. apply Hp. eapply findOneAndDelete_In; eassumption.
Qed.

Lemma updateBook_In_ids (db : list Book) (id : string) (reqBody : json) (now : Z) :
  forall b, In b (fst (updateBook db id reqBody now)) ->
  In (bookId b) (map bookId db).
Proof.
  intros b Hb. rewrite <- (updateBook_ids db id reqBody now).
  now apply in_map.
Qed.

Lemma handle_ids (db : list Book) (r : request) :
  identified db -> identified (fst (handle db r)).
Proof.
  intros Hi. destruct r; cbn [handle fst]; try exact Hi.
  - now apply createBook_ids.
  - destruct Hi as [Hu Hp]. split.
    + unfold uniqueIds. now rewrite updateBook_ids.
    + intros b Hb. apply updateBook_In_ids in Hb.
      apply in_map_iff in Hb as (x & <- & Hx). now apply Hp.
  - now apply deleteBook_ids.
Qed.

Lemma reachable_identified (db : list Book) : reachable db -> identified db.
Proof.
  induction 1 as [| db r _ IH].
  - split; [constructor | intros b []].
  - now apply handle_ids.
Qed.

(** X2. In every state of the collection that the public operations reach,
    no two records have the same identifier and every identifier is at
    least 1. *)
Theorem reachable_unique_identifiers (db : list Book) :
  reachable db ->
  uniqueIds db /\ forall b, In b db -> 1 <= bookId b.
Proof.
  intros H. apply reachable_identified in H as [Hu Hp].
  split; [exact Hu |]. intros b Hb. now apply Hp.
Qed.

(** What validated data is known to satisfy. *)
Lemma bookSchema_bounds (reqBody : json) (v : Data.t) :
  bookSchema reqBody = Some v ->
  Data.title v <> "" /\ Data.author v <> ""
  /\ (0 <= Data.rating v)%Q /\ (Data.rating v <= 5)%Q /\ (1 <= Data.pages v)%Q.
Proof.
  intros H. apply bookSchema_fields in H as (o & _ & Ht & Ha & _ & _ & _ & _ & Hr
    & _ & _ & _ & Hp & _).
  apply refine_Some in Ht as [_ Ht]. apply refine_Some in Ha as [_ Ha].
  apply default_Some in Hr as [x Hr].
  apply refine_Some in Hr as [Hr Hr5]. apply refine_Some in Hr as [_ Hr0].
  apply refine_Some in Hp as [_ Hp].
  apply Qle_bool_iff in Hr0, Hr5, Hp.
  repeat split; try assumption.
  - destruct (Data.title v); [discriminate | discriminate].
  - destruct (Data.author v); [discriminate | discriminate].
Qed.

Lemma createBook_wellFormed (db : list Book) (reqBody : json) (now : Z) :
  Forall wellFormed db -> Forall wellFormed (fst (createBook db reqBody now)).
Proof.
  intros H. unfold createBook.
  destruct (bookSchema reqBody) as [v |] eqn:Hv; [| exact H].
  destruct (castDate (Data.dateRead v)) as [dr |]; [| exact H].
  destruct (validators v); [| exact H].
  unfold save. destruct (existsb _ db); [exact H |].
  cbn [fst]. apply Forall_app. split; [exact H |].
  constructor; [| constructor]. exact (bookSchema_bounds _ _ Hv).
Qed.

Lemma updateBook_wellFormed (db : list Book) (id : string) (reqBody : json) (now : Z) :
  Forall wellFormed db -> Forall wellFormed (fst (updateBook db id reqBody now)).
Proof.
  intros H. unfold updateBook.
  destruct (JS.parseInt id) as [n |]; [| exact H].
  destruct (bookSchema reqBody) as [v |] eqn:Hv; [| exact H].
  destruct (castDate (Data.dateRead v)) as [dr |]; [| exact H].
  destruct (validators v); [| exact H].
  destruct (findOneAndUpdate _ _ db) as [[db' doc] |] eqn:Hf; [| exact H].
  apply findOneAndUpdate_Some in Hf as (before & old & after & -> & -> & _ & _).
  cbn [fst]. apply Forall_app in H as [Hb Ha]. apply Forall_app. split; [exact Hb |].
  inversion Ha; subst. constructor; [| assumption].
  exact (bookSchema_bounds _ _ Hv).
Qed.

Lemma deleteBook_wellFormed (db : list Book) (id : string) :
  Forall wellFormed db -> Forall wellFormed (fst (deleteBook db id)).
Proof.
  intros H. unfold deleteBook.
  destruct (JS.parseInt id) as [n |]; [| exact H].
  destruct (findOneAndDelete _ db) as [[db' doc] |] eqn:Hf; [| exact H].
  cbn [fst]. rewrite Forall_forall in *. intros b Hb.
  apply H. eapply findOneAndDelete_In; eassumption.
Qed.

Lemma reachable_wellFormed (db : list Book) :
  reachable db -> Forall wellFormed db.
Proof.
  induction 1 as [| db r _ IH]; [constructor |].
  destruct r; cbn [handle fst]; try exact IH.
  - now apply createBook_wellFormed.
  - now apply updateBook_wellFormed.
  - now apply deleteBook_wellFormed.
Qed.

(** X3. In every state of the collection that the public operations reach,
    each stored record has a non-empty title and author, a rating between 0
    and 5 and at least one page. *)
Theorem reachable_well_formed (db : list Book) :
  reachable db -> Forall wellFormed db.
Proof. apply reachable_wellFormed. Qed.

(** X4. When the identifiers of the collection are distinct, deleting a
    stored record answers 200, removes that record and no other, and a fetch
    or a second delete by the same identifier then answers 404. *)
Theorem delete_then_getBookById
    (db : list Book) (id : string) (n : Z) (doc : Book) :
  uniqueIds db ->
  JS.parseInt id = Some n ->
  findOne (hasId n) db = Some doc ->
  exists before after,
    db = before ++ doc :: after
    /\ deleteBook db id = (before ++ after, json_ (Message "Book removed"))
    /\ getBookById (before ++ after) id = notFound
    /\ deleteBook (before ++ after) id = (before ++ after, notFound).
Proof.
  intros Hu Hn Hf.
  destruct (findOne_split _ _ _ Hf) as (before & after & -> & Hc & Hb).
  exists before, after. split; [reflexivity |].
  assert (Ha : absent n (before ++ after)).
  { apply absent_app.
    - intros b Hin. apply hasId_false. now apply Hb.
    - apply hasId_true in Hc. unfold uniqueIds in Hu.
      rewrite map_app in Hu. cbn [map] in Hu. apply NoDup_remove_2 in Hu.
      intros b Hin E. apply Hu. apply in_or_app. right.
      rewrite Hc, <- E. now apply in_map. }
  split; [| split].
  - unfold deleteBook. now rewrite Hn, (findOneAndDelete_at _ _ _ _ Hb Hc).
  - unfold getBookById. now rewrite Hn, (absent_find _ _ Ha).
  - unfold deleteBook. now rewrite Hn, (absent_findOneAndDelete _ _ Ha).
Qed.

(** X5. Creating a record and then deleting it by its identifier gives back
    the collection as it was before the create, for a body that passes
    validation (the schema accepts it and its read date, if it gives one, is
    a date) and a collection whose greatest identifier is a safe integer. *)
Theorem create_then_delete
    (db : list Book) (reqBody : json) (now : Z) (v : Data.t) :
  bookSchema reqBody = Some v ->
  Data.dateRead v <> Some InvalidDate ->
  safeMaximum db ->
  exists db' doc,
    createBook db reqBody now = (db', mkResponse 201 (Document doc))
    /\ deleteBook db' (JS.toString (bookId doc))
       = (db, json_ (Message "Book removed")).
Proof.
  intros Hv Hd Hs.
  destruct (createBook_created db reqBody now v Hv Hd Hs) as (dr & _ & Hc).
  cbv zeta in Hc. do 2 eexists. split; [exact Hc |].
  unfold deleteBook.
  rewrite parseInt_toString by (cbn [bookId newDocument]; now apply newBookId_bound).
  rewrite findOneAndDelete_at.
  - now rewrite app_nil_r.
  - intros x Hx. apply hasId_false. cbn [bookId newDocument].
    now apply newBookId_absent.
  - now apply hasId_true.
Qed.

Lemma orKeep_idem {A} (new old : option A) :
  orKeep new (orKeep new old) = orKeep new old.
Proof. now destruct new. Qed.

Lemma orElse_idem {A} (new : option A) (old : A) :
  orElse new (orElse new old) = orElse new old.
Proof. now destruct new. Qed.

Lemma applyUpdate_idem (v : Data.t) (dr : option Z) (now : Z) (b : Book) :
  applyUpdate v dr now (applyUpdate v dr now b) = applyUpdate v dr now b.
Proof.
  unfold applyUpdate. cbn. now rewrite !orKeep_idem, !orElse_idem.
Qed.

(** X6. After a successful update, a fetch by the same identifier returns
    the updated record, and sending the same update again (at the same time)
    changes nothing more. *)
Theorem update_then_getBookById
    (db : list Book) (id : string) (n : Z) (reqBody : json) (now : Z)
    (v : Data.t) (old : Book) :
  JS.parseInt id = Some n ->
  bookSchema reqBody = Some v ->
  Data.dateRead v <> Some InvalidDate ->
  findOne (hasId n) db = Some old ->
  exists db' doc,
    updateBook db id reqBody now = (db', json_ (Document doc))
    /\ getBookById db' id = json_ (Document doc)
    /\ updateBook db' id reqBody now = (db', json_ (Document doc)).
Proof.
  intros Hn Hv Hd Hold.
  destruct (updateBook_valid db id n reqBody now v Hn Hv Hd) as (dr & Hdr & Hu).
  destruct (findOne_split _ _ _ Hold) as (before & after & -> & Hc & Hb).
  rewrite (findOneAndUpdate_at _ _ _ _ _ Hb Hc) in Hu.
  assert (Hc' : hasId n (applyUpdate v dr now old) = true) by exact Hc.
  do 2 eexists. split; [exact Hu |]. split.
  - unfold getBookById. rewrite Hn, (findOne_skip _ _ _ Hb).
    unfold findOne. cbn [find]. now rewrite Hc'.
  - destruct (updateBook_valid (before ++ applyUpdate v dr now old :: after)
                id n reqBody now v Hn Hv Hd) as (dr' & Hdr' & ->).
    assert (dr' = dr) by congruence. subst dr'.
    now rewrite (findOneAndUpdate_at _ _ _ _ _ Hb Hc'), applyUpdate_idem.
Qed.

(** ** More on the list endpoint *)

(** X7. The list endpoint answers 400 exactly when a parameter fails the
    schema: page or limit not a positive number, order neither [asc] nor
    [desc], a rating bound not a number between 0 and 5, or a textual
    parameter (sort, order, shelf, search, a date bound) that is not a
    string because its key is repeated or written with brackets.  A query
    that passes is answered 500 when its search string does not compile or
    a date bound is not a date, and 200 when neither is the case, its page
    and limit are whole numbers and the database accepts its sort key.  No
    other status is answered. *)
Theorem getBooks_status (db : list Book) (q : Query) :
  (status (getBooks db q) = 400 <-> acceptable q = false)
  /\ (acceptable q = true -> badPattern q \/ badDate q ->
      status (getBooks db q) = 500)
  /\ (forall P L,
        acceptable q = true -> ~ badPattern q -> ~ badDate q ->
        (requestedPage q == inject_Z P)%Q -> (effectiveLimit q == inject_Z L)%Q ->
        (forall direction docs, sortBy (sortKey q) direction docs <> None) ->
        status (getBooks db q) = 200)
  /\ (status (getBooks db q) = 200 \/ status (getBooks db q) = 400
      \/ status (getBooks db q) = 500).
Proof.
  split; [| split; [| split]].
  - unfold getBooks. rewrite filterSchema_eq.
    destruct (acceptable q); [| now split].
    destruct (searchRegex (paramsOf q)) as [re |]; [| split; discriminate].
    destruct (castable (buildFilter (paramsOf q) re)); [| split; discriminate].
    destruct (_ <- sortBy _ _ _ ;; _); split; discriminate.
  - intros Ha Hbad. unfold getBooks. rewrite filterSchema_eq, Ha.
    destruct (searchRegex (paramsOf q)) as [re |] eqn:Hre; [| reflexivity].
    destruct Hbad as [Hbad | Hbad];
      [apply searchRegex_None in Hbad; congruence |].
    apply (castable_badDate q re) in Hbad. now rewrite Hbad.
  - intros P L Ha Hpat Hdate HP HL Hsort.
    destruct (filterSchema q) as [p |] eqn:Hp;
      [| rewrite filterSchema_eq, Ha in Hp; discriminate].
    destruct (acceptable_positive q Ha) as [Hpage Hlimit].
    pose proof (whole_positive _ _ HP Hpage) as HP0.
    pose proof (whole_positive _ _ HL Hlimit) as HL0.
    destruct (searchRegex (paramsOf q)) as [re |] eqn:Hre;
      [| now apply searchRegex_None in Hre].
    destruct (castable (buildFilter (paramsOf q) re)) eqn:Hc;
      [| now apply castable_badDate in Hc].
    destruct (listing db q re) as [sorted |] eqn:Hl;
      [| unfold listing in Hl; rewrite sortKey_eq in Hl; now apply Hsort in Hl].
    pose proof (skip_whole _ _ sorted (offset_whole _ _ P L HP HL)) as Hskip.
    now rewrite (getBooks_served db q re sorted _ Ha Hre Hc Hl (Hskip ltac:(nia))).
  - unfold getBooks. destruct (filterSchema q) as [p |]; [| auto].
    destruct (searchRegex p) as [re |]; [| auto].
    destruct (castable (buildFilter p re)); [| auto].
    destruct (_ <- sortBy _ _ _ ;; _); auto.
Qed.

(** X8. The filters of the list endpoint combine: the records in data are
    stored records that are on the shelf asked for, have a rating and a read
    date within the bounds asked for, both bounds included, and match the
    search; totalItems counts the stored records that meet all of this.  An
    absent or empty parameter asks nothing. *)
Theorem getBooks_filters (db : list Book) (q : Query) (r : PaginatedResponse) :
  (forall field direction docs sorted,
     sortBy field direction docs = Some sorted -> Permutation sorted docs) ->
  getBooks db q = json_ (Paginated r) ->
  exists selected,
    (forall b, selected b = true
               <-> onShelfAsked q b /\ ratedWithin q b /\ readWithin q b /\ found q b)
    /\ totalItems r = Z.of_nat (List.length (filter selected db))
    /\ forall b, In b (data r) -> In b db /\ selected b = true.
Proof.
  intros Hsort H.
  apply getBooks_inv in H
    as (Ha & re & sorted & skipped & Hre & Hc & Hl & Hs & ->).
  exists (matches (buildFilter (paramsOf q) re)).
  cbn [totalItems data]. split; [| split; [reflexivity |]].
  - intros b. now apply matches_spec.
  - intros b Hb. apply limit_In in Hb. apply (skip_In _ _ _ _ Hs) in Hb.
    unfold listing in Hl. apply Hsort in Hl.
    apply (Permutation_in _ Hl) in Hb. now apply filter_In in Hb.
Qed.

Lemma listing_length (db : list Book) (q : Query) (re : option (string -> bool))
    (sorted : list Book) :
  (forall field direction docs sorted,
     sortBy field direction docs = Some sorted -> Permutation sorted docs) ->
  listing db q re = Some sorted ->
  Z.of_nat (List.length sorted)
  = countDocuments (matches (buildFilter (paramsOf q) re)) db.
Proof.
  intros Hsort Hl. unfold listing in Hl. apply Hsort in Hl.
  unfold countDocuments. now rewrite (Permutation_length Hl).
Qed.

(** X9. For a page and a limit that are whole numbers, the page that is
    returned holds as many records as are left from its offset on, and at
    most limit of them: every page before the last is full, and a page after
    the last is empty. *)
Theorem getBooks_page_size
    (db : list Book) (q : Query) (r : PaginatedResponse) (P L : Z) :
  (forall field direction docs sorted,
     sortBy field direction docs = Some sorted -> Permutation sorted docs) ->
  (requestedPage q == inject_Z P)%Q ->
  (effectiveLimit q == inject_Z L)%Q ->
  getBooks db q = json_ (Paginated r) ->
  Z.of_nat (List.length (data r)) = Z.min L (Z.max 0 (totalItems r - (P - 1) * L))
  /\ (P < totalPages r -> Z.of_nat (List.length (data r)) = L)
  /\ (totalPages r < P -> data r = []).
Proof.
  intros Hsort HP HL H.
  apply getBooks_inv in H
    as (Ha & re & sorted & skipped & Hre & Hc & Hl & Hs & ->).
  cbn [data totalPages currentPage totalItems].
  destruct (acceptable_positive q Ha) as [Hpage Hlimit].
  pose proof (whole_positive _ _ HP Hpage) as HP0.
  pose proof (whole_positive _ _ HL Hlimit) as HL0.
  pose proof (listing_length db q re sorted Hsort Hl) as Hlen.
  set (total := countDocuments _ db) in *.
  pose proof (ceilDiv_whole total (effectiveLimit q) L HL HL0) as Hceil.
  rewrite (skip_whole _ _ sorted (offset_whole _ _ P L HP HL)) in Hs by nia.
  injection Hs as <-. rewrite (limit_whole _ L _ HL HL0).
  assert (Hsize : Z.of_nat (List.length
             (firstn (Z.to_nat L) (skipn (Z.to_nat ((P - 1) * L)) sorted)))
           = Z.min L (Z.max 0 (total - (P - 1) * L))).
  { rewrite length_firstn, length_skipn. nia. }
  split; [exact Hsize |]. split.
  - intros Hlt. rewrite Hsize. nia.
  - intros Hgt. apply length_zero_iff_nil. apply Nat2Z.inj. rewrite Hsize. nia.
Qed.

(** ** More on the validation of a body *)

Ltac parse_fails :=
  repeat (try reflexivity;
          match goal with
          | |- match ?e with Some _ => _ | None => None end = None =>
              destruct e; [| reflexivity]
          end).

Lemma bookSchema_required (o : list (string * json)) :
  get "title" o = None \/ get "author" o = None \/ get "pages" o = None ->
  bookSchema (JObj o) = None.
Proof.
  assert (Hs : z.minLength 1 z.string_ None = None) by reflexivity.
  assert (Hn : z.min 1 z.number None = None) by reflexivity.
  unfold bookSchema. intros [H | [H | H]]; rewrite H, ?Hs, ?Hn; parse_fails.
Qed.

Lemma bookSchema_object (reqBody : json) (v : Data.t) :
  bookSchema reqBody = Some v -> exists o, reqBody = JObj o.
Proof. destruct reqBody; try discriminate. eauto. Qed.

(** X11. A body that is not an object, or that lacks the key title, author
    or pages, is answered 400 [Invalid book data] by the create endpoint and,
    for an identifier that parses, by the update endpoint, whether the record
    exists or not; the collection stays as it is.  So an update cannot send
    the changed fields alone. *)
Theorem incomplete_body_400 (db : list Book) (reqBody : json) (now : Z) :
  (forall o, reqBody = JObj o ->
     get "title" o = None \/ get "author" o = None \/ get "pages" o = None) ->
  createBook db reqBody now = (db, invalidData)
  /\ forall id n, JS.parseInt id = Some n ->
                  updateBook db id reqBody now = (db, invalidData).
Proof.
  intros H.
  assert (Hnone : bookSchema reqBody = None).
  { destruct reqBody as [| | | | | o]; try reflexivity.
    apply bookSchema_required. now apply H. }
  split.
  - unfold createBook. now rewrite Hnone.
  - intros id n Hn. unfold updateBook. now rewrite Hn, Hnone.
Qed.

Lemma createBook_document (db db' : list Book) (reqBody : json) (now : Z) (doc : Book) :
  createBook db reqBody now = (db', mkResponse 201 (Document doc)) ->
  exists v dr,
    bookSchema reqBody = Some v /\ castDate (Data.dateRead v) = Some dr
    /\ doc = newDocument v dr
               (match maxIdBook db with Some m => JS.plus (bookId m) 1 | None => 1 end)
               now.
Proof.
  unfold createBook. destruct (bookSchema reqBody) as [v |]; [| discriminate].
  destruct (castDate (Data.dateRead v)) as [dr |] eqn:Hd; [| discriminate].
  destruct (validators v); [| discriminate].
  unfold save. destruct (existsb _ db); [discriminate |].
  intros [= _ <-]. exists v, dr. auto.
Qed.

(** X12. The record that the create endpoint makes carries the title, the
    author and the number of pages of the body, and the time of the request
    as dateAdded; for each of the keys rating, beqValue, bookshelves,
    exclusiveShelf, readCount and ownedCopies that the body omits it carries
    the default (0, 0, no tag, [to-read], 0, 0), and it has no read date and
    empty lists of authors and positions when the body gives none. *)
Theorem createBook_record
    (db db' : list Book) (o : list (string * json)) (now : Z) (doc : Book) :
  createBook db (JObj o) now = (db', mkResponse 201 (Document doc)) ->
  (get "title" o = Some (JStr (title doc)) /\ title doc <> ""
   /\ get "author" o = Some (JStr (author doc)) /\ author doc <> ""
   /\ get "pages" o = Some (JNum (pages doc)) /\ (1 <= pages doc)%Q)
  /\ (dateAdded doc = now /\ createdAt doc = now /\ updatedAt doc = now)
  /\ ((get "rating" o = None -> rating doc = 0%Q)
      /\ (get "beqValue" o = None -> beqValue doc = 0%Q)
      /\ (get "bookshelves" o = None -> bookshelves doc = [])
      /\ (get "exclusiveShelf" o = None -> exclusiveShelf doc = "to-read")
      /\ (get "readCount" o = None -> readCount doc = 0%Q)
      /\ (get "ownedCopies" o = None -> ownedCopies doc = 0%Q))
  /\ ((get "dateRead" o = None -> dateRead doc = None)
      /\ (get "additionalAuthors" o = None -> additionalAuthors doc = [])
      /\ (get "bookshelvesWithPositions" o = None -> bookshelvesWithPositions doc = [])).
Proof.
  intros H. apply createBook_document in H as (v & dr & Hv & Hdr & ->).
  apply bookSchema_fields in Hv
    as (o' & [= <-] & Ht & Ha & H1 & H2 & H3 & H4 & Hr & H5 & H6 & H7 & Hp & Hb
        & H8 & H9 & H10 & Hbs & H11 & Hs & H12 & H13 & H14 & Hrc & Hoc).
  cbn [newDocument title author pages dateAdded createdAt updatedAt rating
       beqValue bookshelves exclusiveShelf readCount ownedCopies dateRead
       additionalAuthors bookshelvesWithPositions].
  apply string_required in Ht as [Ht Htne]. apply string_required in Ha as [Ha Hane].
  apply refine_Some in Hp as [Hp Hp1]. apply Qle_bool_iff in Hp1.
  unfold z.number in Hp.
  destruct (get "pages" o) as [[| | x | | |] |]; try discriminate.
  assert (Hx : x = Data.pages v) by congruence. subst x.
  split; [| split; [auto | split]].
  - repeat split; assumption.
  - repeat split; intros E;
      (eapply default_reset; [eassumption | reflexivity | exact E]).
  - split; [| split]; intros E.
    + rewrite E in H10. cbn in H10. injection H10 as H10.
      rewrite <- H10 in Hdr. cbn in Hdr. now injection Hdr as <-.
    + rewrite E in H2. apply optional_absent in H2. now rewrite H2.
    + rewrite E in H11. apply optional_absent in H11. now rewrite H11.
Qed.

(** ** More on the identifier of a new record *)

(** X24. The create endpoint does not read an identifier from the body: two
    bodies that differ in the key [bookId] only get the same answer and leave
    the same collection. *)
Theorem createBook_same_answer_without_bookId
    (db : list Book) (o o' : list (string * json)) (now : Z) :
  (forall k, k <> "bookId" -> get k o = get k o') ->
  createBook db (JObj o) now = createBook db (JObj o') now.
Proof. apply createBook_without_bookId. Qed.

Lemma maximumId_maxIdBook (db : list Book) (n : Z) :
  maximumId db n -> exists m, maxIdBook db = Some m /\ bookId m = n /\ In m db.
Proof.
  intros Hn. destruct (maxIdBook db) as [m |] eqn:E.
  - exists m. split; [reflexivity |]. split.
    + apply (maximumId_unique db); [now apply maxIdBook_maximumId | exact Hn].
    + now apply maxIdBook_Some in E.
  - apply maxIdBook_None in E. subst db. destruct Hn as [(b & [] & _) _].
Qed.

(** X25. When the greatest identifier of the collection is 2^53, the create
    endpoint makes no record: the sum of that identifier and 1 is rounded to
    2^53 again, which is taken, so a body that the schema accepts is answered
    500, and whatever the body the collection stays as it is. *)
Theorem createBook_at_greatest_exact_identifier
    (db : list Book) (reqBody : json) (now : Z) :
  maximumId db (2 ^ 53) ->
  fst (createBook db reqBody now) = db
  /\ forall v, bookSchema reqBody = Some v ->
               snd (createBook db reqBody now) = serverError.
Proof.
  intros Hmax. apply maximumId_maxIdBook in Hmax as (m & Hm & Hid & Hin).
  assert (Htaken : existsb (hasId (2 ^ 53)) db = true).
  { apply existsb_exists. exists m. split; [exact Hin |].
    unfold hasId. now apply Z.eqb_eq. }
  unfold createBook. rewrite Hm, Hid.
  change (JS.plus (2 ^ 53) 1) with (2 ^ 53).
  destruct (bookSchema reqBody) as [v |]; [| split; [reflexivity | discriminate]].
  destruct (castDate (Data.dateRead v)) as [dr |]; [| now split].
  destruct (validators v); [| now split].
  unfold save. cbn [bookId newDocument]. rewrite Htaken. now split.
Qed.

(** ** More on the statistics *)

Lemma sumOf_bounds (f : Book -> Q) (lo hi : Q) (docs : list Book) :
  Forall (fun b => (lo <= f b)%Q /\ (f b <= hi)%Q) docs ->
  (lo * inject_Z (Z.of_nat (List.length docs)) <= sumOf f docs)%Q
  /\ (sumOf f docs <= hi * inject_Z (Z.of_nat (List.length docs)))%Q.
Proof.
  induction 1 as [| b rest [Hlo Hhi] _ [IHlo IHhi]]; cbn [sumOf fold_right List.length].
  - change (inject_Z (Z.of_nat 0)) with 0%Q. split; lra.
  - fold (sumOf f rest). rewrite Nat2Z.inj_succ, <- Z.add_1_r, inject_Z_plus.
    change (inject_Z 1) with 1%Q. split; nra.
Qed.

Lemma rated_positive (b : Book) : rated b = true -> (0 < rating b)%Q.
Proof.
  unfold rated. intros H. apply negb_true_iff in H.
  apply Qnot_le_lt. intros Hle. apply Qle_bool_iff in Hle. congruence.
Qed.

Lemma countDocuments_le (cond : Book -> bool) (db : list Book) :
  0 <= countDocuments cond db <= countDocuments (fun _ => true) db.
Proof.
  induction db as [| b rest IH]; [cbn; lia |].
  rewrite !countDocuments_cons. destruct (cond b); lia.
Qed.

(** X13. In every state of the collection that the public operations reach,
    the average rating of the statistics is between 0 and 5, the pages read
    are at least as many as the books read, and no shelf count exceeds the
    total. *)
Theorem reachable_stats_bounds (db : list Book) :
  reachable db ->
  (0 <= statsAverageRating (bookStats db))%Q
  /\ (statsAverageRating (bookStats db) <= 5)%Q
  /\ (inject_Z (readBooks (bookStats db)) <= totalPagesRead (bookStats db))%Q
  /\ 0 <= readBooks (bookStats db) <= totalBooks (bookStats db)
  /\ 0 <= readingBooks (bookStats db) <= totalBooks (bookStats db)
  /\ 0 <= toReadBooks (bookStats db) <= totalBooks (bookStats db).
Proof.
  intros H. apply reachable_wellFormed in H. rewrite Forall_forall in H.
  cbn [bookStats statsAverageRating totalPagesRead readBooks readingBooks
       toReadBooks totalBooks].
  assert (Havg : (0 <= match filter rated db with
                       | [] => 0
                       | _ => sumOf rating (filter rated db)
                              / inject_Z (Z.of_nat (List.length (filter rated db)))
                       end <= 5)%Q).
  { destruct (filter rated db) as [| b rest] eqn:E; [split; lra |]. rewrite <- E.
    assert (Hn : (0 < inject_Z (Z.of_nat (List.length (filter rated db))))%Q).
    { rewrite E. cbn [List.length]. rewrite Nat2Z.inj_succ, <- Z.add_1_r.
      change 0%Q with (inject_Z 0). rewrite <- Zlt_Qlt. lia. }
    assert (Hb : Forall (fun b => (0 <= rating b)%Q /\ (rating b <= 5)%Q) (filter rated db)).
    { apply Forall_forall. intros x Hx. apply filter_In in Hx as [Hx _].
      destruct (H x Hx) as (_ & _ & H0 & H5 & _). auto. }
    apply sumOf_bounds in Hb as [Hlo Hhi]. split.
    - apply Qle_shift_div_l; [exact Hn | lra].
    - apply Qle_shift_div_r; [exact Hn | lra]. }
  assert (Hpages : (inject_Z (countDocuments (onShelf "read") db)
                    <= match filter (onShelf "read") db with
                       | [] => 0
                       | _ => sumOf pages (filter (onShelf "read") db)
                       end)%Q).
  { unfold countDocuments.
    destruct (filter (onShelf "read") db) as [| b rest] eqn:E; [apply Qle_refl |].
    rewrite <- E.
    assert (Hb : Forall (fun b => (1 <= pages b)%Q /\ (pages b <= pages b)%Q)
                   (filter (onShelf "read") db)).
    { apply Forall_forall. intros x Hx. apply filter_In in Hx as [Hx _].
      destruct (H x Hx) as (_ & _ & _ & _ & H1). split; [exact H1 | lra]. }
    clear E. induction Hb as [| x l [Hx _] _ IH]; [apply Qle_refl |].
    cbn [List.length sumOf fold_right]. fold (sumOf pages l).
    rewrite Nat2Z.inj_succ, <- Z.add_1_r, inject_Z_plus.
    change (inject_Z 1) with 1%Q. lra. }
  destruct Havg as [Ha0 Ha5].
  repeat split; try assumption; apply countDocuments_le.
Qed.

(** *** The authors with the most books *)

Lemma countOf_countAuthor (a a' : string) (groups : list (string * Z)) :
  countOf a' (countAuthor a groups)
  = countOf a' groups + (if (a =? a')%string then 1 else 0).
Proof.
  unfold countOf. induction groups as [| [k n] rest IH]; cbn [countAuthor find fst snd].
  - destruct (a =? a')%string; cbn; lia.
  - destruct (String.eqb_spec a k) as [-> | Hne]; cbn [find fst snd].
    + destruct (k =? a')%string; cbn; lia.
    + destruct (String.eqb_spec k a') as [-> | Hne']; [| exact IH].
      destruct (String.eqb_spec a a'); [contradiction | lia].
Qed.

Lemma countAuthor_keys (a k : string) (groups : list (string * Z)) :
  In k (map fst (countAuthor a groups)) <-> k = a \/ In k (map fst groups).
Proof.
  induction groups as [| [k' n] rest IH]; cbn [countAuthor map fst In].
  - intuition.
  - destruct (String.eqb_spec a k') as [-> | Hne]; cbn [map fst In].
    + intuition.
    + rewrite IH. intuition.
Qed.

Lemma countAuthor_NoDup (a : string) (groups : list (string * Z)) :
  NoDup (map fst groups) -> NoDup (map fst (countAuthor a groups)).
Proof.
  induction groups as [| [k n] rest IH]; cbn [countAuthor map fst]; intros H.
  - constructor; [intros [] | constructor].
  - inversion H as [| ? ? Hk Hrest]; subst.
    destruct (String.eqb_spec a k) as [-> | Hne]; cbn [map fst].
    + now constructor.
    + constructor; [| now apply IH].
      rewrite countAuthor_keys. intros [-> | Hin]; [contradiction | contradiction].
Qed.

Lemma countAuthor_positive (a : string) (groups : list (string * Z)) :
  Forall (fun g => 1 <= snd g) groups ->
  Forall (fun g => 1 <= snd g) (countAuthor a groups).
Proof.
  induction 1 as [| [k n] rest Hn Hrest IH]; cbn [countAuthor].
  - constructor; [cbn; lia | constructor].
  - destruct (a =? k)%string; constructor; cbn in *; try lia; assumption.
Qed.

Lemma booksBy_app (a : string) (xs ys : list Book) :
  booksBy a (xs ++ ys) = booksBy a xs + booksBy a ys.
Proof.
  unfold booksBy, countDocuments. rewrite filter_app, length_app. lia.
Qed.

(** What the grouping holds after the records of [db]. *)
Lemma groupByAuthor_from (db : list Book) :
  forall groups,
  NoDup (map fst groups) -> Forall (fun g => 1 <= snd g) groups ->
  let groups' := fold_left (fun gs b => countAuthor (author b) gs) db groups in
  NoDup (map fst groups')
  /\ Forall (fun g => 1 <= snd g) groups'
  /\ forall a, countOf a groups' = countOf a groups + booksBy a db.
Proof.
  induction db as [| b rest IH]; intros groups Hnd Hpos; cbn [fold_left].
  - repeat split; try assumption. intros a. unfold booksBy, countDocuments. cbn. lia.
  - destruct (IH (countAuthor (author b) groups)
                (countAuthor_NoDup _ _ Hnd) (countAuthor_positive _ _ Hpos))
      as (H1 & H2 & H3).
    repeat split; try assumption. intros a. rewrite H3, countOf_countAuthor.
    change (b :: rest) with ([b] ++ rest). rewrite booksBy_app.
    unfold booksBy at 2, countDocuments. cbn [filter].
    destruct (author b =? a)%string; cbn [List.length]; lia.
Qed.

Lemma countOf_In (a : string) (n : Z) (groups : list (string * Z)) :
  NoDup (map fst groups) -> In (a, n) groups -> countOf a groups = n.
Proof.
  unfold countOf. induction groups as [| [k m] rest IH]; intros Hnd Hin; [destruct Hin |].
  inversion Hnd as [| ? ? Hk Hrest]; subst. cbn [find fst snd].
  destruct Hin as [[= -> ->] | Hin].
  - now rewrite String.eqb_refl.
  - destruct (String.eqb_spec k a) as [-> | Hne]; [| now apply IH].
    exfalso. apply Hk. change a with (fst (a, n)). now apply in_map.
Qed.

Lemma countOf_positive_In (a : string) (groups : list (string * Z)) :
  countOf a groups <> 0 -> In (a, countOf a groups) groups.
Proof.
  unfold countOf. destruct (find _ groups) as [[k n] |] eqn:E; [| contradiction].
  intros _. apply find_some in E as [Hin Hk]. cbn in Hk.
  apply String.eqb_eq in Hk. subst k. exact Hin.
Qed.

Lemma insertByCount_perm (g : string * Z) (sorted : list (string * Z)) :
  Permutation (insertByCount g sorted) (g :: sorted).
Proof.
  induction sorted as [| h rest IH]; cbn [insertByCount]; [reflexivity |].
  destruct (snd h <=? snd g); [reflexivity |].
  rewrite IH. apply perm_swap.
Qed.

Lemma sortByCount_perm (groups : list (string * Z)) :
  Permutation (sortByCount groups) groups.
Proof.
  unfold sortByCount. induction groups as [| g rest IH]; cbn [fold_right]; [reflexivity |].
  rewrite insertByCount_perm. now constructor.
Qed.

Lemma insertByCount_sorted (g : string * Z) (sorted : list (string * Z)) :
  StronglySorted notFewer sorted -> StronglySorted notFewer (insertByCount g sorted).
Proof.
  induction 1 as [| h rest Hs IH Hh]; cbn [insertByCount].
  - constructor; [constructor | constructor].
  - destruct (Z.leb_spec (snd h) (snd g)).
    + constructor; [now constructor |].
      constructor; [assumption |].
      rewrite Forall_forall in *. intros x Hx. specialize (Hh x Hx).
      unfold notFewer in *. lia.
    + constructor; [exact IH |].
      rewrite Forall_forall in *. intros x Hx.
      apply (Permutation_in _ (insertByCount_perm g rest)) in Hx.
      destruct Hx as [<- | Hx]; [unfold notFewer; lia | now apply Hh].
Qed.

Lemma sortByCount_sorted (groups : list (string * Z)) :
  StronglySorted notFewer (sortByCount groups).
Proof.
  unfold sortByCount. induction groups as [| g rest IH]; cbn [fold_right].
  - constructor.
  - now apply insertByCount_sorted.
Qed.

Lemma StronglySorted_app {A} (R : A -> A -> Prop) (xs ys : list A) :
  StronglySorted R (xs ++ ys) ->
  StronglySorted R xs /\ forall x y, In x xs -> In y ys -> R x y.
Proof.
  induction xs as [| a xs IH]; cbn [app]; intros H.
  - split; [constructor | intros x y []].
  - inversion H as [| ? ? Hs Ha]; subst. destruct (IH Hs) as [IH1 IH2].
    rewrite Forall_forall in Ha. split.
    + constructor; [exact IH1 |]. apply Forall_forall. intros x Hx.
      apply Ha. apply in_or_app. now left.
    + intros x y [<- | Hx] Hy; [| now apply IH2].
      apply Ha. apply in_or_app. now right.
Qed.

Lemma topAuthors_facts (db : list Book) :
  let top := topAuthors (bookStats db) in
  (List.length top <= 5)%nat
  /\ NoDup (map fst top)
  /\ StronglySorted notFewer top
  /\ (forall a n, In (a, n) top -> n = booksBy a db /\ 1 <= n)
  /\ (forall b, In b db -> ~ In (author b) (map fst top) ->
      List.length top = 5%nat
      /\ forall a n, In (a, n) top -> booksBy (author b) db <= n).
Proof.
  cbv zeta. cbn [topAuthors bookStats].
  destruct (groupByAuthor_from db [] (NoDup_nil _) (Forall_nil _)) as (Hnd & Hpos & Hcount).
  fold (groupByAuthor db) in Hnd, Hpos, Hcount.
  pose proof (sortByCount_perm (groupByAuthor db)) as Hperm.
  pose proof (sortByCount_sorted (groupByAuthor db)) as Hsorted.
  set (sorted := sortByCount (groupByAuthor db)) in *.
  rewrite <- (firstn_skipn 5 sorted) in Hsorted.
  apply StronglySorted_app in Hsorted as [Htop Hrest].
  assert (Hnd' : NoDup (map fst sorted)).
  { eapply Permutation_NoDup; [| exact Hnd]. apply Permutation_map. now symmetry. }
  assert (Hin : forall a n, In (a, n) sorted -> n = booksBy a db /\ 1 <= n).
  { intros a n H. apply (Permutation_in _ Hperm) in H. split.
    - rewrite <- (countOf_In a n _ Hnd H), Hcount. unfold countOf. cbn. lia.
    - rewrite Forall_forall in Hpos. exact (Hpos _ H). }
  split; [apply firstn_le_length |]. split; [| split; [exact Htop | split]].
  - rewrite <- (firstn_skipn 5 sorted), map_app in Hnd'.
    now apply NoDup_app_remove_r in Hnd'.
  - intros a n H. apply Hin. eapply In_firstn. exact H.
  - intros b Hb Hout.
    assert (Hhas : countOf (author b) (groupByAuthor db) <> 0).
    { rewrite Hcount. unfold countOf at 1. cbn [find].
      assert (1 <= booksBy (author b) db); [| lia].
      unfold booksBy, countDocuments.
      assert (Hf : In b (filter (fun x => (author x =? author b)%string) db))
        by (apply filter_In; split; [exact Hb | apply String.eqb_refl]).
      destruct (filter _ db); [destruct Hf | cbn; lia]. }
    apply countOf_positive_In in Hhas. rewrite Hcount in Hhas.
    unfold countOf at 1 in Hhas. cbn [find] in Hhas. rewrite Z.add_0_l in Hhas.
    apply (Permutation_in _ (Permutation_sym Hperm)) in Hhas.
    rewrite <- (firstn_skipn 5 sorted) in Hhas.
    apply in_app_or in Hhas as [Hhas | Hhas].
    { exfalso. apply Hout. change (author b) with (fst (author b, booksBy (author b) db)).
      now apply in_map. }
    split.
    + apply firstn_length_le.
      destruct (Nat.le_gt_cases 5 (List.length sorted)) as [Hle | Hgt]; [exact Hle |].
      rewrite skipn_all2 in Hhas by lia. destruct Hhas.
    + intros a n H. exact (Hrest _ _ H Hhas).
Qed.

(** X14. The top authors of the statistics are at most five authors, each
    listed once with the number of stored records that name it, in order of
    falling count; an author who has records and is not listed has no more
    records than any listed author, and the list is then full. *)
Theorem topAuthors_spec (db : list Book) :
  let top := topAuthors (bookStats db) in
  (List.length top <= 5)%nat
  /\ NoDup (map fst top)
  /\ StronglySorted notFewer top
  /\ (forall a n, In (a, n) top -> n = booksBy a db /\ 1 <= n)
  /\ (forall b, In b db -> ~ In (author b) (map fst top) ->
      List.length top = 5%nat
      /\ forall a n, In (a, n) top -> booksBy (author b) db <= n).
Proof. apply topAuthors_facts. Qed.

(** X15. The bookshelves endpoint returns each tag of the stored records
    once, and nothing that is not a tag of a stored record. *)
Theorem getBookshelves_distinct (db : list Book) :
  exists tags,
    getBookshelves db = json_ (Strings tags)
    /\ NoDup tags
    /\ forall tag, In tag tags <-> exists b, In b db /\ In tag (bookshelves b).
Proof.
  eexists. split; [reflexivity |]. split; [apply NoDup_nodup |].
  intros tag. rewrite nodup_In, in_flat_map. reflexivity.
Qed.

(** ** The presentation layer *)

(** *** The page bar *)

Lemma numbers_app (xs ys : list UI.pageItem) :
  UI.numbers (xs ++ ys) = UI.numbers xs ++ UI.numbers ys.
Proof.
  induction xs as [| [n | |] xs IH]; cbn [UI.numbers app]; [reflexivity | | |];
    now rewrite IH.
Qed.

Lemma numbers_map (ns : list Z) : UI.numbers (map UI.PageNumber ns) = ns.
Proof. induction ns as [| n ns IH]; cbn; [reflexivity | now rewrite IH]. Qed.

Lemma In_map_PageNumber (x : UI.pageItem) (ns : list Z) :
  In x (map UI.PageNumber ns) -> exists n, x = UI.PageNumber n.
Proof. intros H. apply in_map_iff in H as (n & <- & _). eauto. Qed.

Lemma upTo_In (a b n : Z) : In n (UI.upTo a b) <-> a <= n <= b.
Proof.
  unfold UI.upTo. rewrite in_map_iff. split.
  - intros (i & <- & Hi). apply in_seq in Hi. lia.
  - intros H. exists (Z.to_nat (n - a)). split; [lia |]. apply in_seq. lia.
Qed.

Lemma upTo_length (a b : Z) : List.length (UI.upTo a b) = Z.to_nat (b - a + 1).
Proof. unfold UI.upTo. now rewrite length_map, length_seq. Qed.

Lemma shifted_seq_sorted (a : Z) (len from : nat) :
  StronglySorted Z.lt (map (fun i => a + Z.of_nat i) (seq from len)).
Proof.
  revert from. induction len as [| len IH]; intros from; cbn [seq map].
  - constructor.
  - constructor; [apply IH |]. apply Forall_forall. intros x Hx.
    apply in_map_iff in Hx as (i & <- & Hi). apply in_seq in Hi. lia.
Qed.

Lemma upTo_sorted (a b : Z) : StronglySorted Z.lt (UI.upTo a b).
Proof. apply shifted_seq_sorted. Qed.

Lemma sorted_app (xs ys : list Z) :
  StronglySorted Z.lt xs -> StronglySorted Z.lt ys ->
  (forall x y, In x xs -> In y ys -> x < y) ->
  StronglySorted Z.lt (xs ++ ys).
Proof.
  induction 1 as [| x xs Hs IH Hx]; intros Hys Hlt; cbn [app]; [exact Hys |].
  constructor.
  - apply IH; [exact Hys |]. intros a b Ha Hb. apply Hlt; [now right | exact Hb].
  - apply Forall_app. split; [exact Hx |].
    apply Forall_forall. intros y Hy. apply Hlt; [now left | exact Hy].
Qed.

(** The window of pages around the current one, when not all pages fit. *)
Lemma getPageNumbers_window (innerWidth currentPage totalPages : Z) :
  1 <= currentPage <= totalPages ->
  UI.visiblePages innerWidth < totalPages ->
  exists startPage endPage,
    UI.getPageNumbers innerWidth currentPage totalPages
    = (if 1 <? startPage
       then UI.PageNumber 1 :: (if 2 <? startPage then [UI.EllipsisStart] else [])
       else [])
      ++ map UI.PageNumber (UI.upTo startPage endPage)
      ++ (if endPage <? totalPages
          then (if endPage <? totalPages - 1 then [UI.EllipsisEnd] else [])
               ++ [UI.PageNumber totalPages]
          else [])
    /\ 1 <= startPage /\ startPage <= currentPage <= endPage /\ endPage <= totalPages
    /\ endPage - startPage + 1 = UI.visiblePages innerWidth
    /\ (2 <= currentPage -> startPage <= currentPage - 1)
    /\ (currentPage + 1 <= totalPages -> currentPage + 1 <= endPage).
Proof.
  intros Hcur Hbig. unfold UI.getPageNumbers. fold (UI.visiblePages innerWidth).
  cbv zeta. destruct (Z.leb_spec totalPages (UI.visiblePages innerWidth)); [lia |].
  assert (Hhalf : UI.visiblePages innerWidth / 2 = 1 /\ UI.visiblePages innerWidth = 3
                  \/ UI.visiblePages innerWidth / 2 = 2 /\ UI.visiblePages innerWidth = 5).
  { unfold UI.visiblePages. destruct (innerWidth <? 640); [left | right]; split; reflexivity. }
  set (v := UI.visiblePages innerWidth) in *.
  set (s0 := Z.max (currentPage - v / 2) 1).
  set (e := Z.min (s0 + v - 1) totalPages).
  exists (if e - s0 + 1 <? v then Z.max (e - v + 1) 1 else s0), e.
  split; [reflexivity |].
  destruct (Z.ltb_spec (e - s0 + 1) v); subst s0 e; lia.
Qed.

Lemma getPageNumbers_all (innerWidth currentPage totalPages : Z) :
  totalPages <= UI.visiblePages innerWidth ->
  UI.getPageNumbers innerWidth currentPage totalPages
  = map UI.PageNumber (UI.upTo 1 totalPages).
Proof.
  intros H. unfold UI.getPageNumbers. fold (UI.visiblePages innerWidth). cbv zeta.
  destruct (Z.leb_spec totalPages (UI.visiblePages innerWidth)); [reflexivity | lia].
Qed.

Lemma visiblePages_cases (innerWidth : Z) :
  UI.visiblePages innerWidth = 3 \/ UI.visiblePages innerWidth = 5.
Proof. unfold UI.visiblePages. destruct (innerWidth <? 640); auto. Qed.

(** The numbers of the bar, for a window from [s] to [e]. *)
Lemma window_numbers (s e totalPages : Z) :
  UI.numbers
    ((if 1 <? s
      then UI.PageNumber 1 :: (if 2 <? s then [UI.EllipsisStart] else [])
      else [])
     ++ map UI.PageNumber (UI.upTo s e)
     ++ (if e <? totalPages
         then (if e <? totalPages - 1 then [UI.EllipsisEnd] else [])
              ++ [UI.PageNumber totalPages]
         else []))
  = (if 1 <? s then [1] else []) ++ UI.upTo s e
    ++ (if e <? totalPages then [totalPages] else []).
Proof.
  rewrite !numbers_app, numbers_map.
  destruct (1 <? s), (2 <? s), (e <? totalPages), (e <? totalPages - 1); reflexivity.
Qed.

Ltac leaves H :=
  repeat (destruct H as [H | H]);
  try discriminate H; try contradiction; try lia;
  try (apply In_map_PageNumber in H as [? ?]; discriminate).

Lemma window_ellipsisStart (s e totalPages : Z) :
  In UI.EllipsisStart
    ((if 1 <? s
      then UI.PageNumber 1 :: (if 2 <? s then [UI.EllipsisStart] else [])
      else [])
     ++ map UI.PageNumber (UI.upTo s e)
     ++ (if e <? totalPages
         then (if e <? totalPages - 1 then [UI.EllipsisEnd] else [])
              ++ [UI.PageNumber totalPages]
         else []))
  <-> 2 < s.
Proof.
  rewrite !in_app_iff.
  destruct (Z.ltb_spec 1 s), (Z.ltb_spec 2 s), (Z.ltb_spec e totalPages),
    (Z.ltb_spec e (totalPages - 1)); cbn [In app];
    (split; [intros Hmem; leaves Hmem | intros Hgap; try lia; auto 6]).
Qed.

Lemma window_ellipsisEnd (s e totalPages : Z) :
  In UI.EllipsisEnd
    ((if 1 <? s
      then UI.PageNumber 1 :: (if 2 <? s then [UI.EllipsisStart] else [])
      else [])
     ++ map UI.PageNumber (UI.upTo s e)
     ++ (if e <? totalPages
         then (if e <? totalPages - 1 then [UI.EllipsisEnd] else [])
              ++ [UI.PageNumber totalPages]
         else []))
  <-> e < totalPages - 1.
Proof.
  rewrite !in_app_iff.
  destruct (Z.ltb_spec 1 s), (Z.ltb_spec 2 s), (Z.ltb_spec e totalPages),
    (Z.ltb_spec e (totalPages - 1)); cbn [In app];
    (split; [intros Hmem; leaves Hmem | intros Hgap; try lia; auto 6]).
Qed.

(** X16. For a current page between 1 and the number of pages, the page bar
    shows page numbers in rising order, all between 1 and the number of
    pages; among them the first page, the last page, the current page and
    its neighbours; at most two more than the width of the window (3 on a
    narrow screen, 5 otherwise).  The marker of a gap is shown exactly where
    page 2, or the page before the last, is not. *)
Theorem getPageNumbers_spec (innerWidth currentPage totalPages : Z) :
  1 <= currentPage <= totalPages ->
  let items := UI.getPageNumbers innerWidth currentPage totalPages in
  StronglySorted Z.lt (UI.numbers items)
  /\ (forall n, In n (UI.numbers items) -> 1 <= n <= totalPages)
  /\ (In 1 (UI.numbers items) /\ In totalPages (UI.numbers items))
  /\ (forall n, 1 <= n <= totalPages -> currentPage - 1 <= n <= currentPage + 1 ->
                In n (UI.numbers items))
  /\ Z.of_nat (List.length (UI.numbers items)) <= UI.visiblePages innerWidth + 2
  /\ (2 <= totalPages ->
      (In UI.EllipsisStart items <-> ~ In 2 (UI.numbers items))
      /\ (In UI.EllipsisEnd items <-> ~ In (totalPages - 1) (UI.numbers items))).
Proof.
  intros Hcur. cbv zeta.
  destruct (Z.le_gt_cases totalPages (UI.visiblePages innerWidth)) as [Hsmall | Hbig].
  - rewrite (getPageNumbers_all _ _ _ Hsmall), numbers_map.
    split; [apply upTo_sorted |]. split; [intros n Hn; now apply upTo_In in Hn |].
    split; [split; apply upTo_In; lia |].
    split; [intros n Hn _; apply upTo_In; lia |].
    split; [rewrite upTo_length; lia |].
    intros H2. split; (split; [intros Hin; apply In_map_PageNumber in Hin as [n Hn];
                                discriminate |]).
    + intros Hout. exfalso. apply Hout. apply upTo_In. lia.
    + intros Hout. exfalso. apply Hout. apply upTo_In. lia.
  - destruct (getPageNumbers_window innerWidth currentPage totalPages Hcur)
      as (s & e & -> & Hs & Hse & He & Hv & Hprev & Hnext); [lia |].
    rewrite window_numbers.
    assert (Hin : forall n,
      In n ((if 1 <? s then [1] else []) ++ UI.upTo s e
            ++ (if e <? totalPages then [totalPages] else []))
      <-> (1 < s /\ n = 1) \/ s <= n <= e \/ (e < totalPages /\ n = totalPages)).
    { intros n. rewrite !in_app_iff, upTo_In.
      destruct (Z.ltb_spec 1 s), (Z.ltb_spec e totalPages); cbn [In]; lia. }
    pose proof (visiblePages_cases innerWidth) as Hcases.
    split; [| split; [| split; [| split; [| split]]]].
    + apply sorted_app.
      * destruct (1 <? s); repeat constructor.
      * apply sorted_app; [apply upTo_sorted | |].
        -- destruct (e <? totalPages); repeat constructor.
        -- intros x y Hx Hy. apply upTo_In in Hx.
           destruct (Z.ltb_spec e totalPages); [| destruct Hy].
           destruct Hy as [<- | []]. lia.
      * intros x y Hx Hy.
        destruct (Z.ltb_spec 1 s); [| destruct Hx]. destruct Hx as [<- | []].
        apply in_app_iff in Hy as [Hy | Hy].
        -- apply upTo_In in Hy. lia.
        -- destruct (Z.ltb_spec e totalPages); [| destruct Hy].
           destruct Hy as [<- | []]. lia.
    + intros n Hn. apply Hin in Hn. lia.
    + split; apply Hin; lia.
    + intros n Hn Hnear. apply Hin. lia.
    + rewrite !length_app, upTo_length.
      destruct (1 <? s), (e <? totalPages); cbn [List.length]; lia.
    + intros H2. rewrite window_ellipsisStart, window_ellipsisEnd, !Hin.
      split; lia.
Qed.

(** *** The statistics page *)

Lemma ratio_bounds (count total : Z) :
  0 <= count <= total -> 0 < total ->
  (0 <= inject_Z count / inject_Z total)%Q /\ (inject_Z count / inject_Z total <= 1)%Q.
Proof.
  intros [H0 H1] Ht.
  assert (Htq : (0 < inject_Z total)%Q) by (change 0%Q with (inject_Z 0); now rewrite <- Zlt_Qlt).
  assert (H0q : (0 <= inject_Z count)%Q) by (change 0%Q with (inject_Z 0); now rewrite <- Zle_Qle).
  assert (H1q : (inject_Z count <= inject_Z total)%Q) by now rewrite <- Zle_Qle.
  split.
  - apply Qle_shift_div_l; [exact Htq | lra].
  - apply Qle_shift_div_r; [exact Htq | lra].
Qed.

Lemma round_bounds (x : Q) (lo hi : Z) :
  (inject_Z lo <= x)%Q -> (x <= inject_Z hi)%Q -> lo <= UI.round x <= hi.
Proof.
  intros Hlo Hhi. unfold UI.round. split.
  - rewrite <- (Qfloor_Z lo). apply Qfloor_resp_le. lra.
  - assert (H : (x + (1 # 2) < inject_Z (hi + 1))%Q).
    { rewrite inject_Z_plus. change (inject_Z 1) with 1%Q. lra. }
    pose proof (Qfloor_le (x + (1 # 2))) as Hfl.
    assert (Hlt : (inject_Z (Qfloor (x + (1 # 2))) < inject_Z (hi + 1))%Q) by lra.
    rewrite <- Zlt_Qlt in Hlt. lia.
Qed.

(** X17. The read percentage of the statistics page, taken from the
    statistics of any collection, is a whole number between 0 and 100: it is
    0 for the empty collection or when no book is read, and 100 when every
    book is read. *)
Theorem calculateReadPercentage_bounds (db : list Book) :
  let percentage := UI.calculateReadPercentage (Some (bookStats db)) in
  0 <= percentage <= 100
  /\ (readBooks (bookStats db) = 0 -> percentage = 0)
  /\ (db <> [] -> readBooks (bookStats db) = totalBooks (bookStats db) ->
      percentage = 100).
Proof.
  cbv zeta. unfold UI.calculateReadPercentage.
  pose proof (countDocuments_le (onShelf "read") db) as Hle.
  cbn [bookStats readBooks totalBooks].
  set (read := countDocuments (onShelf "read") db) in *.
  set (total := countDocuments (fun _ => true) db) in *.
  destruct (Z.eqb_spec total 0) as [H0 | Hne].
  - split; [lia |]. split; [reflexivity |]. intros Hdb _. exfalso.
    destruct db as [| b rest]; [contradiction |].
    subst total. rewrite countDocuments_cons in H0.
    pose proof (countDocuments_le (fun _ => true) rest). lia.
  - assert (Ht : 0 < total) by lia.
    destruct (ratio_bounds read total Hle Ht) as [Hr0 Hr1].
    split; [| split].
    + apply round_bounds; [change (inject_Z 0) with 0%Q | change (inject_Z 100) with 100%Q];
        lra.
    + intros Hread. rewrite Hread. unfold UI.round.
      assert (Hx : (inject_Z 0 / inject_Z total * 100 + (1 # 2) == 1 # 2)%Q).
      { change (inject_Z 0) with 0%Q. unfold Qdiv. ring. }
      rewrite Hx. reflexivity.
    + intros _ Hall. rewrite Hall. unfold UI.round.
      assert (Hx : (inject_Z total / inject_Z total * 100 + (1 # 2) == 201 # 2)%Q).
      { assert (Hq : ~ (inject_Z total == 0)%Q).
        { change 0%Q with (inject_Z 0). rewrite inject_Z_injective. lia. }
        field. exact Hq. }
      rewrite Hx. reflexivity.
Qed.

(** X19. On the statistics page the bar of each top author is more than 0
    and at most 100 percent wide, one bar for each author of the list, and
    the bar of the first author is 100 percent wide. *)
Theorem authorWidths_bounds (db : list Book) :
  let widths := UI.authorWidths (bookStats db) in
  List.length widths = List.length (topAuthors (bookStats db))
  /\ Forall (fun w => (0 < w)%Q /\ (w <= 100)%Q) widths
  /\ forall w rest, widths = w :: rest -> (w == 100)%Q.
Proof.
  cbv zeta. destruct (topAuthors_facts db) as (_ & _ & Hsorted & Hpos & _).
  cbv zeta in Hsorted, Hpos. unfold UI.authorWidths.
  destruct (topAuthors (bookStats db)) as [| [a0 n0] rest] eqn:E.
  - split; [reflexivity |]. split; [constructor | discriminate].
  - assert (Hn0 : 1 <= n0) by (apply (Hpos a0 n0); now left).
    assert (Hq0 : (0 < inject_Z n0)%Q)
      by (change 0%Q with (inject_Z 0); rewrite <- Zlt_Qlt; lia).
    assert (Hall : forall a n, In (a, n) ((a0, n0) :: rest) -> 1 <= n <= n0).
    { intros a n Hin. split; [now apply (Hpos a n) |].
      inversion Hsorted as [| ? ? _ Hfirst]; subst.
      destruct Hin as [[= _ <-] | Hin]; [lia |].
      rewrite Forall_forall in Hfirst. exact (Hfirst _ Hin). }
    split; [now rewrite length_map |]. split.
    + apply Forall_forall. intros w Hw. apply in_map_iff in Hw as ([a n] & <- & Hin).
      cbn [snd]. destruct (Hall a n Hin) as [H1 Hle].
      assert (Hnq : (0 < inject_Z n)%Q)
        by (change 0%Q with (inject_Z 0); rewrite <- Zlt_Qlt; lia).
      assert (Hleq : (inject_Z n <= inject_Z n0)%Q) by now rewrite <- Zle_Qle.
      assert (Hlo : (0 < inject_Z n / inject_Z n0)%Q)
        by (apply Qlt_shift_div_l; [exact Hq0 | lra]).
      assert (Hhi : (inject_Z n / inject_Z n0 <= 1)%Q)
        by (apply Qle_shift_div_r; [exact Hq0 | lra]).
      split; lra.
    + cbn [map snd]. intros w rest' [= <- _]. field. lra.
Qed.

(** *** The stars of a rating *)

Lemma star_filled (i : Z) (rating : Q) :
  Qle_bool (inject_Z i) rating = (i <=? Qfloor rating).
Proof.
  destruct (Z.leb_spec i (Qfloor rating)) as [H | H].
  - apply Qle_bool_iff. apply Qle_trans with (y := inject_Z (Qfloor rating)).
    + now rewrite <- Zle_Qle.
    + apply Qfloor_le.
  - destruct (Qle_bool (inject_Z i) rating) eqn:E; [| reflexivity].
    apply Qle_bool_iff in E. apply Qfloor_resp_le in E. rewrite Qfloor_Z in E. lia.
Qed.

(** X20. A rating is drawn as five stars of which the first ones are
    filled: as many as the whole part of the rating, none for a rating below
    1 and all five from 5 on. *)
Theorem renderRating_stars (rating : Q) :
  let filled := Z.to_nat (Z.min 5 (Z.max 0 (Qfloor rating))) in
  UI.renderRating rating = repeat true filled ++ repeat false (5 - filled).
Proof.
  cbv zeta. unfold UI.renderRating. cbn [map]. rewrite !star_filled.
  set (f := Qfloor rating).
  destruct (Z.leb_spec 1 f), (Z.leb_spec 2 f), (Z.leb_spec 3 f),
    (Z.leb_spec 4 f), (Z.leb_spec 5 f); try lia.
  - replace (Z.min 5 (Z.max 0 f)) with 5 by lia. reflexivity.
  - replace (Z.min 5 (Z.max 0 f)) with 4 by lia. reflexivity.
  - replace (Z.min 5 (Z.max 0 f)) with 3 by lia. reflexivity.
  - replace (Z.min 5 (Z.max 0 f)) with 2 by lia. reflexivity.
  - replace (Z.min 5 (Z.max 0 f)) with 1 by lia. reflexivity.
  - replace (Z.min 5 (Z.max 0 f)) with 0 by lia. reflexivity.
Qed.

(** *** The record that a route names *)


Lemma findOne_unique (db : list Book) (b : Book) :
  uniqueIds db -> In b db -> findOne (hasId (bookId b)) db = Some b.
Proof.
  unfold uniqueIds, findOne. induction db as [| x rest IH]; intros Hu Hin; [destruct Hin |].
  cbn [map] in Hu. inversion Hu as [| ? ? Hx Hrest]; subst. cbn [find].
  destruct Hin as [-> | Hin].
  - unfold hasId. now rewrite Z.eqb_refl.
  - destruct (Z.eqb_spec (bookId x) (bookId b)) as [E | _]; unfold hasId at 1.
    + exfalso. apply Hx. rewrite E. now apply in_map.
    + destruct (Z.eqb_spec (bookId x) (bookId b)); [| now apply IH].
      exfalso. apply Hx. replace (bookId x) with (bookId b) by auto. now apply in_map.
Qed.

Lemma toString_nonEmpty (n : Z) :
  Z.abs n <= 2 ^ 53 -> UI.nonEmpty (JS.toString n) = true.
Proof.
  intros H. unfold JS.toString. destruct (n <? 0); [reflexivity |].
  destruct (Z.leb_spec (Z.abs n) (2 ^ 53)); [| lia]. unfold JS.digits.
  destruct (digitsOf_nonempty (Z.to_nat (Z.log2 (Z.abs n))) (Z.abs n)) as (c & rest & ->).
  reflexivity.
Qed.

(** X22. In every state of the collection that the public operations reach,
    the link of a card, made from the identifier of its record, opens that
    record: the detail page sends a request for it, and the API answers the
    request with the record. *)
Theorem card_link_opens_record (db : list Book) (b : Book) :
  reachable db -> In b db ->
  exists path,
    UI.detailRequest (Some (JS.toString (bookId b))) = Some path
    /\ getBookById db path = json_ (Document b).
Proof.
  intros Hr Hin.
  destruct (reachable_identified db Hr) as [Hu Hp]. specialize (Hp b Hin).
  assert (Hb : Z.abs (bookId b) <= 2 ^ 53) by lia.
  exists (JS.toString (bookId b)). split.
  - unfold UI.detailRequest, UI.routeBookId.
    rewrite (toString_nonEmpty _ Hb), (parseInt_toString _ Hb).
    destruct (Z.eqb_spec (bookId b) 0); [lia | reflexivity].
  - unfold getBookById. rewrite (parseInt_toString _ Hb).
    now rewrite (findOne_unique db b Hu Hin).
Qed.

(** *** The field of the shelf tags *)

Lemma split_whole (sep : ascii) (t : string) :
  UI.without sep t = true -> UI.split sep t = [t].
Proof.
  induction t as [| c t IH]; cbn [UI.without UI.split]; [reflexivity |].
  intros H. apply andb_prop in H as [Hc Ht]. apply negb_true_iff in Hc.
  now rewrite Hc, (IH Ht).
Qed.

Lemma split_at (sep : ascii) (t rest : string) :
  UI.without sep t = true ->
  UI.split sep (t ++ String sep rest) = t :: UI.split sep rest.
Proof.
  induction t as [| c t IH]; cbn [UI.without UI.split append].
  - intros _. now rewrite Ascii.eqb_refl.
  - intros H. apply andb_prop in H as [Hc Ht]. apply negb_true_iff in Hc.
    now rewrite Hc, (IH Ht).
Qed.

Lemma split_join (t : string) (rest : list string) :
  Forall (fun tag => UI.without "," tag = true) (t :: rest) ->
  UI.split "," (UI.join ", " (t :: rest)) = t :: map (String " ") rest.
Proof.
  revert t. induction rest as [| r rest IH]; intros t H.
  - inversion H; subst. cbn [UI.join map]. now apply split_whole.
  - inversion H as [| ? ? Ht Hrest]; subst.
    change (UI.join ", " (t :: r :: rest))
      with (t ++ String "," (String " " (UI.join ", " (r :: rest))))%string.
    rewrite (split_at _ _ _ Ht). f_equal.
    cbn [UI.split]. change (" " =? ",")%char with false. cbv iota.
    now rewrite (IH r Hrest).
Qed.

Lemma trim_space (t : string) : UI.trim (String " " t) = UI.trim t.
Proof. reflexivity. Qed.

(** X23. The field of the shelf tags shows the tags joined by a comma and a
    space, and reads its text back into the same tags, provided each tag is
    not empty, has no comma and no white space at either end.  What it reads
    never holds an empty tag. *)
Theorem handleBookshelvesChange_shown (tags : list string) :
  Forall (fun tag => tag <> "" /\ UI.without "," tag = true /\ UI.trim tag = tag) tags ->
  UI.handleBookshelvesChange (UI.shownTags (Some tags)) = tags
  /\ forall text, Forall (fun tag => tag <> "") (UI.handleBookshelvesChange text).
Proof.
  intros H. split.
  - unfold UI.handleBookshelvesChange, UI.shownTags.
    destruct tags as [| t rest]; [reflexivity |].
    rewrite split_join
      by (apply Forall_forall; intros x Hx; rewrite Forall_forall in H;
          now destruct (H x Hx) as (_ & Hc & _)).
    cbn [map]. rewrite map_map.
    assert (Hmap : map (fun x => UI.trim (String " " x)) rest = rest).
    { inversion H as [| ? ? _ Hrest]; subst. clear H.
      induction Hrest as [| x l (_ & _ & Hx) _ IH]; [reflexivity |].
      cbn [map]. now rewrite trim_space, Hx, IH. }
    rewrite Hmap. inversion H as [| ? ? (Hne & _ & Ht) Hrest]; subst. rewrite Ht.
    apply forallb_filter_id. apply forallb_forall. intros x Hx.
    rewrite Forall_forall in H. destruct (H x Hx) as (Hxne & _).
    now destruct x.
  - intros text. apply Forall_forall. intros x Hx.
    unfold UI.handleBookshelvesChange in Hx. apply filter_In in Hx as [_ Hx].
    now destruct x.
Qed.

End Controller.

(** ** The handlers at work, and the statements that fail *)

Example createBook_dune :
  createBook stampDate [] dune 1000 = ([duneDoc], mkResponse 201 (Document duneDoc)).
Proof. reflexivity. Qed.

Example getBooks_page_2 :
  exists r,
    getBooks stampDate plainRegExp insertionOrder [duneDoc; emma; duneDoc]
      secondPage
    = json_ (Paginated r)
    /\ data r = [duneDoc] /\ totalPages r = 2 /\ currentPage r = 2%Q /\ totalItems r = 3.
Proof. eexists. split; [reflexivity |]. repeat split. Qed.

Example getBooks_page_0 :
  getBooks stampDate plainRegExp insertionOrder [duneDoc]
    (mkQuery (Some (Num 0%Q)) None None None None None None None None None)
  = invalidQuery.
Proof. reflexivity. Qed.

Example getBooks_limit_NaN :
  getBooks stampDate plainRegExp insertionOrder [duneDoc]
    (mkQuery None (Some NaN) None None None None None None None None)
  = invalidQuery.
Proof. reflexivity. Qed.

Example getBooks_bad_pattern :
  getBooks stampDate plainRegExp insertionOrder [duneDoc] (searchFor "(")
  = serverError.
Proof. reflexivity. Qed.

Example getBooks_repeated_key :
  getBooks stampDate plainRegExp insertionOrder [duneDoc]
    (mkQuery None None None None (Some Nested) None None None None None)
  = invalidQuery.
Proof. reflexivity. Qed.

(** A limit with a fraction passes the schema; the database is taken to
    drop the fraction and to read the count 0 as no limit. *)
Example getBooks_limit_fraction :
  dataOf (getBooks stampDate plainRegExp insertionOrder [duneDoc; emma; duneDoc]
            (mkQuery None (Some (Num (5 # 2))) None None None None None None None None))
  = [duneDoc; emma]
  /\ dataOf (getBooks stampDate plainRegExp insertionOrder [duneDoc; emma; duneDoc]
               (mkQuery None (Some (Num (1 # 2))) None None None None None None None None))
     = [duneDoc; emma; duneDoc].
Proof. split; reflexivity. Qed.

Example createBook_bad_date :
  createBook stampDate [] duneReadSoon 1000 = ([], serverError).
Proof. reflexivity. Qed.

Example deleteBook_emma :
  deleteBook [duneDoc; emma] "7abc" = ([duneDoc], json_ (Message "Book removed")).
Proof. reflexivity. Qed.

Example getBookStats_two :
  exists stats,
    getBookStats [duneDoc; emma] = json_ (Statistics stats)
    /\ totalBooks stats = 2 /\ readBooks stats = 1 /\ readingBooks stats = 0
    /\ toReadBooks stats = 1 /\ totalPagesRead stats = 474%Q
    /\ topAuthors stats = [("Frank Herbert", 1); ("Jane Austen", 1)].
Proof. eexists. split; [reflexivity |]. repeat split. Qed.

Example getBookshelves_two :
  getBookshelves [emma; duneDoc; emma] = json_ (Strings ["classics"]).
Proof. reflexivity. Qed.

Lemma safeMaximum_emma : safeMaximum [emma].
Proof. intros m [(b & [<- | []] & <-) _]. reflexivity. Defined.

(** C1 fails: the collection holds the identifier 2^53 and the body passes
    validation; the sum 2^53 + 1 is rounded to 2^53, which is taken, and the
    create endpoint answers 500 and stores nothing.  A body that the schema
    accepts with a read date that is not a date is answered 500 as well. *)
Lemma createBook_no_next_identifier :
  (exists v, bookSchema stampDate dune = Some v /\ Data.dateRead v = None)
  /\ maximumId [atlas] (2 ^ 53)
  /\ createBook stampDate [atlas] dune 1000 = ([atlas], serverError)
  /\ (exists v, bookSchema stampDate duneReadSoon = Some v)
  /\ createBook stampDate [] duneReadSoon 1000 = ([], serverError).
Proof.
  split; [eexists; split; reflexivity |].
  split; [split; [exists atlas; split; [now left | reflexivity]
                 | intros b [<- | []]; reflexivity] |].
  split; [vm_compute; reflexivity |].
  split; [eexists; reflexivity | reflexivity].
Qed.

Lemma createBook_assigns_next_identifier_witness :
  exists doc,
    createBook stampDate [emma] dune 1000
    = ([emma] ++ [doc], mkResponse 201 (Document doc))
    /\ ([emma] = [] -> bookId doc = 1)
    /\ ([emma] <> [] -> exists m, maximumId [emma] m /\ bookId doc = m + 1).
Proof.
  eapply createBook_assigns_next_identifier;
    [reflexivity | discriminate | exact safeMaximum_emma].
Defined.

(** C7 fails: after the identifier 2^53 the create endpoint answers 500 to a
    body that passes validation, and so it does to a body whose read date is
    not a date: no record is created, and there is none to fetch. *)
Lemma create_then_nothing_to_fetch :
  (exists v, bookSchema stampDate (JObj emmaPayload) = Some v /\ Data.dateRead v = None)
  /\ createBook stampDate [duneDoc; atlas] (JObj emmaPayload) 1000
     = ([duneDoc; atlas], serverError)
  /\ (exists v, bookSchema stampDate duneReadSoon = Some v)
  /\ createBook stampDate [emma] duneReadSoon 1000 = ([emma], serverError).
Proof.
  split; [eexists; split; reflexivity |].
  split; [vm_compute; reflexivity |].
  split; [eexists; reflexivity | reflexivity].
Qed.

Lemma create_then_getBookById_witness :
  exists db' doc,
    createBook stampDate [emma] dune 1000 = (db', mkResponse 201 (Document doc))
    /\ getBookById db' (JS.toString (bookId doc)) = json_ (Document doc).
Proof.
  eapply create_then_getBookById;
    [reflexivity | discriminate | exact safeMaximum_emma].
Defined.


(** The body that asks for the identifier 42 gets the identifier 1 in the
    empty collection: the identifier of the body is carried only when it is
    the one that the server computes. *)
Example createBook_identifier_42 :
  createBook stampDate [] duneWithId 1000 = ([duneDoc], mkResponse 201 (Document duneDoc))
  /\ bookId duneDoc = 1.
Proof. split; reflexivity. Qed.

(** C3 fails: the payload gives title, author and pages; the stored rating 5
    is 0 after the update, and the shelf [read] is [to-read]. *)
Lemma updateBook_resets_rating :
  exists doc,
    updateBook stampDate [emma] "7" (JObj emmaPayload) 2000
    = ([doc], json_ (Document doc))
    /\ get "rating" emmaPayload = None
    /\ get "exclusiveShelf" emmaPayload = None
    /\ ~ (rating doc == rating emma)%Q
    /\ exclusiveShelf doc <> exclusiveShelf emma.
Proof.
  eexists. split; [reflexivity |]. repeat split; discriminate.
Qed.

Lemma updateBook_writes_validated_payload_witness :
  exists before after doc,
    [duneDoc; emma] = before ++ emma :: after
    /\ updateBook stampDate [duneDoc; emma] "7" (JObj emmaReview) 2000
       = (before ++ doc :: after, json_ (Document doc))
    /\ bookId doc = 7 /\ isbn doc = Some "0141439580" /\ rating doc = 0%Q
    /\ review doc = Some "Witty" /\ dateRead doc = Some 900.
Proof.
  destruct (updateBook_writes_validated_payload stampDate [duneDoc; emma] "7" 7
              emmaReview 2000 _ emma eq_refl eq_refl
              ltac:(discriminate) eq_refl)
    as (before & after & doc & Hdb & Hu & (Hid & _) & Hkept & Hreset & _ & Hgiven & _).
  destruct Hgiven as (_ & _ & _ & _ & _ & _ & _ & _ & _ & Hdate & _ & _ & Hreview & _).
  destruct (Hdate "900" eq_refl ltac:(discriminate)) as (ms & Hms & Hread).
  exists before, after, doc.
  split; [exact Hdb |]. split; [exact Hu |]. split; [exact Hid |].
  split; [apply Hkept; reflexivity |]. split; [apply Hreset; reflexivity |].
  split; [apply Hreview; reflexivity |].
  rewrite Hread. f_equal. injection Hms as <-. reflexivity.
Defined.

(** C5 fails: the identifier 7 parses and is not in the collection, and the
    update endpoint answers 400 to a body that fails validation, and 500 to
    a body that the schema accepts with a read date that is not a date. *)
Lemma updateBook_missing_record_400 :
  JS.parseInt "7" = Some 7
  /\ absent 7 [duneDoc]
  /\ updateBook stampDate [duneDoc] "7" (JObj []) 2000 = ([duneDoc], invalidData)
  /\ status invalidData = 400
  /\ (exists v, bookSchema stampDate duneReadSoon = Some v)
  /\ updateBook stampDate [duneDoc] "7" duneReadSoon 2000 = ([duneDoc], serverError)
  /\ status serverError = 500.
Proof.
  split; [reflexivity |].
  split; [intros b [<- | []]; discriminate |].
  split; [reflexivity |]. split; [reflexivity |].
  split; [eexists; reflexivity |]. split; reflexivity.
Qed.

Lemma missing_record_404_witness :
  JS.parseInt "7" = Some 7
  /\ getBookById [duneDoc] "7" = notFound
  /\ deleteBook [duneDoc] "7" = ([duneDoc], notFound)
  /\ updateBook stampDate [duneDoc] "7" (JObj emmaPayload) 2000 = ([duneDoc], notFound)
  /\ updateBook stampDate [duneDoc] "7" duneReadSoon 2000 = ([duneDoc], serverError)
  /\ updateBook stampDate [duneDoc] "7" (JObj []) 2000 = ([duneDoc], invalidData).
Proof.
  assert (Ha : absent 7 [duneDoc]) by (intros b [<- | []]; discriminate).
  destruct (missing_record_404 stampDate [duneDoc] "7" 7 eq_refl Ha)
    as (Hg & Hd & Hu & Hs & Hi & _).
  split; [reflexivity |]. split; [exact Hg |]. split; [exact Hd |].
  split; [eapply Hu; [reflexivity | discriminate] |].
  split; [eapply Hs; reflexivity | apply Hi; reflexivity].
Defined.

(** C10 fails: the identifier 7 parses (and the record exists), and the
    update endpoint answers 400 to a body that fails validation. *)
Lemma updateBook_valid_identifier_400 :
  JS.parseInt "7" = Some 7
  /\ status (snd (updateBook stampDate [emma] "7" (JObj []) 2000)) = 400.
Proof. split; reflexivity. Qed.

(** C4 fails: the search string occurs in the publisher of the record, not
    in its title or author, and the record is returned. *)
Lemma getBooks_search_finds_publisher :
  exists r,
    getBooks stampDate plainRegExp insertionOrder [duneDoc] (searchFor "ace")
    = json_ (Paginated r)
    /\ In duneDoc (data r)
    /\ inTitleOrAuthor "ace" duneDoc = false.
Proof.
  eexists. split; [reflexivity |]. split; [now left | reflexivity].
Qed.

Lemma plainRegExp_plain (pattern : string) :
  plain pattern = true ->
  exists re, plainRegExp pattern = Some re /\ forall t, re t = includes_i pattern t.
Proof.
  intros H. unfold plainRegExp. rewrite H. eexists. split; reflexivity.
Defined.

Lemma getBooks_search_witness :
  exists r,
    getBooks stampDate plainRegExp insertionOrder [duneDoc; emma] (searchFor "ace")
    = json_ (Paginated r)
    /\ totalItems r
       = Z.of_nat (List.length (filter (inSearchedFields "ace") [duneDoc; emma]))
    /\ (forall b, In b (data r) ->
        In b [duneDoc; emma] /\ inSearchedFields "ace" b = true)
    /\ (totalItems r <= 10 ->
        forall b, In b [duneDoc; emma] -> inSearchedFields "ace" b = true ->
                  In b (data r)).
Proof.
  apply (getBooks_search stampDate plainRegExp insertionOrder [duneDoc; emma] "ace").
  - discriminate.
  - reflexivity.
  - exact plainRegExp_plain.
  - intros direction docs. exists docs. split; [reflexivity | apply Permutation_refl].
Defined.

(** C2 fails: a sort by the empty field name, a search for a pattern that
    does not compile and a date bound that is not a date pass the schema,
    and the list endpoint answers 500 with a message, not a page. *)
Lemma getBooks_valid_request_500 :
  filterSchema stampDate sortByNothing <> None
  /\ getBooks stampDate plainRegExp insertionOrder [duneDoc; emma] sortByNothing
     = serverError
  /\ filterSchema stampDate searchForParenthesis <> None
  /\ getBooks stampDate plainRegExp insertionOrder [duneDoc; emma] searchForParenthesis
     = serverError
  /\ filterSchema stampDate readSinceYesterday <> None
  /\ getBooks stampDate plainRegExp insertionOrder [duneDoc; emma] readSinceYesterday
     = serverError
  /\ body serverError = Message "Server error".
Proof.
  split; [discriminate |]. split; [reflexivity |].
  split; [discriminate |]. split; [reflexivity |].
  split; [discriminate |]. split; reflexivity.
Qed.

Lemma getBooks_response_witness :
  exists r,
    getBooks stampDate plainRegExp insertionOrder [duneDoc; emma; duneDoc] secondPage
    = json_ (Paginated r)
    /\ totalItems r = 3 /\ totalPages r = 2 /\ currentPage r = 2%Q
    /\ Z.of_nat (List.length (data r)) <= 2.
Proof.
  destruct (getBooks_response stampDate plainRegExp insertionOrder
              [duneDoc; emma; duneDoc] secondPage _ 2 2 eq_refl
              ltac:(reflexivity) ltac:(reflexivity))
    as (r & selected & Hr & Hsel & Hitems & Hpages & Hpage & Hdata).
  - intros (s & Hs & _). discriminate Hs.
  - intros (s & [Hs | Hs] & _); discriminate Hs.
  - intros direction docs H. discriminate H.
  - exists r.
    assert (Hall : forall b, selected b = true).
    { intros b. apply Hsel.
      repeat split; try (intros x Hx; discriminate Hx).
      intros s re Hs. discriminate Hs. }
    assert (Hcount : List.length (filter selected [duneDoc; emma; duneDoc]) = 3%nat).
    { cbn [filter]. now rewrite !Hall. }
    rewrite Hcount in Hitems.
    split; [exact Hr |]. split; [exact Hitems |]. split; [lia |].
    split; [exact Hpage | exact Hdata].
Defined.

Lemma filterSchema_defaults_witness :
  exists p,
    filterSchema stampDate noQuery = Some p
    /\ page p = Some 1%Q /\ limit p = Some 10%Q
    /\ sort p = Some "dateAdded" /\ order p = Some "desc".
Proof.
  eexists. split; [reflexivity |].
  destruct (filterSchema_defaults stampDate noQuery _ eq_refl) as (H1 & H2 & H3 & H4).
  split; [apply H1; reflexivity |]. split; [apply H2; reflexivity |].
  split; [apply H3 | apply H4]; reflexivity.
Defined.

Lemma reachable_shelf_counts_witness :
  reachable stampDate plainRegExp insertionOrder [duneDoc]
  /\ exists stats,
       getBookStats [duneDoc] = json_ (Statistics stats)
       /\ readBooks stats + readingBooks stats + toReadBooks stats = totalBooks stats.
Proof.
  assert (H : reachable stampDate plainRegExp insertionOrder [duneDoc]).
  { exact (reachable_step stampDate plainRegExp insertionOrder []
             (POST_book dune 1000) (reachable_empty _ _ _)). }
  split; [exact H |].
  exact (proj2 (reachable_shelf_counts stampDate plainRegExp insertionOrder [duneDoc] H)).
Defined.

(** ** More of the handlers and of the presentation layer at work *)

Example getBooks_read_and_rated :
  dataOf (getBooks stampDate plainRegExp insertionOrder [duneDoc; emma] readAndRated)
  = [emma].
Proof. reflexivity. Qed.

Example getBooks_empty_shelf :
  getBooks stampDate plainRegExp insertionOrder [duneDoc; emma]
    (mkQuery None None None None (Some (Text "")) (Some (Text "")) None None None None)
  = getBooks stampDate plainRegExp insertionOrder [duneDoc; emma] noQuery.
Proof. reflexivity. Qed.

Example getBooks_bad_date :
  getBooks stampDate plainRegExp insertionOrder [emma]
    readSinceYesterday
  = serverError.
Proof. reflexivity. Qed.

Example getPageNumbers_middle :
  UI.getPageNumbers 1024 5 10
  = [UI.PageNumber 1; UI.EllipsisStart; UI.PageNumber 3; UI.PageNumber 4;
     UI.PageNumber 5; UI.PageNumber 6; UI.PageNumber 7; UI.EllipsisEnd;
     UI.PageNumber 10].
Proof. reflexivity. Qed.

Example getPageNumbers_last_narrow :
  UI.getPageNumbers 375 10 10
  = [UI.PageNumber 1; UI.EllipsisStart; UI.PageNumber 8; UI.PageNumber 9;
     UI.PageNumber 10].
Proof. reflexivity. Qed.

Example Pagination_single : UI.Pagination 1024 1 1 = None.
Proof. reflexivity. Qed.

Example handleBookshelvesChange_text :
  UI.handleBookshelvesChange "fantasy, sci-fi ,, favorites "
  = ["fantasy"; "sci-fi"; "favorites"].
Proof. reflexivity. Qed.

Example renderRating_half : UI.renderRating (7 # 2) = [true; true; true; false; false].
Proof. reflexivity. Qed.

Example calculateReadPercentage_third :
  UI.calculateReadPercentage (Some (bookStats [emma; duneDoc; duneDoc])) = 33.
Proof. reflexivity. Qed.

Example detailRequest_text : UI.detailRequest (Some "abc") = None.
Proof. reflexivity. Qed.

(** The collection after the first create. *)
Lemma reachable_duneDoc : reachable stampDate plainRegExp insertionOrder [duneDoc].
Proof.
  exact (reachable_step stampDate plainRegExp insertionOrder []
           (POST_book dune 1000) (reachable_empty _ _ _)).
Defined.

Lemma insertionOrder_permutes (field : string) (direction : Z) (docs sorted : list Book) :
  insertionOrder field direction docs = Some sorted -> Permutation sorted docs.
Proof.
  unfold insertionOrder. destruct (field =? "")%string; [discriminate |].
  intros [= <-]. apply Permutation_refl.
Defined.

Lemma uniqueIds_sample : uniqueIds [duneDoc; emma].
Proof.
  unfold uniqueIds. cbn [map bookId duneDoc emma].
  constructor; [intros [H | []]; discriminate H |].
  constructor; [intros [] | constructor].
Defined.

Lemma reachable_unique_identifiers_witness :
  uniqueIds [duneDoc] /\ forall b, In b [duneDoc] -> 1 <= bookId b.
Proof.
  exact (reachable_unique_identifiers stampDate plainRegExp insertionOrder
           [duneDoc] reachable_duneDoc).
Defined.

Lemma reachable_well_formed_witness : Forall wellFormed [duneDoc].
Proof.
  exact (reachable_well_formed stampDate plainRegExp insertionOrder
           [duneDoc] reachable_duneDoc).
Defined.

Lemma delete_then_getBookById_witness :
  exists before after,
    [duneDoc; emma] = before ++ emma :: after
    /\ deleteBook [duneDoc; emma] "7" = (before ++ after, json_ (Message "Book removed"))
    /\ getBookById (before ++ after) "7" = notFound
    /\ deleteBook (before ++ after) "7" = (before ++ after, notFound).
Proof.
  exact (delete_then_getBookById [duneDoc; emma] "7" 7 emma
           uniqueIds_sample eq_refl eq_refl).
Defined.

Lemma create_then_delete_witness :
  exists db' doc,
    createBook stampDate [emma] dune 1000 = (db', mkResponse 201 (Document doc))
    /\ deleteBook db' (JS.toString (bookId doc)) = ([emma], json_ (Message "Book removed")).
Proof.
  eapply create_then_delete; [reflexivity | discriminate | exact safeMaximum_emma].
Defined.

Lemma update_then_getBookById_witness :
  exists db' doc,
    updateBook stampDate [duneDoc; emma] "7" (JObj emmaPayload) 2000
    = (db', json_ (Document doc))
    /\ getBookById db' "7" = json_ (Document doc)
    /\ updateBook stampDate db' "7" (JObj emmaPayload) 2000 = (db', json_ (Document doc)).
Proof.
  eapply (update_then_getBookById stampDate [duneDoc; emma] "7" 7);
    [reflexivity | reflexivity | discriminate | reflexivity].
Defined.

Lemma getBooks_filters_witness :
  exists r,
    getBooks stampDate plainRegExp insertionOrder [duneDoc; emma] readAndRated
    = json_ (Paginated r)
    /\ forall b, In b (data r) -> In b [duneDoc; emma].
Proof.
  eexists. split; [reflexivity |].
  destruct (getBooks_filters stampDate plainRegExp insertionOrder
              [duneDoc; emma] readAndRated _ insertionOrder_permutes eq_refl)
    as (selected & _ & _ & Hdata).
  intros b Hb. exact (proj1 (Hdata b Hb)).
Defined.

Lemma getBooks_page_size_witness :
  exists r,
    getBooks stampDate plainRegExp insertionOrder [duneDoc; emma; duneDoc] secondPage
    = json_ (Paginated r)
    /\ Z.of_nat (List.length (data r)) = Z.min 2 (Z.max 0 (totalItems r - (2 - 1) * 2)).
Proof.
  eexists. split; [reflexivity |].
  exact (proj1 (getBooks_page_size stampDate plainRegExp insertionOrder
                  [duneDoc; emma; duneDoc] secondPage _ 2 2
                  insertionOrder_permutes ltac:(reflexivity) ltac:(reflexivity)
                  eq_refl)).
Defined.

Lemma incomplete_body_400_witness :
  createBook stampDate [emma] (JObj []) 1000 = ([emma], invalidData)
  /\ forall id n, JS.parseInt id = Some n ->
                  updateBook stampDate [emma] id (JObj []) 1000 = ([emma], invalidData).
Proof.
  apply (incomplete_body_400 stampDate [emma] (JObj []) 1000).
  intros o H. injection H as <-. left. reflexivity.
Defined.

Lemma createBook_record_witness :
  get "title" duneFields = Some (JStr (title duneDoc))
  /\ dateAdded duneDoc = 1000
  /\ (get "rating" duneFields = None -> rating duneDoc = 0%Q).
Proof.
  destruct (createBook_record stampDate [] [duneDoc] duneFields 1000 duneDoc eq_refl)
    as ((Ht & _) & (Hd & _) & (Hr & _) & _).
  split; [exact Ht |]. split; [exact Hd | exact Hr].
Defined.

Lemma reachable_stats_bounds_witness :
  (0 <= statsAverageRating (bookStats [duneDoc]))%Q
  /\ (statsAverageRating (bookStats [duneDoc]) <= 5)%Q.
Proof.
  destruct (reachable_stats_bounds stampDate plainRegExp insertionOrder
              [duneDoc] reachable_duneDoc) as (H0 & H5 & _).
  split; [exact H0 | exact H5].
Defined.

Lemma getPageNumbers_spec_witness :
  StronglySorted Z.lt (UI.numbers (UI.getPageNumbers 1024 5 10))
  /\ In 5 (UI.numbers (UI.getPageNumbers 1024 5 10)).
Proof.
  destruct (getPageNumbers_spec 1024 5 10 ltac:(lia))
    as (Hsorted & _ & _ & Hnear & _).
  split; [exact Hsorted |]. apply Hnear; lia.
Defined.


Lemma card_link_opens_record_witness :
  exists path,
    UI.detailRequest (Some (JS.toString (bookId duneDoc))) = Some path
    /\ getBookById [duneDoc] path = json_ (Document duneDoc).
Proof.
  apply (card_link_opens_record stampDate plainRegExp insertionOrder [duneDoc] duneDoc
           reachable_duneDoc).
  left. reflexivity.
Defined.

Lemma handleBookshelvesChange_shown_witness :
  UI.handleBookshelvesChange (UI.shownTags (Some ["fantasy"; "sci-fi"]))
  = ["fantasy"; "sci-fi"].
Proof.
  apply (handleBookshelvesChange_shown ["fantasy"; "sci-fi"]).
  constructor; [| constructor; [| constructor]];
    (split; [discriminate | split; reflexivity]).
Defined.

Lemma createBook_same_answer_without_bookId_witness :
  createBook stampDate [emma] duneWithId 1000 = createBook stampDate [emma] dune 1000.
Proof.
  apply (createBook_same_answer_without_bookId stampDate [emma]
           (("bookId", JNum 42) :: duneFields) duneFields 1000).
  intros k Hk. cbn [get].
  destruct (String.eqb_spec k "bookId"); [contradiction | reflexivity].
Defined.

Lemma createBook_at_greatest_exact_identifier_witness :
  fst (createBook stampDate [duneDoc; atlas] dune 1000) = [duneDoc; atlas]
  /\ snd (createBook stampDate [duneDoc; atlas] dune 1000) = serverError.
Proof.
  destruct (createBook_at_greatest_exact_identifier stampDate [duneDoc; atlas] dune 1000)
    as [Hdb Hanswer].
  - split.
    + exists atlas. split; [right; now left | reflexivity].
    + intros b [<- | [<- | []]]; discriminate.
  - split; [exact Hdb |]. eapply Hanswer. reflexivity.
Defined.
